(** * ZarBox: the order ledger and invoice computations of [main.py]

    A shallow embedding of the data handling in [src/main.py] (the
    [InvoiceApp] widget and its [EditOrderDialog]): adding line items,
    the running total, finalising a draft into an order, editing and
    moving orders between the two ledger lists, the statistics table and
    the pickle store.

    Layout:
    - [Py]: the pieces of the Python runtime the handlers call
      ([str.strip], [str.replace], [float], [re.match], list indexing,
      [sum]), on code points and IEEE binary64 values;
    - [Item], [Order], [Form], [Dialog], [App]: the data the widget holds,
      and the file of the store;
    - the handlers, written in a state-and-exception monad over [App], and
      sessions of user events;
    - the predicates and sample states the properties are stated with, and
      [wrap_text];
    - [Window]: the handlers once more, with the rows of the three list
      widgets beside the data, and the words of the two patterns;
    - the properties of the handlers.

    What is left out: layout, styling, the pie charts and the PDF export.
    The handlers over [App] leave out the list widgets: a handler that asks
    a widget for the selected row, a dialog for its answer or the clock for
    the date takes that reading as an argument.  The handlers of [Window]
    read the row from the widget; of a row they keep the values its text is
    formatted from. *)

From Stdlib Require Import ZArith NArith List Bool Lia Ascii String.
From Stdlib Require Import Floats.SpecFloat.
From stdpp Require Import base option list strings gmap.

(* ===================================================================== *)
(** * The Python runtime *)
(* ===================================================================== *)

Module Py.

(** ** Text: a [str] is a sequence of Unicode code points *)

Definition char := N.
Definition text := list char.

Definition chr (a : ascii) : char := N_of_ascii a.
Global Arguments chr : simpl never.

(** [txt "abc"] is the [str] with the code points of an ASCII literal. *)
Definition txt (s : string) : text := map chr (list_ascii_of_string s).

Definition in_range (lo hi c : N) : bool := ((lo <=? c) && (c <=? hi))%N.

Definition text_eqb (a b : text) : bool := bool_decide (a = b).

(** [str.isspace] on one code point ([Py_UNICODE_ISSPACE]). *)
Definition isspace (c : char) : bool :=
  in_range 9 13 c || in_range 28 32 c || (c =? 133)%N || (c =? 160)%N
  || (c =? 5760)%N || in_range 8192 8202 c || in_range 8232 8233 c
  || (c =? 8239)%N || (c =? 8287)%N || (c =? 12288)%N.

Fixpoint drop_while {A} (p : A -> bool) (l : list A) : list A :=
  match l with
  | [] => []
  | x :: r => if p x then drop_while p r else l
  end.

Fixpoint take_while {A} (p : A -> bool) (l : list A) : list A :=
  match l with
  | [] => []
  | x :: r => if p x then x :: take_while p r else []
  end.

Definition strip_with (p : char -> bool) (s : text) : text :=
  rev (drop_while p (rev (drop_while p s))).

(** [s.strip()] *)
Definition strip (s : text) : text := strip_with isspace s.

(** [s.replace(c, "")] for a one-character [c] *)
Definition remove_char (c : char) (s : text) : text :=
  filter (fun x => x <> c) s.

(** ** Decimal digits

    The code points of category Nd come in runs of ten, zero first (the
    mathematical digits at U+1D7CE are five such runs in a row).  The
    table is the one of Unicode 14. *)

Definition decimal_runs : list (N * N) :=
  map (fun z => (z, 10%N))
    [ 0x30; 0x660; 0x6f0; 0x7c0; 0x966; 0x9e6; 0xa66; 0xae6; 0xb66; 0xbe6;
      0xc66; 0xce6; 0xd66; 0xde6; 0xe50; 0xed0; 0xf20; 0x1040; 0x1090;
      0x17e0; 0x1810; 0x1946; 0x19d0; 0x1a80; 0x1a90; 0x1b50; 0x1bb0;
      0x1c40; 0x1c50; 0xa620; 0xa8d0; 0xa900; 0xa9d0; 0xa9f0; 0xaa50;
      0xabf0; 0xff10; 0x104a0; 0x10d30; 0x11066; 0x110f0; 0x11136;
      0x111d0; 0x112f0; 0x11450; 0x114d0; 0x11650; 0x116c0; 0x11730;
      0x118e0; 0x11950; 0x11c50; 0x11d50; 0x11da0; 0x16a60; 0x16ac0;
      0x16b50 ]%N
  ++ [ (0x1d7ce, 50) ]%N
  ++ map (fun z => (z, 10%N)) [ 0x1e140; 0x1e2f0; 0x1e950; 0x1fbf0 ]%N.

(** [Py_UNICODE_TODECIMAL]: the digit value of a decimal digit. *)
Definition unicode_decimal (c : char) : option N :=
  match List.find (fun r => in_range (fst r) (fst r + snd r - 1) c) decimal_runs with
  | Some (z, _) => Some ((c - z) mod 10)%N
  | None => None
  end.

(** [str.isdecimal] on one code point; also the class [\d] of [re]. *)
Definition isdecimal (c : char) : bool :=
  match unicode_decimal c with Some _ => true | None => false end.

(** ** Floats: IEEE 754 binary64, round to nearest even *)

Definition float := spec_float.

Definition prec : Z := 53.
Definition emax : Z := 1024.

Definition fzero : float := S754_zero false.
Definition fmul : float -> float -> float := SFmul prec emax.
Definition fadd : float -> float -> float := SFadd prec emax.
Definition fdiv : float -> float -> float := SFdiv prec emax.
Definition fle : float -> float -> bool := SFleb.
Definition flt : float -> float -> bool := SFltb.
Definition feq : float -> float -> bool := SFeqb.

(** [float(n)] for an [int] *)
Definition float_of_Z (n : Z) : float := binary_normalize prec emax n 0 false.

(** The binary64 value nearest to [(-1)^neg * m * 10^e]. *)
Definition float_of_decimal (neg : bool) (m : N) (digits : nat) (e : Z) : float :=
  match m with
  | N0 => S754_zero neg
  | Npos p =>
      if (310 <? e)%Z then S754_infinity neg
      else if (e <? - (Z.of_nat digits + 330))%Z then S754_zero neg
      else if (0 <=? e)%Z then
        binary_normalize prec emax
          ((if neg then Z.neg p else Z.pos p) * 10 ^ e)%Z 0 neg
      else
        SFdiv prec emax (S754_finite neg p 0)
                        (S754_finite false (Z.to_pos (10 ^ (- e))) 0)
  end.

(** ** [float(s)] for a [str]

    The constructor first maps the text to ASCII (a code point outside
    ASCII becomes a space if it is white space, the ASCII digit of its
    value if it is a decimal digit, and [?] otherwise), checks and drops
    the underscores that group digits, strips ASCII white space and then
    reads a decimal literal, an infinity or a NaN.  Anything else is a
    [ValueError]; here the parser answers [None]. *)

Definition is_digit (c : char) : bool := in_range 48 57 c.

(** [Py_ISSPACE]: the white space of the C locale. *)
Definition is_ascii_space (c : char) : bool := in_range 9 13 c || (c =? 32)%N.

Definition to_ascii (c : char) : char :=
  if (c <? 127)%N then c
  else if isspace c then 32%N
  else match unicode_decimal c with
       | Some d => (48 + d)%N
       | None => chr "?"
       end.

(** An underscore must stand between two digits; [prev] is the character
    before [s] (NUL at the start). *)
Fixpoint drop_underscores (prev : char) (s : text) : option text :=
  match s with
  | [] => if (prev =? chr "_")%N then None else Some []
  | c :: r =>
      if (c =? chr "_")%N then
        if is_digit prev then drop_underscores c r else None
      else if (prev =? chr "_")%N && negb (is_digit c) then None
      else cons c <$> drop_underscores c r
  end.

(** An optional sign: whether it is a minus, and the rest. *)
Definition split_sign (s : text) : bool * text :=
  match s with
  | c :: r =>
      if (c =? chr "-")%N then (true, r)
      else if (c =? chr "+")%N then (false, r)
      else (false, s)
  | [] => (false, s)
  end.

(** The value of a run of ASCII digits. *)
Definition digits_value (ds : text) : N :=
  fold_left (fun acc d => (10 * acc + (d - 48))%N) ds 0%N.

Definition is_exp_mark (c : char) : bool := (c =? chr "e")%N || (c =? chr "E")%N.

(** The exponent part from its marker on: it must reach the end of the text. *)
Definition parse_exponent (s : text) : option Z :=
  match s with
  | [] => Some 0%Z
  | c :: r =>
      if is_exp_mark c then
        let (eneg, r') := split_sign r in
        let ds := take_while is_digit r' in
        match ds, drop_while is_digit r' with
        | _ :: _, [] =>
            let v := Z.of_N (digits_value ds) in
            Some (if eneg then (- v)%Z else v)
        | _, _ => None
        end
      else None
  end.

(** An unsigned decimal literal: digits, an optional point and more
    digits (one digit at least), an optional exponent. *)
Definition parse_decimal (neg : bool) (s : text) : option float :=
  let ip := take_while is_digit s in
  let r1 := drop_while is_digit s in
  let '(fp, r2) :=
    match r1 with
    | c :: r =>
        if (c =? chr ".")%N then (take_while is_digit r, drop_while is_digit r)
        else ([], r1)
    | [] => ([], r1)
    end in
  match ip ++ fp with
  | [] => None
  | ds =>
      e ← parse_exponent r2;
      Some (float_of_decimal neg (digits_value ds) (length ds)
                             (e - Z.of_nat (length fp))%Z)
  end.

Definition to_lower (c : char) : char :=
  if in_range 65 90 c then (c + 32)%N else c.

(** [inf], [infinity] and [nan], in any case. *)
Definition parse_inf_or_nan (neg : bool) (s : text) : option float :=
  let l := map to_lower s in
  if text_eqb l (txt "inf") || text_eqb l (txt "infinity") then Some (S754_infinity neg)
  else if text_eqb l (txt "nan") then Some S754_nan
  else None.

Definition parse_float (s : text) : option float :=
  s1 ← drop_underscores 0%N (map to_ascii s);
  let (neg, body) := split_sign (strip_with is_ascii_space s1) in
  match parse_decimal neg body with
  | Some x => Some x
  | None => parse_inf_or_nan neg body
  end.

(** ** Regular expressions

    The two patterns of the program only use literals, character classes,
    concatenation and repetition, and both are anchored ([^...$]); they are
    matched with derivatives. *)

Inductive regex :=
| Void
| Eps
| Class (p : char -> bool)
| Seq (r1 r2 : regex)
| Alt (r1 r2 : regex)
| Star (r : regex).

Definition Lit (a : ascii) : regex := Class (N.eqb (chr a)).

(** [r+] *)
Definition Plus (r : regex) : regex := Seq r (Star r).

(** [r{n}] *)
Fixpoint Repeat (n : nat) (r : regex) : regex :=
  match n with
  | O => Eps
  | S k => Seq r (Repeat k r)
  end.

Fixpoint nullable (r : regex) : bool :=
  match r with
  | Void => false
  | Eps => true
  | Class _ => false
  | Seq r1 r2 => nullable r1 && nullable r2
  | Alt r1 r2 => nullable r1 || nullable r2
  | Star _ => true
  end.

Fixpoint deriv (c : char) (r : regex) : regex :=
  match r with
  | Void => Void
  | Eps => Void
  | Class p => if p c then Eps else Void
  | Seq r1 r2 =>
      if nullable r1 then Alt (Seq (deriv c r1) r2) (deriv c r2)
      else Seq (deriv c r1) r2
  | Alt r1 r2 => Alt (deriv c r1) (deriv c r2)
  | Star r1 => Seq (deriv c r1) (Star r1)
  end.

(** The whole of [s] is a word of [r]. *)
Definition fullmatch (r : regex) (s : text) : bool :=
  nullable (fold_left (fun r c => deriv c r) s r).

(** [re.match("^r$", s)] finds a match: [$] stands at the end of the text
    or just before a line feed that ends it. *)
Definition re_match (r : regex) (s : text) : bool :=
  fullmatch (Seq r (Alt Eps (Class (N.eqb 10)))) s.

(** [09\d{9}] *)
Definition phone_pattern : regex :=
  Seq (Lit "0") (Seq (Lit "9") (Repeat 9 (Class isdecimal))).

Section Word.

(** [str.isalnum] on one code point: a table of several hundred ranges of
    the interpreter's Unicode database, taken as given. *)
Variable isalnum : char -> bool.

(** The class [\w] *)
Definition is_word (c : char) : bool := isalnum c || (c =? chr "_")%N.

(** The class [[\w\.-]] *)
Definition is_word_dot_dash (c : char) : bool :=
  is_word c || (c =? chr ".")%N || (c =? chr "-")%N.

(** [[\w\.-]+@[\w\.-]+\.\w+] *)
Definition email_pattern : regex :=
  Seq (Plus (Class is_word_dot_dash))
    (Seq (Lit "@")
       (Seq (Plus (Class is_word_dot_dash))
          (Seq (Lit ".") (Plus (Class is_word))))).

End Word.

(** [str.isalnum] restricted to ASCII, for running examples. *)
Definition ascii_isalnum (c : char) : bool :=
  in_range 48 57 c || in_range 65 90 c || in_range 97 122 c.

(** ** Exceptions *)

Inductive exn :=
| IndexError
| ValueError
| UnicodeDecodeError        (* a subclass of ValueError *)
| AttributeError
| EOFError
| UnpicklingError
| ImportError
| FileNotFoundError
| PermissionError.

Definition exn_eqb (a b : exn) : bool :=
  match a, b with
  | IndexError, IndexError | ValueError, ValueError
  | UnicodeDecodeError, UnicodeDecodeError | AttributeError, AttributeError
  | EOFError, EOFError | UnpicklingError, UnpicklingError
  | ImportError, ImportError | FileNotFoundError, FileNotFoundError
  | PermissionError, PermissionError => true
  | _, _ => false
  end.

(** [isinstance(e, cls)] for the classes above *)
Definition isinstance (e cls : exn) : bool :=
  exn_eqb e cls ||
  match e, cls with
  | UnicodeDecodeError, ValueError => true
  | _, _ => false
  end.

(** ** Lists indexed by an [int]: a negative index counts from the end *)

Definition norm_index {A} (l : list A) (i : Z) : option nat :=
  let n := Z.of_nat (length l) in
  let j := if (i <? 0)%Z then (i + n)%Z else i in
  if (0 <=? j)%Z && (j <? n)%Z then Some (Z.to_nat j) else None.

(** [l[i]] *)
Definition getitem {A} (l : list A) (i : Z) : exn + A :=
  match norm_index l i with
  | Some j => match l !! j with Some x => inr x | None => inl IndexError end
  | None => inl IndexError
  end.

(** [l[i] = x] *)
Definition setitem {A} (l : list A) (i : Z) (x : A) : exn + list A :=
  match norm_index l i with
  | Some j => inr (<[j := x]> l)
  | None => inl IndexError
  end.

(** [l.pop(i)]: the element and what is left *)
Definition pop {A} (l : list A) (i : Z) : exn + (A * list A) :=
  match norm_index l i with
  | Some j => match l !! j with Some x => inr (x, delete j l) | None => inl IndexError end
  | None => inl IndexError
  end.

(** [sum(xs)] of floats: the items are added from left to right, starting
    from the integer 0, which is the float [+0.0] once a float is added;
    the sum of no item is written [+0.0] too.  (From CPython 3.12 on the
    partial sums are compensated; the properties below only use that the
    sum of no item is 0.) *)
Definition sum (xs : list float) : float := fold_left fadd xs fzero.

End Py.

Import Py.

(* ===================================================================== *)
(** * The data of the application *)
(* ===================================================================== *)

(** A line item: the tuple [(name, price, quantity, unit, total)]. *)
Module Item.
Record t := mk {
  name : text;
  price : float;
  quantity : float;
  unit : text;
  total : float
}.
End Item.

(** An order: the dict built by [add_to_registered_orders]. *)
Module Order.
Record t := mk {
  date : text;
  seller_name : text;
  seller_phone : text;
  seller_email : text;
  seller_address : text;
  buyer_name : text;
  buyer_phone : text;
  buyer_address : text;
  buyer_postal : text;
  buyer_country : text;
  items : list Item.t;
  total : float
}.
End Order.

(** The line edits and the unit combo box of the home tab. *)
Module Form.
Record t := mk {
  seller_name : text;
  seller_phone : text;
  seller_email : text;
  seller_address : text;
  buyer_name : text;
  buyer_phone : text;
  buyer_address : text;
  buyer_postal : text;
  buyer_country : text;
  item_name : text;
  item_price : text;
  item_quantity : text;
  item_unit : text
}.

(** The first entry of the combo box, U+0639 U+062F U+062F. *)
Definition first_unit : text := [1593; 1583; 1583]%N.

Definition empty : t := mk [] [] [] [] [] [] [] [] [] [] [] [] first_unit.
End Form.

(** The line edits of [EditOrderDialog] when the dialog is accepted. *)
Module Dialog.
Record t := mk {
  buyer_name : text;
  buyer_phone : text;
  buyer_address : text;
  buyer_postal : text;
  buyer_country : text
}.
End Dialog.

(** ** The store

    The byte format of [pickle] belongs to the Python library and is not
    reproduced: a file is described by what [pickle.load] makes of its
    bytes, an object or an exception, and [pickle.dump] of an object writes
    bytes that load back to that object.  Of the objects only the method
    [get] is used: a dict of ledger lists has it, [PyOther] stands for the
    objects that have no such attribute. *)

Inductive PyObj :=
| PyDict (d : gmap string (list Order.t))
| PyOther.

Inductive Content :=
| Pickle (v : PyObj)
| Corrupt (e : exn).

(** The file [orders.pkl]: its content if it exists, and whether it can
    be opened for reading and for writing. *)
Record File := mkFile {
  content : option Content;
  readable : bool;
  writable : bool
}.

(** The four values of the statistics table. *)
Record Stats := mkStats {
  total_reg_orders : nat;
  total_unreg_orders : nat;
  total_amount : float;
  avg_order : float
}.

(** The state of [InvoiceApp]; [total_label] is the amount the label
    shows and [stats_table] the values the table shows. *)
Record App := mkApp {
  form : Form.t;
  items : list Item.t;
  registered_orders : list Order.t;
  unregistered_orders : list Order.t;
  total_label : float;
  stats_table : Stats;
  data_file : File
}.

Definition with_form (f : Form.t) (s : App) : App :=
  mkApp f (items s) (registered_orders s) (unregistered_orders s)
        (total_label s) (stats_table s) (data_file s).
Definition with_items (l : list Item.t) (s : App) : App :=
  mkApp (form s) l (registered_orders s) (unregistered_orders s)
        (total_label s) (stats_table s) (data_file s).
Definition with_registered (l : list Order.t) (s : App) : App :=
  mkApp (form s) (items s) l (unregistered_orders s)
        (total_label s) (stats_table s) (data_file s).
Definition with_unregistered (l : list Order.t) (s : App) : App :=
  mkApp (form s) (items s) (registered_orders s) l
        (total_label s) (stats_table s) (data_file s).
Definition with_total_label (x : float) (s : App) : App :=
  mkApp (form s) (items s) (registered_orders s) (unregistered_orders s)
        x (stats_table s) (data_file s).
Definition with_stats (t : Stats) (s : App) : App :=
  mkApp (form s) (items s) (registered_orders s) (unregistered_orders s)
        (total_label s) t (data_file s).
Definition with_file (f : File) (s : App) : App :=
  mkApp (form s) (items s) (registered_orders s) (unregistered_orders s)
        (total_label s) (stats_table s) f.

(** ** Message boxes *)

Inductive Message :=
| Blank                 (* the empty text *)
| EmptyName             (* the item name cannot be empty *)
| InvalidNumber         (* price and quantity must be positive numbers *)
| EmptySellerName       (* the seller name cannot be empty *)
| EmptyBuyerName        (* the customer name cannot be empty *)
| InvalidSellerPhone    (* the seller phone must be valid *)
| InvalidPhone          (* the customer phone must be valid *)
| InvalidEmail          (* the seller email must be valid *)
| NoItems               (* no item has been entered *)
| NothingSelected       (* please select an item / an order *)
| OrderRegistered
| OrderStored
| OrderEdited
| OrderMoved
| DataCleared.

(** What a handler showed before it returned. *)
Inductive Box :=
| Warning (m : Message)
| Information (m : Message)
| NoBox.

(* ===================================================================== *)
(** * The monad of the handlers: state and exceptions *)
(* ===================================================================== *)

(** A handler ends by returning or by raising; both leave a state. *)
Inductive Result (A : Type) :=
| Return (a : A) (s : App)
| Raise (e : exn) (s : App).
Arguments Return {A} a s.
Arguments Raise {A} e s.

Definition state_of {A} (r : Result A) : App :=
  match r with Return _ s => s | Raise _ s => s end.

Definition M (A : Type) := App -> Result A.

Definition ret {A} (a : A) : M A := fun s => Return a s.

Definition bind {A B} (m : M A) (k : A -> M B) : M B :=
  fun s => match m s with
           | Return a s' => k a s'
           | Raise e s' => Raise e s'
           end.

Declare Scope py_scope.
Delimit Scope py_scope with py.
Notation "x <- m ;; k" := (bind m (fun x => k))
  (at level 100, m at next level, right associativity) : py_scope.
Notation "m ;; k" := (bind m (fun _ => k))
  (at level 100, right associativity) : py_scope.
Local Open Scope py_scope.

Definition raise {A} (e : exn) : M A := fun s => Raise e s.
Definition gets {A} (f : App -> A) : M A := fun s => Return (f s) s.
Definition modify (f : App -> App) : M unit := fun s => Return tt (f s).

(** The value of an expression that may raise *)
Definition lift {A} (x : exn + A) : M A :=
  match x with inl e => raise e | inr a => ret a end.

(** [try: m  except classes: h] *)
Definition try_except {A} (m : M A) (classes : list exn) (h : M A) : M A :=
  fun s => match m s with
           | Return a s' => Return a s'
           | Raise e s' =>
               if existsb (isinstance e) classes then h s' else Raise e s'
           end.

(** [try: m  except Exception: h] *)
Definition try_except_Exception {A} (m : M A) (h : M A) : M A :=
  fun s => match m s with
           | Return a s' => Return a s'
           | Raise _ s' => h s'
           end.

Definition warning (m : Message) : M Box := ret (Warning m).
Definition information (m : Message) : M Box := ret (Information m).

(** [float(s)] *)
Definition float_ (s : text) : M float :=
  match parse_float s with
  | Some x => ret x
  | None => raise ValueError
  end.

(* ===================================================================== *)
(** * The handlers of [InvoiceApp] *)
(* ===================================================================== *)

(** ** Persistence *)

(** [open(self.data_file, 'rb')] followed by [pickle.load(f)] *)
Definition read_pickle : M PyObj :=
  f <- gets data_file ;;
  if readable f then
    match content f with
    | Some (Pickle v) => ret v
    | Some (Corrupt e) => raise e
    | None => raise FileNotFoundError
    end
  else raise PermissionError.

(** [data.get(key, [])] *)
Definition dict_get (data : PyObj) (key : string) : M (list Order.t) :=
  match data with
  | PyDict d => ret (default [] (d !! key))
  | PyOther => raise AttributeError
  end.

Definition load_data : M unit :=
  try_except
    (f <- gets data_file ;;
     if bool_decide (is_Some (content f)) then
       data <- read_pickle ;;
       reg <- dict_get data "registered" ;;
       modify (with_registered reg) ;;
       unreg <- dict_get data "unregistered" ;;
       modify (with_unregistered unreg)
     else
       modify (with_registered []) ;;
       modify (with_unregistered []))
    [UnpicklingError; EOFError; AttributeError]
    (modify (with_registered []) ;;
     modify (with_unregistered [])).

(** [open(self.data_file, 'wb')] followed by [pickle.dump(obj, f)].  A file
    that is not writable makes [open] raise before anything is written; a
    [dump] that fails after [open] has emptied the file is not modelled. *)
Definition write_pickle (obj : PyObj) : M unit :=
  f <- gets data_file ;;
  if writable f then
    modify (with_file (mkFile (Some (Pickle obj)) (readable f) (writable f)))
  else raise PermissionError.

Definition save_data : M unit :=
  try_except_Exception
    (s <- gets id ;;
     write_pickle
       (PyDict (<["registered" := registered_orders s]>
                (<["unregistered" := unregistered_orders s]> ∅))))
    (ret tt).

(** ** Display *)

Definition update_total : M unit :=
  s <- gets id ;;
  let total_all := Py.sum (map Item.total (items s)) in
  modify (with_total_label total_all).

(** The sum of the line totals of an order. *)
Definition order_amount (order : Order.t) : float :=
  Py.sum (map Item.total (Order.items order)).

Definition update_statistics : M unit :=
  s <- gets id ;;
  let total_reg_orders := length (registered_orders s) in
  let total_unreg_orders := length (unregistered_orders s) in
  let total_amount := Py.sum (map order_amount (registered_orders s)) in
  let avg_order :=
    if (0 <? total_reg_orders)%nat
    then fdiv total_amount (float_of_Z (Z.of_nat total_reg_orders))
    else fzero in
  modify (with_stats
            (mkStats total_reg_orders total_unreg_orders total_amount avg_order)).

(** ** The draft invoice *)

Definition set_item_fields (n p q : text) (f : Form.t) : Form.t :=
  Form.mk (Form.seller_name f) (Form.seller_phone f) (Form.seller_email f)
          (Form.seller_address f) (Form.buyer_name f) (Form.buyer_phone f)
          (Form.buyer_address f) (Form.buyer_postal f) (Form.buyer_country f)
          n p q (Form.item_unit f).

Definition add_item : M Box :=
  f <- gets form ;;
  let name := strip (Form.item_name f) in
  if text_eqb name [] then warning EmptyName
  else
    parsed <-
      try_except
        (price <- float_ (strip (remove_char (chr ",") (Form.item_price f))) ;;
         quantity <- float_ (strip (Form.item_quantity f)) ;;
         if fle price fzero || fle quantity fzero then raise ValueError
         else ret (Some (price, quantity)))
        [ValueError]
        (ret None) ;;
    match parsed with
    | None => warning InvalidNumber
    | Some (price, quantity) =>
        let unit := Form.item_unit f in
        let total := fmul price quantity in
        s <- gets id ;;
        modify (with_items (items s ++ [Item.mk name price quantity unit total])) ;;
        update_total ;;
        modify (with_form (set_item_fields [] [] [] f)) ;;
        ret NoBox
    end.

(** [selected] is the row of the first selected entry of the list widget,
    if any; [answer] is whether the question box was answered with Yes. *)
Definition delete_item (selected : option Z) (answer : bool) : M Box :=
  match selected with
  | None => warning NothingSelected
  | Some row =>
      if answer then
        s <- gets id ;;
        r <- lift (pop (items s) row) ;;
        modify (with_items (snd r)) ;;
        update_total ;;
        ret NoBox
      else ret NoBox
  end.

Definition clear_items (answer : bool) : M Box :=
  if answer then
    modify (with_items []) ;;
    update_total ;;
    ret NoBox
  else ret NoBox.

Definition clear_form : M unit :=
  modify (with_items []) ;;
  f <- gets form ;;
  modify (with_form (Form.mk [] [] [] [] [] [] [] [] [] [] [] [] (Form.item_unit f))) ;;
  update_total.

(** ** Finalising the draft *)

Section Handlers.

(** [str.isalnum], which the class [\w] of the email pattern refers to. *)
Variable isalnum : char -> bool.

Definition validate_inputs (f : Form.t) : bool * Message :=
  if text_eqb (strip (Form.seller_name f)) [] then (false, EmptySellerName)
  else if text_eqb (strip (Form.buyer_name f)) [] then (false, EmptyBuyerName)
  else if negb (text_eqb (Form.seller_phone f) [])
          && negb (re_match phone_pattern (Form.seller_phone f))
  then (false, InvalidSellerPhone)
  else if negb (text_eqb (Form.buyer_phone f) [])
          && negb (re_match phone_pattern (Form.buyer_phone f))
  then (false, InvalidPhone)
  else if negb (text_eqb (Form.seller_email f) [])
          && negb (re_match (email_pattern isalnum) (Form.seller_email f))
  then (false, InvalidEmail)
  else (true, Blank).

(** The order dict made from the form; [today] is the date of the clock,
    formatted [%Y/%m/%d]. *)
Definition make_order (today : text) (f : Form.t) (its : list Item.t) : Order.t :=
  let total_all := Py.sum (map Item.total its) in
  Order.mk today
           (Form.seller_name f) (Form.seller_phone f) (Form.seller_email f)
           (Form.seller_address f)
           (Form.buyer_name f) (Form.buyer_phone f) (Form.buyer_address f)
           (Form.buyer_postal f) (Form.buyer_country f)
           its total_all.

Definition add_to_registered_orders (today : text) : M Box :=
  f <- gets form ;;
  match validate_inputs f with
  | (false, error) => warning error
  | (true, _) =>
      its <- gets items ;;
      if bool_decide (its = []) then warning NoItems
      else
        let order := make_order today f its in
        s <- gets id ;;
        modify (with_registered (registered_orders s ++ [order])) ;;
        save_data ;;
        update_statistics ;;
        clear_form ;;
        information OrderRegistered
  end.

Definition add_to_unregistered_orders (today : text) : M Box :=
  f <- gets form ;;
  match validate_inputs f with
  | (false, error) => warning error
  | (true, _) =>
      its <- gets items ;;
      if bool_decide (its = []) then warning NoItems
      else
        let order := make_order today f its in
        s <- gets id ;;
        modify (with_unregistered (unregistered_orders s ++ [order])) ;;
        save_data ;;
        update_statistics ;;
        clear_form ;;
        information OrderStored
  end.

End Handlers.

(** ** The ledger *)

(** [EditOrderDialog.get_updated_order] *)
Definition get_updated_order (order : Order.t) (d : Dialog.t) : Order.t :=
  Order.mk (Order.date order)
           (Order.seller_name order) (Order.seller_phone order)
           (Order.seller_email order) (Order.seller_address order)
           (strip (Dialog.buyer_name d)) (strip (Dialog.buyer_phone d))
           (strip (Dialog.buyer_address d)) (strip (Dialog.buyer_postal d))
           (strip (Dialog.buyer_country d))
           (Order.items order) (Order.total order).

Definition order_list (is_registered : bool) (s : App) : list Order.t :=
  if is_registered then registered_orders s else unregistered_orders s.

Definition with_order_list (is_registered : bool) (l : list Order.t) : App -> App :=
  if is_registered then with_registered l else with_unregistered l.

(** [row] is the row of the double-clicked entry; [dialog] holds the line
    edits of the dialog if it was accepted, and is [None] if it was
    cancelled. *)
Definition edit_order (row : Z) (is_registered : bool) (dialog : option Dialog.t)
  : M Box :=
  l <- gets (order_list is_registered) ;;
  order <- lift (getitem l row) ;;
  match dialog with
  | Some d =>
      let updated_order := get_updated_order order d in
      if text_eqb (strip (Order.buyer_name updated_order)) [] then
        warning EmptyBuyerName
      else if negb (text_eqb (Order.buyer_phone updated_order) [])
              && negb (re_match phone_pattern (Order.buyer_phone updated_order))
      then warning InvalidPhone
      else
        l' <- lift (setitem l row updated_order) ;;
        modify (with_order_list is_registered l') ;;
        save_data ;;
        update_statistics ;;
        information OrderEdited
  | None => ret NoBox
  end.

Definition move_to_registered (selected : option Z) (answer : bool) : M Box :=
  match selected with
  | None => warning NothingSelected
  | Some row =>
      if answer then
        s <- gets id ;;
        r <- lift (pop (unregistered_orders s) row) ;;
        modify (with_unregistered (snd r)) ;;
        s' <- gets id ;;
        modify (with_registered (registered_orders s' ++ [fst r])) ;;
        save_data ;;
        update_statistics ;;
        information OrderMoved
      else ret NoBox
  end.

Definition delete_registered_order (selected : option Z) (answer : bool) : M Box :=
  match selected with
  | None => warning NothingSelected
  | Some row =>
      if answer then
        s <- gets id ;;
        r <- lift (pop (registered_orders s) row) ;;
        modify (with_registered (snd r)) ;;
        save_data ;;
        update_statistics ;;
        ret NoBox
      else ret NoBox
  end.

Definition delete_unregistered_order (selected : option Z) (answer : bool) : M Box :=
  match selected with
  | None => warning NothingSelected
  | Some row =>
      if answer then
        s <- gets id ;;
        r <- lift (pop (unregistered_orders s) row) ;;
        modify (with_unregistered (snd r)) ;;
        save_data ;;
        update_statistics ;;
        ret NoBox
      else ret NoBox
  end.

Definition clear_all_data (answer : bool) : M Box :=
  if answer then
    modify (with_registered []) ;;
    modify (with_unregistered []) ;;
    modify (with_items []) ;;
    update_total ;;
    update_statistics ;;
    save_data ;;
    information DataCleared
  else ret NoBox.

(** ** Start-up: [InvoiceApp.__init__] *)

Definition blank (file : File) : App :=
  mkApp Form.empty [] [] [] fzero (mkStats 0 0 fzero fzero) file.

Definition init_ui : M unit := update_statistics.

Definition InvoiceApp_init (file : File) : Result unit :=
  (load_data ;; init_ui) (blank file).

(** ** Sessions

    What the user does between two handlers is typing into a line edit or
    picking a unit; a click runs a handler.  An exception that leaves a
    handler ends the session. *)

Inductive Field :=
| seller_name | seller_phone | seller_email | seller_address
| buyer_name | buyer_phone | buyer_address | buyer_postal | buyer_country
| item_name | item_price | item_quantity | item_unit.

Definition set_field (fd : Field) (v : text) (f : Form.t) : Form.t :=
  let get (fd' : Field) (old : text) : text :=
    match fd, fd' with
    | seller_name, seller_name | seller_phone, seller_phone
    | seller_email, seller_email | seller_address, seller_address
    | buyer_name, buyer_name | buyer_phone, buyer_phone
    | buyer_address, buyer_address | buyer_postal, buyer_postal
    | buyer_country, buyer_country | item_name, item_name
    | item_price, item_price | item_quantity, item_quantity
    | item_unit, item_unit => v
    | _, _ => old
    end in
  Form.mk (get seller_name (Form.seller_name f))
          (get seller_phone (Form.seller_phone f))
          (get seller_email (Form.seller_email f))
          (get seller_address (Form.seller_address f))
          (get buyer_name (Form.buyer_name f))
          (get buyer_phone (Form.buyer_phone f))
          (get buyer_address (Form.buyer_address f))
          (get buyer_postal (Form.buyer_postal f))
          (get buyer_country (Form.buyer_country f))
          (get item_name (Form.item_name f))
          (get item_price (Form.item_price f))
          (get item_quantity (Form.item_quantity f))
          (get item_unit (Form.item_unit f)).

Inductive Event :=
| Typed (fd : Field) (v : text)
| AddItem
| DeleteItem (selected : option Z) (answer : bool)
| ClearItems (answer : bool)
| AddToRegistered (today : text)
| AddToUnregistered (today : text)
| EditOrder (row : Z) (is_registered : bool) (dialog : option Dialog.t)
| MoveToRegistered (selected : option Z) (answer : bool)
| DeleteRegistered (selected : option Z) (answer : bool)
| DeleteUnregistered (selected : option Z) (answer : bool)
| ClearAllData (answer : bool).

Definition handle (isalnum : char -> bool) (ev : Event) : M Box :=
  match ev with
  | Typed fd v => modify (fun s => with_form (set_field fd v (form s)) s) ;; ret NoBox
  | AddItem => add_item
  | DeleteItem selected answer => delete_item selected answer
  | ClearItems answer => clear_items answer
  | AddToRegistered today => add_to_registered_orders isalnum today
  | AddToUnregistered today => add_to_unregistered_orders isalnum today
  | EditOrder row is_registered dialog => edit_order row is_registered dialog
  | MoveToRegistered selected answer => move_to_registered selected answer
  | DeleteRegistered selected answer => delete_registered_order selected answer
  | DeleteUnregistered selected answer => delete_unregistered_order selected answer
  | ClearAllData answer => clear_all_data answer
  end.

(** The boxes shown so far, latest first. *)
Fixpoint run (isalnum : char -> bool) (evs : list Event) (shown : list Box)
  : M (list Box) :=
  match evs with
  | [] => ret shown
  | ev :: rest =>
      b <- handle isalnum ev ;;
      run isalnum rest (b :: shown)
  end.

(* ===================================================================== *)
(** * The vocabulary of the properties, and sample states *)
(* ===================================================================== *)

(** ** What the handlers do, by name *)

(** What a handler showed, if it returned. *)
Definition shown {A} (r : Result A) : option A :=
  match r with Return a _ => Some a | Raise _ _ => None end.

(** The texts [add_item] hands to [float]. *)
Definition price_text (f : Form.t) : text :=
  strip (remove_char (chr ",") (Form.item_price f)).
Definition quantity_text (f : Form.t) : text :=
  strip (Form.item_quantity f).

(** The item a successful [add_item] appends. *)
Definition new_item (f : Form.t) (price quantity : float) : Item.t :=
  Item.mk (strip (Form.item_name f)) price quantity (Form.item_unit f)
          (fmul price quantity).

(** The state a successful [add_item] leaves. *)
Definition item_added (it : Item.t) (s : App) : App :=
  let s1 := with_items (items s ++ [it]) s in
  let s2 := with_total_label (Py.sum (map Item.total (items s1))) s1 in
  with_form (set_item_fields [] [] [] (form s)) s2.

(** How the ledger handlers end: save, refresh the statistics, report. *)
Definition committed (b : Box) : M Box :=
  (save_data ;; update_statistics ;; ret b)%py.

(** How the two finalising handlers end. *)
Definition finalized (b : Box) : M Box :=
  (save_data ;; update_statistics ;; clear_form ;; ret b)%py.

(** How [clear_all_data] ends. *)
Definition cleared : M Box :=
  (update_statistics ;; save_data ;; information DataCleared)%py.

Definition with_ledger (reg unreg : list Order.t) (s : App) : App :=
  with_unregistered unreg (with_registered reg s).

(** The exceptions [load_data] handles. *)
Definition caught (e : exn) : bool :=
  existsb (isinstance e) [UnpicklingError; EOFError; AttributeError].

Definition save_then_load : M unit := (save_data ;; load_data)%py.

(** ** What the properties say *)

(** [float(t)] raises, or gives a value that is [<= 0]. *)
Definition bad_number (t : text) : bool :=
  match parse_float t with
  | Some x => fle x fzero
  | None => true
  end.

(** [math.isfinite(x)]: [x] is a number, neither an infinity nor nan. *)
Definition is_finite (x : float) : bool :=
  match x with
  | S754_zero _ | S754_finite _ _ _ => true
  | S754_infinity _ | S754_nan => false
  end.

(** [add_item] appends an item of price [p] and quantity [q] whose total
    is their product, and returns without a message. *)
Definition line_item_added (s : App) (p q : float) : Prop :=
  exists it s',
    add_item s = Return NoBox s' /\
    items s' = items s ++ [it] /\
    Item.name it = strip (Form.item_name (form s)) /\
    Item.unit it = Form.item_unit (form s) /\
    Item.price it = p /\
    Item.quantity it = q /\
    Item.total it = fmul (Item.price it) (Item.quantity it) /\
    feq (Item.total it) (fmul (Item.price it) (Item.quantity it)) = true.

(** The label shows the sum of the line totals of the draft. *)
Definition total_shown_is_sum (s : App) : Prop :=
  total_label s = Py.sum (map Item.total (items s)).

(** Parts of the state a step leaves alone. *)
Definition same_draft (s s' : App) : Prop :=
  items s' = items s /\ total_label s' = total_label s.

(** The buyer fields of an updated order pass the checks of [edit_order]. *)
Definition buyer_name_ok (u : Order.t) : bool :=
  negb (text_eqb (strip (Order.buyer_name u)) []).
Definition buyer_phone_ok (u : Order.t) : bool :=
  text_eqb (Order.buyer_phone u) [] || re_match phone_pattern (Order.buyer_phone u).

(** [u] has the date, the seller fields, the items and the total of [o],
    and the buyer fields of the dialog, stripped. *)
Definition edited_from (o : Order.t) (d : Dialog.t) (u : Order.t) : Prop :=
  Order.date u = Order.date o /\
  Order.seller_name u = Order.seller_name o /\
  Order.seller_phone u = Order.seller_phone o /\
  Order.seller_email u = Order.seller_email o /\
  Order.seller_address u = Order.seller_address o /\
  Order.items u = Order.items o /\
  Order.total u = Order.total o /\
  Order.buyer_name u = strip (Dialog.buyer_name d) /\
  Order.buyer_phone u = strip (Dialog.buyer_phone d) /\
  Order.buyer_address u = strip (Dialog.buyer_address d) /\
  Order.buyer_postal u = strip (Dialog.buyer_postal d) /\
  Order.buyer_country u = strip (Dialog.buyer_country d).

(** Saving and then loading returns, with the two lists as they were. *)
Definition round_trip (s : App) : Prop :=
  exists s',
    save_then_load s = Return tt s' /\
    registered_orders s' = registered_orders s /\
    unregistered_orders s' = unregistered_orders s.

(** ** Sample states *)

Definition no_file : File := mkFile None true true.

(** The form of the scenario: item "Widget", price "100,000", quantity "2". *)
Definition widget_form : Form.t :=
  Form.mk [] [] [] [] [] [] [] [] [] (txt "Widget") (txt "100,000") (txt "2")
          Form.first_unit.

Definition widget_draft : App := with_form widget_form (blank no_file).

(** Item "Widget", price "nan", quantity "2". *)
Definition nan_price_draft : App :=
  with_form (set_field item_price (txt "nan") widget_form) (blank no_file).

(** Item "Widget", price "100,000", quantity "inf". *)
Definition inf_quantity_draft : App :=
  with_form (set_field item_quantity (txt "inf") widget_form) (blank no_file).

(** Item "Widget", price "1,000", quantity "1,000". *)
Definition comma_quantity_draft : App :=
  with_form (set_field item_quantity (txt "1,000")
               (set_field item_price (txt "1,000") widget_form))
            (blank no_file).

(** Two items are added, the first is removed. *)
Definition shopping : list Event :=
  [ Typed item_name (txt "Widget"); Typed item_price (txt "100,000");
    Typed item_quantity (txt "2"); AddItem;
    Typed item_name (txt "Bolt"); Typed item_price (txt "0.1");
    Typed item_quantity (txt "3"); AddItem;
    DeleteItem (Some 0%Z) true ].

(** A draft with valid names, phone and email, and no item. *)
Definition valid_form : Form.t :=
  Form.mk (txt "Shop") (txt "09123456789") (txt "shop@example.com") (txt "Tehran")
          (txt "Ali") [] [] [] [] [] [] [] Form.first_unit.

Definition empty_draft : App := with_form valid_form (blank no_file).

(** An order with the given line totals. *)
Definition order_with (totals : list float) : Order.t :=
  Order.mk (txt "2025/01/01") (txt "Shop") [] [] [] (txt "Ali") [] [] [] []
           (map (fun x => Item.mk (txt "Widget") x (float_of_Z 1)
                                  Form.first_unit x) totals)
           (Py.sum totals).

(** A ledger with one registered and two unregistered orders. *)
Definition small_ledger : App :=
  with_ledger [order_with [float_of_Z 500000]]
              [order_with [float_of_Z 300000]; order_with [float_of_Z 200000]]
              (blank no_file).

(** The dialog of the scenario: the phone is changed to "12345". *)
Definition bad_phone_dialog : Dialog.t :=
  Dialog.mk (txt "Ali") (txt "12345") [] [] [].

(** A dialog with padded fields and a valid phone. *)
Definition good_dialog : Dialog.t :=
  Dialog.mk (txt " Ali Rezai ") (txt " 09123456789 ") (txt "Tehran") [] [].

(** The ledger of [small_ledger] with no file and no right to create it. *)
Definition read_only_ledger : App :=
  with_file (mkFile None true false) small_ledger.

(** A file on which [pickle.load] raises [ValueError], such as the three
    bytes 80 FF 2E (a header for protocol 255). *)
Definition corrupt_file : File := mkFile (Some (Corrupt ValueError)) true true.

(** A file that exists and cannot be opened for reading. *)
Definition unreadable_file : File := mkFile (Some (Pickle PyOther)) false true.

(** ** The ledger and the draft as data *)

(** The values [update_statistics] writes for two lists of orders. *)
Definition ledger_stats (reg unreg : list Order.t) : Stats :=
  let amount := Py.sum (map order_amount reg) in
  mkStats (length reg) (length unreg) amount
          (if (0 <? length reg)%nat
           then fdiv amount (float_of_Z (Z.of_nat (length reg)))
           else fzero).

(** The table shows the statistics of the two lists. *)
Definition stats_in_sync (s : App) : Prop :=
  stats_table s = ledger_stats (registered_orders s) (unregistered_orders s).

(** An item as [add_item] makes them: the total is price times quantity,
    and neither price nor quantity is [<= 0]. *)
Definition item_ok (it : Item.t) : Prop :=
  Item.total it = fmul (Item.price it) (Item.quantity it) /\
  fle (Item.price it) fzero = false /\
  fle (Item.quantity it) fzero = false.

(** An order as the finalising handlers make them: it has items, they are
    as [add_item] makes them, and the stored total is their sum. *)
Definition order_ok (o : Order.t) : Prop :=
  Order.items o <> [] /\
  Forall item_ok (Order.items o) /\
  Order.total o = Py.sum (map Item.total (Order.items o)).

Definition well_formed (s : App) : Prop :=
  Forall item_ok (items s) /\
  Forall order_ok (registered_orders s) /\
  Forall order_ok (unregistered_orders s).

(** The dict [save_data] pickles. *)
Definition ledger_dict (reg unreg : list Order.t) : PyObj :=
  PyDict (<["registered" := reg]> (<["unregistered" := unreg]> ∅)).

(** The file after [save_data] of two lists. *)
Definition file_saved (f : File) (reg unreg : list Order.t) : File :=
  if writable f
  then mkFile (Some (Pickle (ledger_dict reg unreg))) (readable f) (writable f)
  else f.

(** The two lists [load_data] takes from a file, if it returns. *)
Definition stored_ledger (f : File) : option (list Order.t * list Order.t) :=
  match content f with
  | None => Some ([], [])
  | Some c =>
      if readable f then
        match c with
        | Pickle (PyDict d) =>
            Some (default [] (d !! "registered"), default [] (d !! "unregistered"))
        | Pickle PyOther => Some ([], [])
        | Corrupt e => if caught e then Some ([], []) else None
        end
      else None
  end.

(** The file holds the two lists of the state. *)
Definition persisted (s : App) : Prop :=
  stored_ledger (data_file s) = Some (registered_orders s, unregistered_orders s).

(** What one handler can do to the draft. *)
Inductive draft_step (old : list Item.t) : list Item.t -> Prop :=
| draft_append (it : Item.t) : item_ok it -> draft_step old (old ++ [it])
| draft_delete (j : nat) : draft_step old (delete j old)
| draft_clear : draft_step old [].

(** What one handler can do to the two lists of orders. *)
Inductive ledger_step (s : App) : list Order.t -> list Order.t -> Prop :=
| ledger_move (j : nat) (o : Order.t) :
    unregistered_orders s !! j = Some o ->
    ledger_step s (registered_orders s ++ [o]) (delete j (unregistered_orders s))
| ledger_delete_registered (j : nat) :
    ledger_step s (delete j (registered_orders s)) (unregistered_orders s)
| ledger_delete_unregistered (j : nat) :
    ledger_step s (registered_orders s) (delete j (unregistered_orders s))
| ledger_edit_registered (j : nat) (o : Order.t) (d : Dialog.t) :
    registered_orders s !! j = Some o ->
    ledger_step s (<[j := get_updated_order o d]> (registered_orders s))
                  (unregistered_orders s)
| ledger_edit_unregistered (j : nat) (o : Order.t) (d : Dialog.t) :
    unregistered_orders s !! j = Some o ->
    ledger_step s (registered_orders s)
                  (<[j := get_updated_order o d]> (unregistered_orders s))
| ledger_add_registered (today : text) :
    items s <> [] ->
    ledger_step s (registered_orders s ++ [make_order today (form s) (items s)])
                  (unregistered_orders s)
| ledger_add_unregistered (today : text) :
    items s <> [] ->
    ledger_step s (registered_orders s)
                  (unregistered_orders s ++ [make_order today (form s) (items s)])
| ledger_clear : ledger_step s [] [].

(** What one handler can do to the state: nothing but the form; the draft
    and its label; or the two lists, with the file saved and the table
    refreshed (the draft is then kept or emptied). *)
Inductive effect (s s' : App) : Prop :=
| effect_form :
    items s' = items s ->
    total_label s' = total_label s ->
    registered_orders s' = registered_orders s ->
    unregistered_orders s' = unregistered_orders s ->
    stats_table s' = stats_table s ->
    data_file s' = data_file s ->
    effect s s'
| effect_draft :
    draft_step (items s) (items s') ->
    total_label s' = Py.sum (map Item.total (items s')) ->
    registered_orders s' = registered_orders s ->
    unregistered_orders s' = unregistered_orders s ->
    stats_table s' = stats_table s ->
    data_file s' = data_file s ->
    effect s s'
| effect_ledger :
    ledger_step s (registered_orders s') (unregistered_orders s') ->
    (items s' = items s /\ total_label s' = total_label s \/
     items s' = [] /\ total_label s' = fzero) ->
    stats_table s' = ledger_stats (registered_orders s') (unregistered_orders s') ->
    data_file s' =
      file_saved (data_file s) (registered_orders s') (unregistered_orders s') ->
    effect s s'.

(** The file can be written and read, and holds the two lists. *)
Definition durable (s : App) : Prop :=
  writable (data_file s) = true /\
  readable (data_file s) = true /\
  persisted s.

(** A session that adds two items, registers the order, stores a second
    order, moves it to the registered ones and edits it there. *)
Definition busy_session : list Event :=
  [ Typed seller_name (txt "Shop"); Typed buyer_name (txt "Ali");
    Typed item_name (txt "Widget"); Typed item_price (txt "100,000");
    Typed item_quantity (txt "2"); AddItem;
    Typed item_name (txt "Bolt"); Typed item_price (txt "0.1");
    Typed item_quantity (txt "3"); AddItem;
    AddToRegistered (txt "2025/01/01");
    Typed seller_name (txt "Shop"); Typed buyer_name (txt "Sara");
    Typed item_name (txt "Nut"); Typed item_price (txt "5");
    Typed item_quantity (txt "10"); AddItem;
    AddToUnregistered (txt "2025/01/02");
    MoveToRegistered (Some 0%Z) true;
    EditOrder 1 true (Some good_dialog);
    DeleteRegistered (Some 7%Z) true ].

(** The form the finalising handlers leave: every line edit is empty, the
    unit is the one picked before. *)
Definition cleared_form (f : Form.t) : Form.t :=
  Form.mk [] [] [] [] [] [] [] [] [] [] [] [] (Form.item_unit f).

(** A form that passes validation, with an item ready to be added. *)
Definition widget_order_form : Form.t :=
  Form.mk (txt " Shop ") (txt "09123456789") (txt "shop@example.com") []
          (txt "Ali ") [] [] [] [] (txt "Widget") (txt "100,000") (txt "2")
          Form.first_unit.

(** A draft with one item and names typed with blanks around them. *)
Definition widget_order_draft : App :=
  with_items [new_item widget_form (float_of_Z 100000) (float_of_Z 2)]
    (with_form widget_order_form (blank no_file)).

(** [o] is the order made on [today] from the texts of the form as they
    were typed, with the items [its] and the sum of their totals. *)
Definition order_from_form (today : text) (f : Form.t) (its : list Item.t)
    (o : Order.t) : Prop :=
  Order.date o = today /\
  Order.seller_name o = Form.seller_name f /\
  Order.seller_phone o = Form.seller_phone f /\
  Order.seller_email o = Form.seller_email f /\
  Order.seller_address o = Form.seller_address f /\
  Order.buyer_name o = Form.buyer_name f /\
  Order.buyer_phone o = Form.buyer_phone f /\
  Order.buyer_address o = Form.buyer_address f /\
  Order.buyer_postal o = Form.buyer_postal f /\
  Order.buyer_country o = Form.buyer_country f /\
  Order.items o = its /\
  Order.total o = Py.sum (map Item.total its).

(** The draft is reset: no item, a label of 0, an empty form. *)
Definition draft_reset (s s' : App) : Prop :=
  items s' = [] /\ total_label s' = fzero /\ form s' = cleared_form (form s).

(** The state differs from [s] in the draft and its label at most. *)
Definition same_ledger (s s' : App) : Prop :=
  registered_orders s' = registered_orders s /\
  unregistered_orders s' = unregistered_orders s /\
  stats_table s' = stats_table s /\
  data_file s' = data_file s /\
  form s' = form s.

(** ** [wrap_text]

    The last index below [stop] at which [s] holds [c]:
    [s.rfind(c, 0, stop)], with [None] for -1. *)

Fixpoint rfind_from (c : char) (l : Py.text) (i : nat) : option nat :=
  match l with
  | [] => None
  | x :: r =>
      match rfind_from c r (S i) with
      | Some j => Some j
      | None => if (x =? c)%N then Some i else None
      end
  end.

Definition rfind (c : char) (s : Py.text) (stop : nat) : option nat :=
  rfind_from c (take stop s) 0.

(** The [while] loop of [wrap_text], run for at most [fuel] rounds: the
    lines made so far and the text that is left, or [None] if the loop has
    not ended by then. *)
Fixpoint wrap_loop (fuel : nat) (max_chars : nat) (s : Py.text) (lines : list Py.text)
  : option (list Py.text * Py.text) :=
  if (length s <=? max_chars)%nat then Some (lines, s)
  else
    match fuel with
    | O => None
    | S fuel' =>
        let idx := default max_chars (rfind (chr " ") s max_chars) in
        wrap_loop fuel' max_chars (strip (drop idx s))
                  (lines ++ [strip (take idx s)])
    end.

(** [wrap_text(text, max_chars)], the loop run for at most [fuel] rounds. *)
Definition wrap_text (fuel : nat) (s : Py.text) (max_chars : nat)
  : option (list Py.text) :=
  match wrap_loop fuel max_chars s [] with
  | Some (lines, rest) =>
      let lines := if text_eqb rest [] then lines else lines ++ [rest] in
      Some (if bool_decide (lines = []) then [[]] else lines)
  | None => None
  end.

(** The characters of a text that are not white space. *)
Definition letters (s : Py.text) : Py.text := List.filter (fun c => negb (isspace c)) s.

(** An address longer than one line of the PDF. *)
Definition long_address : Py.text :=
  txt "No 12, Second Floor, Azadi Street, Next To The Central Library, Tehran".


(* ===================================================================== *)
(** * The window: the handlers together with the list widgets *)
(* ===================================================================== *)

(** A row of [orders_list] or of [unreg_orders_list]: the values its text
    is formatted from. *)
Record OrderRow := mkOrderRow {
  row_number : nat;
  row_buyer_name : text;
  row_date : text;
  row_total : float
}.

(** The three [QListWidget]s.  A row of [list_widget] is formatted from
    the fields of an item tuple. *)
Record Widgets := mkWidgets {
  list_widget : list Item.t;
  orders_list : list OrderRow;
  unreg_orders_list : list OrderRow
}.

Definition with_list_widget (rows : list Item.t) (w : Widgets) : Widgets :=
  mkWidgets rows (orders_list w) (unreg_orders_list w).
Definition with_orders_list (rows : list OrderRow) (w : Widgets) : Widgets :=
  mkWidgets (list_widget w) rows (unreg_orders_list w).
Definition with_unreg_orders_list (rows : list OrderRow) (w : Widgets) : Widgets :=
  mkWidgets (list_widget w) (orders_list w) rows.

(** [widget.takeItem(row)]: a row the widget does not have takes nothing. *)
Definition takeItem {A} (row : nat) (rows : list A) : list A := delete row rows.

(** [widget.selectedItems()] and [widget.row(selected_items[0])]: [selected]
    is the row the user has selected, if any, and only a row the widget has
    can be selected. *)
Definition selected_row {A} (rows : list A) (selected : option nat) : option nat :=
  match selected with
  | Some row => if bool_decide (row < length rows) then Some row else None
  | None => None
  end.

(** The rows [update_registered_orders_list] and
    [update_unregistered_orders_list] add, one for each order. *)
Definition order_rows (orders : list Order.t) : list OrderRow :=
  imap (fun i order =>
          let total := Py.sum (map Item.total (Order.items order)) in
          mkOrderRow (i + 1) (Order.buyer_name order) (Order.date order) total)
       orders.

(** A handler of the window: a handler that also reads and changes the
    list widgets. *)
Definition W (A : Type) := Widgets -> M (A * Widgets).

Definition wret {A} (a : A) : W A := fun w => ret (a, w).

Definition wbind {A B} (m : W A) (k : A -> W B) : W B :=
  fun w => bind (m w) (fun p => k (fst p) (snd p)).

Declare Scope win_scope.
Delimit Scope win_scope with win.
Notation "x <- m ;; k" := (wbind m (fun x => k))
  (at level 100, m at next level, right associativity) : win_scope.
Notation "m ;; k" := (wbind m (fun _ => k))
  (at level 100, right associativity) : win_scope.

(** A statement that leaves the widgets alone *)
Definition app_ {A} (m : M A) : W A := fun w => bind m (fun a => ret (a, w)).
(** A call that changes a widget *)
Definition widget (f : Widgets -> Widgets) : W unit := fun w => ret (tt, f w).
(** A call that reads a widget *)
Definition look {A} (f : Widgets -> A) : W A := fun w => ret (f w, w).

Module Window.

Local Open Scope win_scope.

Definition update_registered_orders_list : W unit :=
  widget (with_orders_list []) ;;
  orders <- app_ (gets registered_orders) ;;
  widget (with_orders_list (order_rows orders)).

Definition update_unregistered_orders_list : W unit :=
  widget (with_unreg_orders_list []) ;;
  orders <- app_ (gets unregistered_orders) ;;
  widget (with_unreg_orders_list (order_rows orders)).

Definition add_item : W Box :=
  f <- app_ (gets form) ;;
  let name := strip (Form.item_name f) in
  if text_eqb name [] then app_ (warning EmptyName)
  else
    parsed <-
      app_ (try_except
              (price <- float_ (strip (remove_char (chr ",") (Form.item_price f))) ;;
               quantity <- float_ (strip (Form.item_quantity f)) ;;
               if fle price fzero || fle quantity fzero then raise ValueError
               else ret (Some (price, quantity)))%py
              [ValueError]
              (ret None)) ;;
    match parsed with
    | None => app_ (warning InvalidNumber)
    | Some (price, quantity) =>
        let unit := Form.item_unit f in
        let total := fmul price quantity in
        s <- app_ (gets id) ;;
        app_ (modify (with_items (items s ++ [Item.mk name price quantity unit total]))) ;;
        rows <- look list_widget ;;
        widget (with_list_widget (rows ++ [Item.mk name price quantity unit total])) ;;
        app_ update_total ;;
        app_ (modify (with_form (set_item_fields [] [] [] f))) ;;
        wret NoBox
    end.

Definition delete_item (selected : option nat) (answer : bool) : W Box :=
  rows <- look list_widget ;;
  match selected_row rows selected with
  | None => app_ (warning NothingSelected)
  | Some row =>
      if answer then
        widget (with_list_widget (takeItem row rows)) ;;
        s <- app_ (gets id) ;;
        r <- app_ (lift (pop (items s) (Z.of_nat row))) ;;
        app_ (modify (with_items (snd r))) ;;
        app_ update_total ;;
        wret NoBox
      else wret NoBox
  end.

Definition clear_items (answer : bool) : W Box :=
  if answer then
    app_ (modify (with_items [])) ;;
    widget (with_list_widget []) ;;
    app_ update_total ;;
    wret NoBox
  else wret NoBox.

Definition clear_form : W unit :=
  app_ (modify (with_items [])) ;;
  widget (with_list_widget []) ;;
  f <- app_ (gets form) ;;
  app_ (modify (with_form
                  (Form.mk [] [] [] [] [] [] [] [] [] [] [] [] (Form.item_unit f)))) ;;
  app_ update_total.

Section Handlers.

Variable isalnum : char -> bool.

Definition add_to_registered_orders (today : text) : W Box :=
  f <- app_ (gets form) ;;
  match validate_inputs isalnum f with
  | (false, error) => app_ (warning error)
  | (true, _) =>
      its <- app_ (gets items) ;;
      if bool_decide (its = []) then app_ (warning NoItems)
      else
        let order := make_order today f its in
        s <- app_ (gets id) ;;
        app_ (modify (with_registered (registered_orders s ++ [order]))) ;;
        app_ save_data ;;
        update_registered_orders_list ;;
        app_ update_statistics ;;
        clear_form ;;
        app_ (information OrderRegistered)
  end.

Definition add_to_unregistered_orders (today : text) : W Box :=
  f <- app_ (gets form) ;;
  match validate_inputs isalnum f with
  | (false, error) => app_ (warning error)
  | (true, _) =>
      its <- app_ (gets items) ;;
      if bool_decide (its = []) then app_ (warning NoItems)
      else
        let order := make_order today f its in
        s <- app_ (gets id) ;;
        app_ (modify (with_unregistered (unregistered_orders s ++ [order]))) ;;
        app_ save_data ;;
        update_unregistered_orders_list ;;
        app_ update_statistics ;;
        clear_form ;;
        app_ (information OrderStored)
  end.

End Handlers.

(** [row] is the row of the double-clicked entry in its widget. *)
Definition edit_order (row : nat) (is_registered : bool) (dialog : option Dialog.t)
  : W Box :=
  l <- app_ (gets (order_list is_registered)) ;;
  order <- app_ (lift (getitem l (Z.of_nat row))) ;;
  match dialog with
  | Some d =>
      let updated_order := get_updated_order order d in
      if text_eqb (strip (Order.buyer_name updated_order)) [] then
        app_ (warning EmptyBuyerName)
      else if negb (text_eqb (Order.buyer_phone updated_order) [])
              && negb (re_match phone_pattern (Order.buyer_phone updated_order))
      then app_ (warning InvalidPhone)
      else
        l' <- app_ (lift (setitem l (Z.of_nat row) updated_order)) ;;
        app_ (modify (with_order_list is_registered l')) ;;
        app_ save_data ;;
        (if is_registered then update_registered_orders_list
         else update_unregistered_orders_list) ;;
        app_ update_statistics ;;
        app_ (information OrderEdited)
  | None => wret NoBox
  end.

Definition move_to_registered (selected : option nat) (answer : bool) : W Box :=
  rows <- look unreg_orders_list ;;
  match selected_row rows selected with
  | None => app_ (warning NothingSelected)
  | Some row =>
      if answer then
        s <- app_ (gets id) ;;
        r <- app_ (lift (pop (unregistered_orders s) (Z.of_nat row))) ;;
        app_ (modify (with_unregistered (snd r))) ;;
        s' <- app_ (gets id) ;;
        app_ (modify (with_registered (registered_orders s' ++ [fst r]))) ;;
        app_ save_data ;;
        update_registered_orders_list ;;
        update_unregistered_orders_list ;;
        app_ update_statistics ;;
        app_ (information OrderMoved)
      else wret NoBox
  end.

Definition delete_registered_order (selected : option nat) (answer : bool) : W Box :=
  rows <- look orders_list ;;
  match selected_row rows selected with
  | None => app_ (warning NothingSelected)
  | Some row =>
      if answer then
        widget (with_orders_list (takeItem row rows)) ;;
        s <- app_ (gets id) ;;
        r <- app_ (lift (pop (registered_orders s) (Z.of_nat row))) ;;
        app_ (modify (with_registered (snd r))) ;;
        app_ save_data ;;
        app_ update_statistics ;;
        wret NoBox
      else wret NoBox
  end.

Definition delete_unregistered_order (selected : option nat) (answer : bool) : W Box :=
  rows <- look unreg_orders_list ;;
  match selected_row rows selected with
  | None => app_ (warning NothingSelected)
  | Some row =>
      if answer then
        widget (with_unreg_orders_list (takeItem row rows)) ;;
        s <- app_ (gets id) ;;
        r <- app_ (lift (pop (unregistered_orders s) (Z.of_nat row))) ;;
        app_ (modify (with_unregistered (snd r))) ;;
        app_ save_data ;;
        app_ update_statistics ;;
        wret NoBox
      else wret NoBox
  end.

Definition clear_all_data (answer : bool) : W Box :=
  if answer then
    app_ (modify (with_registered [])) ;;
    app_ (modify (with_unregistered [])) ;;
    widget (with_orders_list []) ;;
    widget (with_unreg_orders_list []) ;;
    app_ (modify (with_items [])) ;;
    widget (with_list_widget []) ;;
    app_ update_total ;;
    app_ update_statistics ;;
    app_ save_data ;;
    app_ (information DataCleared)
  else wret NoBox.

(** [init_ui]: [setup_home_ui] makes [list_widget], [setup_orders_ui] ends
    by filling the two lists of orders and [setup_statistics_ui] by
    [update_statistics]. *)
Definition init_ui : W unit :=
  update_registered_orders_list ;;
  update_unregistered_orders_list ;;
  app_ update_statistics.

(** [InvoiceApp.__init__]; the widgets are made empty. *)
Definition InvoiceApp_init (file : File) : Result (unit * Widgets) :=
  (app_ load_data ;; init_ui) (mkWidgets [] [] []) (blank file).

(** What the user does to the window.  A double click reaches [edit_order]
    only on an entry of the list. *)
Inductive Event :=
| Typed (fd : Field) (v : text)
| AddItem
| DeleteItem (selected : option nat) (answer : bool)
| ClearItems (answer : bool)
| AddToRegistered (today : text)
| AddToUnregistered (today : text)
| EditOrder (row : nat) (is_registered : bool) (dialog : option Dialog.t)
| MoveToRegistered (selected : option nat) (answer : bool)
| DeleteRegistered (selected : option nat) (answer : bool)
| DeleteUnregistered (selected : option nat) (answer : bool)
| ClearAllData (answer : bool).

Definition handle (isalnum : char -> bool) (ev : Event) : W Box :=
  match ev with
  | Typed fd v =>
      app_ (modify (fun s => with_form (set_field fd v (form s)) s)) ;; wret NoBox
  | AddItem => add_item
  | DeleteItem selected answer => delete_item selected answer
  | ClearItems answer => clear_items answer
  | AddToRegistered today => add_to_registered_orders isalnum today
  | AddToUnregistered today => add_to_unregistered_orders isalnum today
  | EditOrder row is_registered dialog =>
      rows <- look (if is_registered then orders_list else unreg_orders_list) ;;
      if bool_decide (row < length rows) then edit_order row is_registered dialog
      else wret NoBox
  | MoveToRegistered selected answer => move_to_registered selected answer
  | DeleteRegistered selected answer => delete_registered_order selected answer
  | DeleteUnregistered selected answer => delete_unregistered_order selected answer
  | ClearAllData answer => clear_all_data answer
  end.

(** The boxes shown so far, latest first. *)
Fixpoint run (isalnum : char -> bool) (evs : list Event) (shown : list Box)
  : W (list Box) :=
  match evs with
  | [] => wret shown
  | ev :: rest =>
      b <- handle isalnum ev ;;
      run isalnum rest (b :: shown)
  end.

End Window.

(** ** The widgets and the lists they show *)

(** A row shows the customer, the date and the sum of the items of the
    order at its place; its number is the one it was given when the list
    was last filled. *)
Definition rows_match (rows : list OrderRow) (orders : list Order.t) : Prop :=
  Forall2 (fun r o => row_buyer_name r = Order.buyer_name o /\
                      row_date r = Order.date o /\
                      row_total r = order_amount o)
          rows orders.

Definition in_sync (w : Widgets) (s : App) : Prop :=
  list_widget w = items s /\
  rows_match (orders_list w) (registered_orders s) /\
  rows_match (unreg_orders_list w) (unregistered_orders s).


(** The result of a handler without widgets, with the widgets beside it. *)
Definition with_widgets {A} (r : Result A) (w : Widgets) : Result (A * Widgets) :=
  match r with
  | Return a s => Return (a, w) s
  | Raise e s => Raise e s
  end.


(** A session of the window: two items and a registered order, a stored
    order that is moved and edited, a click with a selection the list cannot
    have, and the first registered order deleted. *)
Definition window_session : list Window.Event :=
  [ Window.Typed seller_name (txt "Shop"); Window.Typed buyer_name (txt "Ali");
    Window.Typed item_name (txt "Widget"); Window.Typed item_price (txt "100,000");
    Window.Typed item_quantity (txt "2"); Window.AddItem;
    Window.Typed item_name (txt "Bolt"); Window.Typed item_price (txt "0.1");
    Window.Typed item_quantity (txt "3"); Window.AddItem;
    Window.AddToRegistered (txt "2025/01/01");
    Window.Typed seller_name (txt "Shop"); Window.Typed buyer_name (txt "Sara");
    Window.Typed item_name (txt "Nut"); Window.Typed item_price (txt "5");
    Window.Typed item_quantity (txt "10"); Window.AddItem;
    Window.AddToUnregistered (txt "2025/01/02");
    Window.MoveToRegistered (Some 0) true;
    Window.EditOrder 1 true (Some good_dialog);
    Window.DeleteRegistered (Some 7) true;
    Window.DeleteRegistered (Some 0) true ].

(** Two registered and two stored orders, and the widgets as filled from
    them. *)
Definition two_orders : App :=
  with_ledger [order_with [float_of_Z 500000]; order_with [float_of_Z 300000]]
              [order_with [float_of_Z 200000]; order_with [float_of_Z 100000]]
              (blank no_file).

Definition two_orders_widgets : Widgets :=
  mkWidgets [] (order_rows (registered_orders two_orders))
               (order_rows (unregistered_orders two_orders)).


(* ===================================================================== *)
(** * The two patterns and the edit dialog *)
(* ===================================================================== *)

(** ** What the two patterns accept *)

(** The words of a regular expression. *)
Inductive matches : regex -> text -> Prop :=
| matches_eps : matches Eps []
| matches_class (p : char -> bool) (c : char) :
    p c = true -> matches (Class p) [c]
| matches_seq (r1 r2 : regex) (s1 s2 : text) :
    matches r1 s1 -> matches r2 s2 -> matches (Seq r1 r2) (s1 ++ s2)
| matches_alt_l (r1 r2 : regex) (s : text) :
    matches r1 s -> matches (Alt r1 r2) s
| matches_alt_r (r1 r2 : regex) (s : text) :
    matches r2 s -> matches (Alt r1 r2) s
| matches_star_nil (r : regex) : matches (Star r) []
| matches_star_cons (r : regex) (s1 s2 : text) :
    matches r s1 -> matches (Star r) s2 -> matches (Star r) (s1 ++ s2).

(** [s] is [body], or [body] followed by one line feed. *)
Definition up_to_line_feed (s body : text) : Prop :=
  s = body \/ s = body ++ [10%N].

(** 09 and nine decimal digits, of any script. *)
Definition phone_shape (s : text) : Prop :=
  exists ds,
    length ds = 9 /\ forallb isdecimal ds = true /\
    up_to_line_feed s (chr "0" :: chr "9" :: ds).

(** [local@domain.tld], none of the three empty. *)
Definition email_shape (isalnum : char -> bool) (s : text) : Prop :=
  exists local domain tld,
    local <> [] /\ domain <> [] /\ tld <> [] /\
    forallb (is_word_dot_dash isalnum) local = true /\
    forallb (is_word_dot_dash isalnum) domain = true /\
    forallb (is_word isalnum) tld = true /\
    up_to_line_feed s (local ++ chr "@" :: domain ++ chr "." :: tld).

(** A form with a phone number written in Persian digits. *)
Definition persian_phone_form : Form.t :=
  Form.mk (txt "Shop") [] [] []
          (txt "Ali")
          (chr "0" :: chr "9" :: map N.of_nat [1777; 1778; 1779; 1780; 1781; 1782; 1783; 1784; 1785])
          [] [] [] [] [] [] Form.first_unit.


(** ** The edit dialog as it opens *)

(** [EditOrderDialog.init_ui]: the five line edits hold the customer fields
    of the order. *)
Definition EditOrderDialog_init_ui (order : Order.t) : Dialog.t :=
  Dialog.mk (Order.buyer_name order) (Order.buyer_phone order)
            (Order.buyer_address order) (Order.buyer_postal order)
            (Order.buyer_country order).

(** A form with blanks around the customer name, and the ledger with the
    one order registered from it. *)
Definition phone_order_form : Form.t :=
  Form.mk (txt "Shop") [] [] [] (txt " Ali ") (txt "09123456789")
          (txt " Tehran") [] [] [] [] [] Form.first_unit.

Definition phone_order_items : list Item.t :=
  [new_item widget_form (float_of_Z 100000) (float_of_Z 2)].

Definition phone_order_ledger : App :=
  with_registered
    [make_order (txt "2025/01/01") phone_order_form phone_order_items]
    (blank no_file).

(* ===================================================================== *)
(** * Properties *)
(* ===================================================================== *)

(** ** Tactics *)

Ltac unfold_monad :=
  unfold lift, warning, information, try_except, try_except_Exception,
    bind, gets, modify, raise, ret in *.

Ltac split_handler :=
  repeat match goal with
         | |- context [match ?x with _ => _ end] => destruct x eqn:?; cbn
         end.

(** ** Facts about the runtime *)

(** *** Binary64 values *)

Lemma positive_not_le (x : float) : flt fzero x = true -> fle x fzero = false.
Proof. destruct x as [[]|[]| |[] m e]; cbn; congruence. Qed.

Lemma shr_1_nonneg (mrs : shr_record) :
  (0 <= shr_m mrs)%Z -> (0 <= shr_m (shr_1 mrs))%Z.
Proof. destruct mrs as [[|[p|p|]|[p|p|]] r t]; cbn; lia. Qed.

Lemma iter_shr_1_nonneg (p : positive) (mrs : shr_record) :
  (0 <= shr_m mrs)%Z -> (0 <= shr_m (SpecFloat.iter_pos shr_1 p mrs))%Z.
Proof.
  revert mrs. induction p as [p IH|p IH|]; intros mrs H; cbn.
  - apply IH, IH, shr_1_nonneg, H.
  - apply IH, IH, H.
  - apply shr_1_nonneg, H.
Qed.

Lemma shr_fexp_nonneg (m e : Z) (l : location) :
  (0 <= m)%Z -> (0 <= shr_m (fst (shr_fexp prec emax m e l)))%Z.
Proof.
  intros H. unfold shr_fexp, shr.
  assert (H0 : (0 <= shr_m (shr_record_of_loc m l))%Z)
    by (destruct l as [|[]]; exact H).
  destruct (fexp prec emax (Zdigits2 m + e) - e)%Z; cbn [fst]; auto.
  apply iter_shr_1_nonneg, H0.
Qed.

Lemma round_nearest_even_nonneg (m : Z) (l : location) :
  (0 <= m)%Z -> (0 <= round_nearest_even m l)%Z.
Proof. destruct l as [|[]]; cbn; try destruct (Z.even m); lia. Qed.

(** Rounding a non-negative mantissa never gives a NaN. *)
Lemma binary_round_aux_not_nan (s : bool) (m e : Z) (l : location) :
  (0 <= m)%Z -> binary_round_aux prec emax s m e l <> S754_nan.
Proof.
  intros H. unfold binary_round_aux.
  pose proof (shr_fexp_nonneg m e l H) as H1.
  destruct (shr_fexp prec emax m e l) as [mrs' e']. cbn [fst] in H1.
  pose proof (shr_fexp_nonneg _ e' loc_Exact
                (round_nearest_even_nonneg _ (loc_of_shr_record mrs') H1)) as H2.
  destruct (shr_fexp prec emax _ e' loc_Exact) as [mrs'' e'']. cbn [fst] in H2.
  destruct (shr_m mrs'') as [|p|p]; [discriminate| |lia].
  destruct (e'' <=? emax - prec)%Z; discriminate.
Qed.

(** The product of two positive values is a number. *)
Lemma fmul_positive_not_nan (p q : float) :
  flt fzero p = true -> flt fzero q = true -> fmul p q <> S754_nan.
Proof.
  destruct p as [[]|[]| |[] mp ep]; cbn; try congruence;
    destruct q as [[]|[]| |[] mq eq]; cbn; try congruence.
  intros _ _. apply binary_round_aux_not_nan. lia.
Qed.

(** [x == x] for every [x] but NaN. *)
Lemma feq_refl (x : float) : x <> S754_nan -> feq x x = true.
Proof.
  destruct x as [s|[]| |[] m e]; cbn; try congruence;
    unfold feq, SFeqb; cbn; rewrite Z.compare_refl, Pos.compare_cont_refl;
    reflexivity.
Qed.

(** *** Texts *)

Lemma text_eqb_false (a b : text) : a <> b -> text_eqb a b = false.
Proof. apply bool_decide_eq_false. Qed.

Lemma text_eqb_true (a b : text) : a = b -> text_eqb a b = true.
Proof. apply bool_decide_eq_true. Qed.

Lemma in_drop_while {A} (p : A -> bool) (c : A) (l : list A) :
  p c = false -> In c l -> In c (drop_while p l).
Proof.
  intros Hc. induction l as [|x r IH]; cbn; [tauto|].
  intros [->|H].
  - rewrite Hc. left. reflexivity.
  - destruct (p x); [auto | right; exact H].
Qed.

Lemma in_strip_with (p : char -> bool) (c : char) (s : text) :
  p c = false -> In c s -> In c (strip_with p s).
Proof.
  intros Hc H. unfold strip_with.
  rewrite <- in_rev. apply in_drop_while; [exact Hc|].
  rewrite <- in_rev. apply in_drop_while; assumption.
Qed.

(** [strip] keeps the characters that are not white space. *)
Lemma in_strip (c : char) (s : text) :
  isspace c = false -> In c s -> In c (strip s).
Proof. apply in_strip_with. Qed.

Lemma drop_while_head {A} (p : A -> bool) (l : list A) :
  match drop_while p l with
  | [] => True
  | x :: _ => p x = false
  end.
Proof.
  induction l as [|x r IH]; cbn; [exact I|].
  destruct (p x) eqn:E; [exact IH | exact E].
Qed.

Lemma drop_while_fixed {A} (p : A -> bool) (x : A) (l : list A) :
  p x = false -> drop_while p (x :: l) = x :: l.
Proof. intros H. cbn. rewrite H. reflexivity. Qed.

Lemma drop_while_app_last {A} (p : A -> bool) (l : list A) (x : A) :
  p x = false -> drop_while p (l ++ [x]) = drop_while p l ++ [x].
Proof.
  intros H. induction l as [|y r IH]; cbn.
  - rewrite H. reflexivity.
  - destruct (p y); [exact IH | reflexivity].
Qed.

Lemma drop_while_idempotent {A} (p : A -> bool) (l : list A) :
  drop_while p (drop_while p l) = drop_while p l.
Proof.
  pose proof (drop_while_head p l) as H.
  destruct (drop_while p l) as [|x r]; [reflexivity|].
  apply drop_while_fixed, H.
Qed.

Lemma strip_with_cons (p : char -> bool) (x : char) (r : text) :
  p x = false -> strip_with p (x :: r) = x :: rev (drop_while p (rev r)).
Proof.
  intros H. unfold strip_with. rewrite (drop_while_fixed p x r H).
  cbn [rev]. rewrite (drop_while_app_last p _ x H).
  rewrite rev_app_distr. reflexivity.
Qed.

Lemma strip_with_drop (p : char -> bool) (s : text) :
  strip_with p s = strip_with p (drop_while p s).
Proof. unfold strip_with. rewrite drop_while_idempotent. reflexivity. Qed.

Lemma strip_with_idempotent (p : char -> bool) (s : text) :
  strip_with p (strip_with p s) = strip_with p s.
Proof.
  rewrite (strip_with_drop p s).
  pose proof (drop_while_head p s) as Ha.
  destruct (drop_while p s) as [|x r]; [reflexivity|].
  rewrite (strip_with_cons p x r Ha).
  rewrite (strip_with_cons p x _ Ha).
  rewrite rev_involutive, drop_while_idempotent. reflexivity.
Qed.

Lemma strip_idempotent (s : text) : strip (strip s) = strip s.
Proof. apply strip_with_idempotent. Qed.

(** *** Characters [float] never accepts *)

Section Rejected.

(** A character that is none of those a float literal is made of. *)
Variable c : char.
Hypothesis c_ascii : to_ascii c = c.
Hypothesis c_not_underscore : (c =? chr "_")%N = false.
Hypothesis c_not_space : is_ascii_space c = false.
Hypothesis c_not_minus : (c =? chr "-")%N = false.
Hypothesis c_not_plus : (c =? chr "+")%N = false.
Hypothesis c_not_digit : is_digit c = false.
Hypothesis c_not_point : (c =? chr ".")%N = false.
Hypothesis c_not_exp : is_exp_mark c = false.
Hypothesis c_not_letter : In (to_lower c) (txt "infinityan") -> False.

Lemma in_drop_underscores (prev : char) (s s' : text) :
  drop_underscores prev s = Some s' -> In c s -> In c s'.
Proof.
  revert prev s'. induction s as [|x r IH]; intros prev s'; cbn; [tauto|].
  intros H Hin.
  destruct (x =? chr "_")%N eqn:Ex.
  - destruct Hin as [->|Hin]; [congruence|].
    destruct (is_digit prev); [eauto | discriminate].
  - destruct ((prev =? chr "_")%N && negb (is_digit x)); [discriminate|].
    destruct (drop_underscores x r) as [r'|] eqn:Er; [|discriminate].
    injection H as <-. destruct Hin as [->|Hin]; [left; reflexivity|].
    right. eauto.
Qed.

Lemma in_split_sign (s : text) : In c s -> In c (snd (split_sign s)).
Proof.
  destruct s as [|x r]; cbn; [tauto|]. intros Hin.
  destruct (x =? chr "-")%N eqn:E1; [|destruct (x =? chr "+")%N eqn:E2];
    cbn; auto; destruct Hin as [->|Hin]; congruence.
Qed.

Lemma in_after_digits (s : text) : In c s -> In c (drop_while is_digit s).
Proof. apply in_drop_while, c_not_digit. Qed.

Lemma parse_exponent_rejects (s : text) : In c s -> parse_exponent s = None.
Proof.
  destruct s as [|x r]; cbn; [tauto|]. intros Hin.
  destruct (is_exp_mark x) eqn:Ex; [|reflexivity].
  destruct Hin as [->|Hin]; [congruence|].
  pose proof (in_after_digits _ (in_split_sign _ Hin)) as H.
  destruct (split_sign r) as [eneg r']. cbn [snd] in H.
  destruct (take_while is_digit r'); [reflexivity|].
  destruct (drop_while is_digit r'); [destruct H | reflexivity].
Qed.

Lemma parse_decimal_rejects (neg : bool) (s : text) :
  In c s -> parse_decimal neg s = None.
Proof.
  intros Hin. unfold parse_decimal.
  pose proof (in_after_digits _ Hin) as H1.
  destruct (drop_while is_digit s) as [|x r] eqn:E1; [destruct H1|].
  assert (H2 : exists fp r2,
             (if (x =? chr ".")%N
              then (take_while is_digit r, drop_while is_digit r)
              else ([], x :: r)) = (fp, r2) /\ In c r2).
  { destruct (x =? chr ".")%N eqn:Ex.
    - eexists _, _. split; [reflexivity|]. apply in_after_digits.
      destruct H1 as [->|H1]; [congruence | exact H1].
    - eexists _, _. split; [reflexivity | exact H1]. }
  destruct H2 as (fp & r2 & -> & H2).
  rewrite (parse_exponent_rejects _ H2).
  destruct (take_while is_digit s ++ fp); reflexivity.
Qed.

Lemma parse_inf_or_nan_rejects (neg : bool) (s : text) :
  In c s -> parse_inf_or_nan neg s = None.
Proof.
  intros Hin. unfold parse_inf_or_nan, text_eqb.
  assert (H : In (to_lower c) (map to_lower s)) by (apply in_map, Hin).
  repeat case_bool_decide; cbn; try reflexivity; exfalso; apply c_not_letter;
    match goal with E : map to_lower s = _ |- _ => rewrite E in H end;
    cbn in H |- *; tauto.
Qed.

(** A text that holds [c] is not a float literal. *)
Lemma parse_float_rejects (s : text) : In c s -> parse_float s = None.
Proof.
  intros Hin. unfold parse_float.
  assert (H0 : In c (map to_ascii s))
    by (rewrite <- c_ascii; apply in_map, Hin).
  destruct (drop_underscores 0%N (map to_ascii s)) as [s1|] eqn:E1;
    [|reflexivity].
  cbn.
  pose proof (in_split_sign _ (in_strip_with _ _ _ c_not_space
                                 (in_drop_underscores _ _ _ E1 H0))) as H.
  destruct (split_sign _) as [neg body]. cbn [snd] in H.
  rewrite (parse_decimal_rejects neg _ H).
  apply parse_inf_or_nan_rejects, H.
Qed.

End Rejected.

(** [float] raises on every text with a comma in it. *)
Lemma parse_float_comma (s : text) : In (chr ",") s -> parse_float s = None.
Proof.
  apply parse_float_rejects; try reflexivity.
  cbn. intuition discriminate.
Qed.

(** *** Rows that are natural numbers *)

Lemma norm_index_nat {A} (l : list A) (i : nat) :
  norm_index l (Z.of_nat i) = if (i <? length l)%nat then Some i else None.
Proof.
  unfold norm_index.
  destruct (Z.ltb_spec (Z.of_nat i) 0); [lia|].
  destruct (Nat.ltb_spec i (length l)).
  - rewrite (proj2 (Z.leb_le _ _)), (proj2 (Z.ltb_lt _ _)) by lia.
    cbn. rewrite Nat2Z.id. reflexivity.
  - rewrite (proj2 (Z.ltb_ge _ _)) by lia. rewrite andb_false_r. reflexivity.
Qed.

Lemma pop_nat {A} (l : list A) (i : nat) :
  pop l (Z.of_nat i) =
    match l !! i with
    | Some x => inr (x, delete i l)
    | None => inl IndexError
    end.
Proof.
  unfold pop. rewrite norm_index_nat.
  destruct (Nat.ltb_spec i (length l)) as [H|H].
  - reflexivity.
  - rewrite (lookup_ge_None_2 l i) by lia. reflexivity.
Qed.

Lemma getitem_nat {A} (l : list A) (i : nat) :
  getitem l (Z.of_nat i) =
    match l !! i with
    | Some x => inr x
    | None => inl IndexError
    end.
Proof.
  unfold getitem. rewrite norm_index_nat.
  destruct (Nat.ltb_spec i (length l)) as [H|H].
  - reflexivity.
  - rewrite (lookup_ge_None_2 l i) by lia. reflexivity.
Qed.

Lemma setitem_nat {A} (l : list A) (i : nat) (x y : A) :
  l !! i = Some y -> setitem l (Z.of_nat i) x = inr (<[i := x]> l).
Proof.
  intros H. unfold setitem. rewrite norm_index_nat.
  apply lookup_lt_Some in H.
  destruct (Nat.ltb_spec i (length l)); [reflexivity | lia].
Qed.

(** *** The runtime model on sample inputs

    The answers below are those of CPython 3.11 on the same inputs. *)

Example float_literals :
  map parse_float
    [ txt "100000"; txt " 1 "; txt "1."; txt ".1"; txt "1e5"; txt "+.5e+3";
      txt "1_000.5"; txt "-0"; txt "inf"; txt "-InFiNiTy"; txt "nan";
      txt "1e99999999999999999999"; txt "1e-99999999999999999999";
      [0x6f1; 0x6f2; 0x6f3]%N; [0xa0; 49]%N ]
  = [ Some (float_of_Z 100000); Some (float_of_Z 1); Some (float_of_Z 1);
      Some (S754_finite false 7205759403792794 (-56));
      Some (float_of_Z 100000); Some (float_of_Z 500);
      Some (S754_finite false 8800491068719104 (-43));
      Some (S754_zero true); Some (S754_infinity false);
      Some (S754_infinity true); Some S754_nan;
      Some (S754_infinity false); Some (S754_zero false);
      Some (float_of_Z 123); Some (float_of_Z 1) ].
Proof. vm_compute. reflexivity. Qed.

Example float_value_errors :
  map parse_float
    [ txt ""; txt "  "; txt "."; txt "+"; txt "1e"; txt "1e+"; txt "0x10";
      txt "1,000"; txt "1 2"; txt "--1"; txt "_1"; txt "1_"; txt "1__0";
      txt "1_e1"; txt "1_.5"; txt "infinit"; txt "in_f"; [28; 49]%N;
      [49; 0]%N; [49; 127]%N ]
  = repeat None 20.
Proof. vm_compute. reflexivity. Qed.

Example strip_samples :
  map strip [ txt "  a b  "; [28; 32; 97; 32; 31]%N; [0x85; 97; 0xa0]%N;
              [0x200b; 97]%N; txt "   " ]
  = [ txt "a b"; txt "a"; txt "a"; [0x200b; 97]%N; [] ].
Proof. vm_compute. reflexivity. Qed.

Example phone_samples :
  map (re_match phone_pattern)
    [ txt "09123456789"; txt "09123456789" ++ [10%N];
      txt "09" ++ [0x6f1; 0x6f2; 0x6f3; 0x6f4; 0x6f5; 0x6f6; 0x6f7; 0x6f8; 0x6f9]%N;
      txt "0912345678"; txt "091234567890"; txt " 09123456789"; txt "12345";
      txt "09123456789" ++ [10; 10]%N ]
  = [ true; true; true; false; false; false; false; false ].
Proof. vm_compute. reflexivity. Qed.

Example email_samples :
  map (re_match (email_pattern ascii_isalnum))
    [ txt "a@b.c"; txt "a.b-c@d-e.f.gh"; txt "a@b..c"; txt "a@-.c"; txt "a@b._";
      txt "a@b"; txt "a@.c"; txt "@b.c"; txt "a@b.c."; txt "a b@c.d";
      txt "a@b@c.d" ]
  = [ true; true; true; true; true; false; false; false; false; false; false ].
Proof. vm_compute. reflexivity. Qed.

Example list_index_samples :
  pop [1; 2; 3]%nat (-1) = inr (3, [1; 2])%nat /\
  pop [1; 2; 3]%nat 3 = inl IndexError /\
  pop [1; 2; 3]%nat (-4) = inl IndexError /\
  getitem [1; 2]%nat 1 = inr 2%nat /\
  setitem [1; 2]%nat (-2) 7%nat = inr [7; 2]%nat.
Proof. repeat split. Qed.

(** ** The handlers by cases *)

(** [add_item] by cases. *)
Lemma add_item_cases (s : App) :
  add_item s =
    let f := form s in
    if text_eqb (strip (Form.item_name f)) [] then Return (Warning EmptyName) s
    else match parse_float (price_text f), parse_float (quantity_text f) with
         | Some p, Some q =>
             if fle p fzero || fle q fzero then Return (Warning InvalidNumber) s
             else Return NoBox (item_added (new_item f p q) s)
         | _, _ => Return (Warning InvalidNumber) s
         end.
Proof.
  unfold add_item, price_text, quantity_text, float_, update_total.
  unfold_monad. cbn.
  destruct (text_eqb _ _); [reflexivity|].
  destruct (parse_float (strip (remove_char _ _))) as [p|]; cbn; [|reflexivity].
  destruct (parse_float (strip (Form.item_quantity _))) as [q|]; cbn; [|reflexivity].
  destruct (fle p fzero || fle q fzero); reflexivity.
Qed.

Lemma update_total_state (s : App) :
  update_total s =
    Return tt (with_total_label (Py.sum (map Item.total (items s))) s).
Proof. reflexivity. Qed.

Lemma update_statistics_state (s : App) :
  exists t, update_statistics s = Return tt (with_stats t s).
Proof. unfold update_statistics. unfold_monad. cbv zeta. eexists. reflexivity. Qed.

(** [save_data] by cases: the dict is written, or the failure is dropped. *)
Lemma save_data_cases (s : App) :
  save_data s =
    if writable (data_file s) then
      Return tt
        (with_file
           (mkFile
              (Some (Pickle (PyDict
                 (<["registered" := registered_orders s]>
                    (<["unregistered" := unregistered_orders s]> ∅)))))
              (readable (data_file s)) (writable (data_file s))) s)
    else Return tt s.
Proof.
  unfold save_data, write_pickle. unfold_monad. cbv beta.
  destruct (writable (data_file s)); reflexivity.
Qed.

Lemma save_data_state (s : App) :
  exists f, save_data s = Return tt (with_file f s).
Proof.
  unfold save_data, write_pickle. unfold_monad. cbn.
  destruct (writable (data_file s)); cbn; eexists.
  - reflexivity.
  - instantiate (1 := data_file s). destruct s; reflexivity.
Qed.

(** A failed save leaves the file as it was. *)
Lemma save_data_unwritable (s : App) :
  writable (data_file s) = false -> save_data s = Return tt s.
Proof. intros H. rewrite save_data_cases, H. reflexivity. Qed.

(** Saving and refreshing the statistics, as the ledger handlers end. *)
Lemma save_and_statistics (s : App) (b : Box) :
  exists f t,
    (save_data ;; update_statistics ;; ret b)%py s
    = Return b (with_stats t (with_file f s)).
Proof.
  destruct (save_data_state s) as [f Hf].
  destruct (update_statistics_state (with_file f s)) as [t Ht].
  exists f, t. unfold bind, ret. rewrite Hf, Ht. reflexivity.
Qed.

Lemma committed_return (b : Box) (s : App) :
  exists f t, committed b s = Return b (with_stats t (with_file f s)).
Proof. apply save_and_statistics. Qed.

Lemma clear_form_state (s : App) :
  exists s', clear_form s = Return tt s' /\ items s' = [] /\
             total_label s' = fzero /\
             registered_orders s' = registered_orders s /\
             unregistered_orders s' = unregistered_orders s /\
             data_file s' = data_file s.
Proof.
  unfold clear_form, update_total. unfold_monad. cbn.
  eexists. split; [reflexivity|]. cbn. auto.
Qed.

Lemma move_to_registered_cases (row : Z) (s : App) :
  move_to_registered (Some row) true s =
    match pop (unregistered_orders s) row with
    | inl e => Raise e s
    | inr (o, l) =>
        committed (Information OrderMoved)
          (with_registered (registered_orders s ++ [o]) (with_unregistered l s))
    end.
Proof.
  unfold move_to_registered, committed. unfold_monad. cbn.
  destruct (pop (unregistered_orders s) row) as [e|[o l]]; reflexivity.
Qed.

Lemma delete_registered_order_cases (row : Z) (s : App) :
  delete_registered_order (Some row) true s =
    match pop (registered_orders s) row with
    | inl e => Raise e s
    | inr (o, l) => committed NoBox (with_registered l s)
    end.
Proof.
  unfold delete_registered_order, committed. unfold_monad. cbn.
  destruct (pop (registered_orders s) row) as [e|[o l]]; reflexivity.
Qed.

Lemma delete_unregistered_order_cases (row : Z) (s : App) :
  delete_unregistered_order (Some row) true s =
    match pop (unregistered_orders s) row with
    | inl e => Raise e s
    | inr (o, l) => committed NoBox (with_unregistered l s)
    end.
Proof.
  unfold delete_unregistered_order, committed. unfold_monad. cbn.
  destruct (pop (unregistered_orders s) row) as [e|[o l]]; reflexivity.
Qed.

Lemma get_updated_order_edited (o : Order.t) (d : Dialog.t) :
  edited_from o d (get_updated_order o d).
Proof. repeat split. Qed.

Lemma edit_order_cases (row : Z) (is_registered : bool) (d : Dialog.t) (s : App) :
  edit_order row is_registered (Some d) s =
    match getitem (order_list is_registered s) row with
    | inl e => Raise e s
    | inr order =>
        let u := get_updated_order order d in
        if negb (buyer_name_ok u) then Return (Warning EmptyBuyerName) s
        else if negb (buyer_phone_ok u) then Return (Warning InvalidPhone) s
        else match setitem (order_list is_registered s) row u with
             | inl e => Raise e s
             | inr l' =>
                 committed (Information OrderEdited)
                   (with_order_list is_registered l' s)
             end
    end.
Proof.
  unfold edit_order, committed, buyer_name_ok, buyer_phone_ok. unfold_monad.
  cbv beta zeta.
  destruct (getitem (order_list is_registered s) row) as [e|order];
    [reflexivity|].
  destruct (text_eqb (strip (Order.buyer_name (get_updated_order order d))) []);
    [reflexivity|].
  destruct (text_eqb (Order.buyer_phone (get_updated_order order d)) []);
    [destruct (setitem _ row _); reflexivity|].
  destruct (re_match phone_pattern (Order.buyer_phone (get_updated_order order d)));
    [|reflexivity].
  destruct (setitem _ row _); reflexivity.
Qed.

Section Finalize.

Variable isalnum : char -> bool.

Lemma add_to_registered_orders_cases (today : text) (s : App) :
  add_to_registered_orders isalnum today s =
    match validate_inputs isalnum (form s) with
    | (false, error) => Return (Warning error) s
    | (true, _) =>
        if bool_decide (items s = []) then Return (Warning NoItems) s
        else finalized (Information OrderRegistered)
               (with_registered
                  (registered_orders s ++ [make_order today (form s) (items s)]) s)
    end.
Proof.
  unfold add_to_registered_orders, finalized. unfold_monad. cbn.
  destruct (validate_inputs isalnum (form s)) as [[] error]; [|reflexivity].
  cbn. case_bool_decide; reflexivity.
Qed.

Lemma add_to_unregistered_orders_cases (today : text) (s : App) :
  add_to_unregistered_orders isalnum today s =
    match validate_inputs isalnum (form s) with
    | (false, error) => Return (Warning error) s
    | (true, _) =>
        if bool_decide (items s = []) then Return (Warning NoItems) s
        else finalized (Information OrderStored)
               (with_unregistered
                  (unregistered_orders s ++ [make_order today (form s) (items s)]) s)
    end.
Proof.
  unfold add_to_unregistered_orders, finalized. unfold_monad. cbn.
  destruct (validate_inputs isalnum (form s)) as [[] error]; [|reflexivity].
  cbn. case_bool_decide; reflexivity.
Qed.

Lemma finalized_return (b : Box) (s : App) :
  exists s', finalized b s = Return b s' /\
             items s' = [] /\ total_label s' = fzero /\
             registered_orders s' = registered_orders s /\
             unregistered_orders s' = unregistered_orders s.
Proof.
  unfold finalized.
  destruct (save_data_state s) as [f Hf].
  destruct (update_statistics_state (with_file f s)) as [t Ht].
  destruct (clear_form_state (with_stats t (with_file f s)))
    as (s' & Hs' & H1 & H2 & H3 & H4 & _).
  exists s'. unfold bind, ret. rewrite Hf, Ht, Hs'. auto.
Qed.

End Finalize.

Lemma clear_all_data_cases (s : App) :
  clear_all_data true s =
    cleared (with_total_label fzero
               (with_items [] (with_unregistered [] (with_registered [] s)))).
Proof. reflexivity. Qed.

Lemma clear_all_data_state (s : App) :
  exists s', clear_all_data true s = Return (Information DataCleared) s' /\
             items s' = [] /\ total_label s' = fzero /\
             registered_orders s' = [] /\ unregistered_orders s' = [].
Proof.
  rewrite clear_all_data_cases. unfold cleared, bind, information, ret.
  destruct (update_statistics_state
              (with_total_label fzero
                 (with_items [] (with_unregistered [] (with_registered [] s)))))
    as [t ->].
  destruct (save_data_state
              (with_stats t
                 (with_total_label fzero
                    (with_items [] (with_unregistered [] (with_registered [] s))))))
    as [f ->].
  eexists. split; [reflexivity|]. cbn. auto.
Qed.

Lemma load_data_cases (s : App) :
  load_data s =
    match content (data_file s) with
    | None => Return tt (with_ledger [] [] s)
    | Some c =>
        if readable (data_file s) then
          match c with
          | Pickle (PyDict d) =>
              Return tt (with_ledger (default [] (d !! "registered"))
                                     (default [] (d !! "unregistered")) s)
          | Pickle PyOther => Return tt (with_ledger [] [] s)
          | Corrupt e =>
              if caught e then Return tt (with_ledger [] [] s) else Raise e s
          end
        else Raise PermissionError s
    end.
Proof.
  unfold load_data, read_pickle, dict_get, caught, with_ledger. unfold_monad.
  destruct s as [fm its reg unreg tl st [[[[d|]|e]|] [] w]];
    cbn [data_file content readable]; reflexivity.
Qed.

(** Where [load_data] does what its docstring says: no file, a pickled
    dict, or an exception of the three classes it names. *)
Lemma load_data_handled (s : App) :
  match content (data_file s) with
  | None => load_data s = Return tt (with_ledger [] [] s)
  | Some (Pickle (PyDict d)) =>
      readable (data_file s) = true ->
      load_data s = Return tt (with_ledger (default [] (d !! "registered"))
                                           (default [] (d !! "unregistered")) s)
  | Some (Pickle PyOther) =>
      readable (data_file s) = true ->
      load_data s = Return tt (with_ledger [] [] s)
  | Some (Corrupt e) =>
      readable (data_file s) = true -> caught e = true ->
      load_data s = Return tt (with_ledger [] [] s)
  end.
Proof.
  rewrite load_data_cases.
  destruct (content (data_file s)) as [[[d|]|e]|]; try reflexivity;
    intros ->; try reflexivity.
  intros ->. reflexivity.
Qed.

(** Every exception outside the three classes gets through in this way. *)
Lemma load_data_raises (s : App) (e : exn) :
  content (data_file s) = Some (Corrupt e) ->
  readable (data_file s) = true ->
  caught e = false ->
  load_data s = Raise e s.
Proof. intros Hc Hr He. rewrite load_data_cases, Hc, Hr, He. reflexivity. Qed.

(** ** Adding a line item *)

(** C4. For a name that is not empty once stripped, a price text that
    [float] reads (commas removed) as a value [p > 0] and a quantity text it
    reads as a value [q > 0], [add_item] succeeds and appends the item
    [(name, p, q, unit, p * q)]: the line total is the binary64 product of
    unit price and quantity (the same value, and [==] to it). *)
Theorem add_item_line_total (s : App) (p q : float) :
  strip (Form.item_name (form s)) <> [] ->
  parse_float (price_text (form s)) = Some p ->
  parse_float (quantity_text (form s)) = Some q ->
  flt fzero p = true ->
  flt fzero q = true ->
  line_item_added s p q.
Proof.
  intros Hname Hp Hq Hp0 Hq0.
  exists (new_item (form s) p q), (item_added (new_item (form s) p q) s).
  rewrite add_item_cases. cbv zeta.
  rewrite (text_eqb_false _ _ Hname), Hp, Hq.
  rewrite (positive_not_le p Hp0), (positive_not_le q Hq0). cbn [orb].
  repeat split.
  cbn [new_item Item.total Item.price Item.quantity].
  apply feq_refl, fmul_positive_not_nan; assumption.
Qed.

Lemma add_item_line_total_witness :
  line_item_added widget_draft (float_of_Z 100000) (float_of_Z 2).
Proof.
  apply (add_item_line_total widget_draft (float_of_Z 100000) (float_of_Z 2));
    vm_compute; congruence.
Defined.

(** Scenario: item ("Widget", 100000, 2) has line total 200000, and the
    total of the draft is 200000. *)
Example widget_scenario :
  exists s',
    add_item widget_draft = Return NoBox s' /\
    map Item.total (items s') = [float_of_Z 200000] /\
    total_label s' = float_of_Z 200000.
Proof. eexists. vm_compute. repeat split. Qed.

(** When [add_item] warns, in the terms of the code: about an empty name
    exactly when the name strips to the empty text; with a name, about
    invalid numbers exactly when [float] raises on the price text (commas
    removed) or on the quantity text, or one of the two values is [<= 0]; a
    handler that warns leaves the state as it was, so no item is added; and
    the handler never raises. *)
Lemma add_item_failures (s : App) :
  let f := form s in
  let name := strip (Form.item_name f) in
  (shown (add_item s) = Some (Warning EmptyName) <-> name = []) /\
  (name <> [] ->
   (shown (add_item s) = Some (Warning InvalidNumber) <->
    bad_number (price_text f) = true \/ bad_number (quantity_text f) = true)) /\
  (forall m, shown (add_item s) = Some (Warning m) ->
             add_item s = Return (Warning m) s) /\
  shown (add_item s) <> None.
Proof.
  cbv zeta. rewrite add_item_cases. cbv zeta. unfold bad_number, text_eqb.
  case_bool_decide as Hname.
  - cbn. repeat split; congruence.
  - destruct (parse_float (price_text (form s))) as [p|];
      destruct (parse_float (quantity_text (form s))) as [q|]; cbn;
      try destruct (fle p fzero); try destruct (fle q fzero); cbn;
      repeat split; try congruence; try tauto;
      intros; try discriminate; auto;
      match goal with H : _ \/ _ |- _ => destruct H; discriminate end.
Qed.

(** A value that is not [<= 0] and not finite is nan or the positive
    infinity, and a product with it is not finite either. *)
Lemma fmul_not_finite (p q : float) :
  fle p fzero = false -> fle q fzero = false ->
  is_finite p = false \/ is_finite q = false ->
  is_finite (fmul p q) = false.
Proof.
  intros Hp Hq H.
  destruct p as [sp|sp| |sp mp ep], q as [sq|sq| |sq mq eq];
    try (destruct H; discriminate); try discriminate;
    try (destruct sp; try discriminate); try (destruct sq; try discriminate);
    reflexivity.
Qed.

(** C5, where the code departs from it.  [float] reads the texts nan, inf
    and infinity, which are no decimal numbers, and neither nan nor the
    positive infinity is [<= 0]: with a name, when the price text or the
    quantity text is read as such a value and neither value is [<= 0],
    [add_item] shows no warning and appends an item, whose total is not a
    number either. *)
Theorem add_item_accepts_non_numbers (s : App) (p q : float) :
  strip (Form.item_name (form s)) <> [] ->
  parse_float (price_text (form s)) = Some p ->
  parse_float (quantity_text (form s)) = Some q ->
  is_finite p = false \/ is_finite q = false ->
  fle p fzero = false ->
  fle q fzero = false ->
  exists it,
    add_item s = Return NoBox (item_added it s) /\
    items (item_added it s) = items s ++ [it] /\
    Item.price it = p /\ Item.quantity it = q /\
    is_finite (Item.total it) = false.
Proof.
  intros Hname Hp Hq Hn Hp0 Hq0. exists (new_item (form s) p q).
  rewrite add_item_cases. cbv zeta.
  rewrite (text_eqb_false _ _ Hname), Hp, Hq, Hp0, Hq0. cbn [orb].
  repeat split. apply fmul_not_finite; assumption.
Qed.

Lemma add_item_accepts_non_numbers_witness :
  strip (Form.item_name (form nan_price_draft)) <> [] /\
  parse_float (price_text (form nan_price_draft)) = Some S754_nan /\
  parse_float (quantity_text (form nan_price_draft)) = Some (float_of_Z 2) /\
  exists it,
    add_item nan_price_draft = Return NoBox (item_added it nan_price_draft) /\
    items (item_added it nan_price_draft) = items nan_price_draft ++ [it] /\
    Item.price it = S754_nan /\ Item.quantity it = float_of_Z 2 /\
    is_finite (Item.total it) = false.
Proof.
  split; [vm_compute; discriminate|].
  split; [vm_compute; reflexivity|]. split; [vm_compute; reflexivity|].
  apply (add_item_accepts_non_numbers nan_price_draft S754_nan (float_of_Z 2));
    first [vm_compute; discriminate | vm_compute; reflexivity | left; reflexivity].
Defined.

(** The same with the quantity "inf": the item has quantity and total
    infinity, and the label shows infinity. *)
Example inf_quantity_accepted :
  shown (add_item inf_quantity_draft) = Some NoBox /\
  map Item.total (items (state_of (add_item inf_quantity_draft)))
  = [S754_infinity false] /\
  total_label (state_of (add_item inf_quantity_draft)) = S754_infinity false.
Proof. vm_compute. repeat split. Qed.

(** The text "nan" is a float that is not [<= 0]: it is accepted as a price. *)
Example nan_price_accepted :
  let s := with_form (set_field item_price (txt "nan") widget_form)
                     (blank no_file) in
  bad_number (price_text (form s)) = false /\
  shown (add_item s) = Some NoBox /\
  map Item.price (items (state_of (add_item s))) = [S754_nan].
Proof. vm_compute. repeat split. Qed.

(** C10. Commas are removed from the price text only: with a name, a
    quantity text that holds a comma makes [add_item] warn about invalid
    numbers and leave the state as it was, whatever the price text. *)
Theorem add_item_quantity_comma (s : App) :
  strip (Form.item_name (form s)) <> [] ->
  In (chr ",") (Form.item_quantity (form s)) ->
  add_item s = Return (Warning InvalidNumber) s.
Proof.
  intros Hname Hin. rewrite add_item_cases. cbv zeta.
  rewrite (text_eqb_false _ _ Hname).
  assert (Hq : parse_float (quantity_text (form s)) = None).
  { apply parse_float_comma, in_strip; [reflexivity | exact Hin]. }
  rewrite Hq. destruct (parse_float (price_text (form s))); reflexivity.
Qed.

Lemma add_item_quantity_comma_witness :
  strip (Form.item_name (form comma_quantity_draft)) <> [] /\
  In (chr ",") (Form.item_quantity (form comma_quantity_draft)) /\
  parse_float (price_text (form comma_quantity_draft)) = Some (float_of_Z 1000) /\
  add_item comma_quantity_draft = Return (Warning InvalidNumber) comma_quantity_draft.
Proof.
  split; [vm_compute; congruence|].
  split; [vm_compute; tauto|].
  split; [vm_compute; reflexivity|].
  apply (add_item_quantity_comma comma_quantity_draft);
    [vm_compute; congruence | vm_compute; tauto].
Defined.

(** The same digits without the comma are a valid quantity. *)
Example quantity_without_comma :
  line_item_added
    (with_form (set_field item_quantity (txt "1000") (form comma_quantity_draft))
               comma_quantity_draft)
    (float_of_Z 1000) (float_of_Z 1000).
Proof. unfold line_item_added. eexists _, _. vm_compute. repeat split. Qed.

(** ** The running total *)

Lemma same_draft_total (s s' : App) :
  same_draft s s' -> total_shown_is_sum s -> total_shown_is_sum s'.
Proof. unfold same_draft, total_shown_is_sum. intros [-> ->]. auto. Qed.

Lemma add_item_total (s : App) :
  total_shown_is_sum s -> total_shown_is_sum (state_of (add_item s)).
Proof.
  intros H. rewrite add_item_cases. cbv zeta.
  split_handler; try exact H. reflexivity.
Qed.

Lemma delete_item_total (selected : option Z) (answer : bool) (s : App) :
  total_shown_is_sum s ->
  total_shown_is_sum (state_of (delete_item selected answer s)).
Proof.
  intros H. unfold delete_item, update_total. unfold_monad.
  destruct selected as [row|]; [|exact H].
  destruct answer; [|exact H]. cbn.
  destruct (pop (items s) row) as [e|[x l]]; cbn; [exact H | reflexivity].
Qed.

Lemma clear_items_total (answer : bool) (s : App) :
  total_shown_is_sum s -> total_shown_is_sum (state_of (clear_items answer s)).
Proof. intros H. destruct answer; [reflexivity | exact H]. Qed.

Lemma committed_same_draft (b : Box) (s : App) :
  same_draft s (state_of (committed b s)).
Proof.
  destruct (committed_return b s) as (f & t & ->). split; reflexivity.
Qed.

Lemma committed_total (b : Box) (s : App) :
  total_shown_is_sum s -> total_shown_is_sum (state_of (committed b s)).
Proof. apply same_draft_total, committed_same_draft. Qed.

Lemma move_to_registered_total (selected : option Z) (answer : bool) (s : App) :
  total_shown_is_sum s ->
  total_shown_is_sum (state_of (move_to_registered selected answer s)).
Proof.
  intros H. destruct selected as [row|]; [|exact H].
  destruct answer; [|exact H].
  rewrite move_to_registered_cases.
  destruct (pop (unregistered_orders s) row) as [e|[o l]]; [exact H|].
  apply committed_total, H.
Qed.

Lemma delete_registered_order_total (selected : option Z) (answer : bool) (s : App) :
  total_shown_is_sum s ->
  total_shown_is_sum (state_of (delete_registered_order selected answer s)).
Proof.
  intros H. destruct selected as [row|]; [|exact H].
  destruct answer; [|exact H].
  rewrite delete_registered_order_cases.
  destruct (pop (registered_orders s) row) as [e|[o l]]; [exact H|].
  apply committed_total, H.
Qed.

Lemma delete_unregistered_order_total (selected : option Z) (answer : bool) (s : App) :
  total_shown_is_sum s ->
  total_shown_is_sum (state_of (delete_unregistered_order selected answer s)).
Proof.
  intros H. destruct selected as [row|]; [|exact H].
  destruct answer; [|exact H].
  rewrite delete_unregistered_order_cases.
  destruct (pop (unregistered_orders s) row) as [e|[o l]]; [exact H|].
  apply committed_total, H.
Qed.

Lemma edit_order_total (row : Z) (is_registered : bool) (dialog : option Dialog.t)
    (s : App) :
  total_shown_is_sum s ->
  total_shown_is_sum (state_of (edit_order row is_registered dialog s)).
Proof.
  intros H. destruct dialog as [d|].
  - rewrite edit_order_cases.
    destruct (getitem _ row) as [e|order]; [exact H|]. cbv zeta.
    destruct (negb (buyer_name_ok _)); [exact H|].
    destruct (negb (buyer_phone_ok _)); [exact H|].
    destruct (setitem _ row _) as [e|l']; [exact H|].
    apply committed_total. destruct is_registered; exact H.
  - unfold edit_order. unfold_monad.
    destruct (getitem _ row); exact H.
Qed.

Lemma clear_all_data_total (answer : bool) (s : App) :
  total_shown_is_sum s ->
  total_shown_is_sum (state_of (clear_all_data answer s)).
Proof.
  intros H. destruct answer; [|exact H].
  destruct (clear_all_data_state s) as (s' & -> & H1 & H2 & _).
  unfold total_shown_is_sum. cbn. rewrite H1, H2. reflexivity.
Qed.

Section Sessions.

Variable isalnum : char -> bool.

Lemma finalized_total (b : Box) (s : App) :
  total_shown_is_sum (state_of (finalized b s)).
Proof.
  destruct (finalized_return b s) as (s' & -> & H1 & H2 & _).
  unfold total_shown_is_sum. cbn. rewrite H1, H2. reflexivity.
Qed.

Lemma add_to_registered_orders_total (today : text) (s : App) :
  total_shown_is_sum s ->
  total_shown_is_sum (state_of (add_to_registered_orders isalnum today s)).
Proof.
  intros H. rewrite add_to_registered_orders_cases.
  destruct (validate_inputs isalnum (form s)) as [[] error]; [|exact H].
  case_bool_decide; [exact H | apply finalized_total].
Qed.

Lemma add_to_unregistered_orders_total (today : text) (s : App) :
  total_shown_is_sum s ->
  total_shown_is_sum (state_of (add_to_unregistered_orders isalnum today s)).
Proof.
  intros H. rewrite add_to_unregistered_orders_cases.
  destruct (validate_inputs isalnum (form s)) as [[] error]; [|exact H].
  case_bool_decide; [exact H | apply finalized_total].
Qed.

Lemma handle_total (ev : Event) (s : App) :
  total_shown_is_sum s -> total_shown_is_sum (state_of (handle isalnum ev s)).
Proof.
  destruct ev; cbn [handle].
  - intros H. exact H.
  - apply add_item_total.
  - apply delete_item_total.
  - apply clear_items_total.
  - apply add_to_registered_orders_total.
  - apply add_to_unregistered_orders_total.
  - apply edit_order_total.
  - apply move_to_registered_total.
  - apply delete_registered_order_total.
  - apply delete_unregistered_order_total.
  - apply clear_all_data_total.
Qed.

Lemma run_total (evs : list Event) (boxes : list Box) (s : App) :
  total_shown_is_sum s ->
  total_shown_is_sum (state_of (run isalnum evs boxes s)).
Proof.
  revert boxes s. induction evs as [|ev rest IH]; intros boxes s H; cbn [run].
  - exact H.
  - unfold bind. pose proof (handle_total ev s H) as H1.
    destruct (handle isalnum ev s) as [b s'|e s']; cbn [state_of] in H1.
    + apply IH, H1.
    + exact H1.
Qed.

End Sessions.

(** The label is right when the window opens. *)
Lemma total_at_startup (file : File) :
  total_shown_is_sum (state_of (InvoiceApp_init file)).
Proof.
  unfold InvoiceApp_init, init_ui. unfold bind.
  rewrite load_data_cases.
  destruct (content (data_file (blank file))) as [[[d|]|e]|];
    try destruct (readable (data_file (blank file)));
    try reflexivity.
  destruct (caught e); reflexivity.
Qed.

(** C6. Through every session (items added and removed, and any other
    handler in between), the total the label shows is the sum of the line
    totals of the items the draft holds at that moment, and it is 0 when
    the draft holds no item; this holds from any state in which the label
    is right, and it is right when the window opens. *)
Theorem total_follows_items (isalnum : char -> bool) (evs : list Event)
    (boxes : list Box) (s : App) :
  total_shown_is_sum s ->
  let s' := state_of (run isalnum evs boxes s) in
  total_label s' = Py.sum (map Item.total (items s')) /\
  (items s' = [] -> total_label s' = fzero).
Proof.
  intros H. cbv zeta. pose proof (run_total isalnum evs boxes s H) as H'.
  split; [exact H'|]. intros E. rewrite H', E. reflexivity.
Qed.

Lemma total_follows_items_witness :
  total_shown_is_sum (blank no_file) /\
  let s' := state_of (run ascii_isalnum shopping [] (blank no_file)) in
  total_label s' = Py.sum (map Item.total (items s')) /\
  (items s' = [] -> total_label s' = fzero).
Proof.
  split; [reflexivity|].
  apply (total_follows_items ascii_isalnum shopping [] (blank no_file)).
  reflexivity.
Defined.

(** What is left is the second item; 0.1 * 3 is 0.30000000000000004. *)
Example shopping_total :
  let s' := state_of (run ascii_isalnum shopping [] (blank no_file)) in
  map Item.name (items s') = [txt "Bolt"] /\
  total_label s' = S754_finite false 5404319552844596 (-54).
Proof. vm_compute. split; reflexivity. Qed.

(** ** Finalising a draft without items *)

(** C7. When the fields of the form pass [validate_inputs] and the draft
    holds no item, both finalising handlers warn that there is no item and
    leave the whole state, the two ledger lists and the store included, as
    it was. *)
Theorem finalize_without_items (isalnum : char -> bool) (today : text) (s : App) :
  fst (validate_inputs isalnum (form s)) = true ->
  items s = [] ->
  add_to_registered_orders isalnum today s = Return (Warning NoItems) s /\
  add_to_unregistered_orders isalnum today s = Return (Warning NoItems) s.
Proof.
  intros Hv Hi.
  rewrite add_to_registered_orders_cases, add_to_unregistered_orders_cases.
  destruct (validate_inputs isalnum (form s)) as [valid error].
  cbn in Hv. subst valid.
  rewrite bool_decide_eq_true_2 by exact Hi. split; reflexivity.
Qed.

Lemma finalize_without_items_witness :
  fst (validate_inputs ascii_isalnum (form empty_draft)) = true /\
  items empty_draft = [] /\
  add_to_registered_orders ascii_isalnum (txt "2025/01/01") empty_draft
    = Return (Warning NoItems) empty_draft /\
  add_to_unregistered_orders ascii_isalnum (txt "2025/01/01") empty_draft
    = Return (Warning NoItems) empty_draft.
Proof.
  split; [vm_compute; reflexivity|]. split; [reflexivity|].
  apply (finalize_without_items ascii_isalnum (txt "2025/01/01") empty_draft);
    [vm_compute; reflexivity | reflexivity].
Defined.

(** Scenario: finalising with an empty buyer name warns about it and
    changes nothing. *)
Example finalize_empty_buyer_name :
  let s := with_form (set_field buyer_name [] valid_form) widget_draft in
  add_to_registered_orders ascii_isalnum (txt "2025/01/01") s
    = Return (Warning EmptyBuyerName) s.
Proof. vm_compute. reflexivity. Qed.

(** ** Statistics *)

(** C9. [update_statistics] only writes the table: the two counts are the
    lengths of the two lists, the amount is the sum over the registered
    orders of the sum of the line totals of their items, and the average
    is the amount divided by the number of registered orders, or 0 when
    there is none; the lists, the draft, the form and the store are as
    before. *)
Theorem statistics_of_ledger (s : App) :
  exists t,
    update_statistics s = Return tt (with_stats t s) /\
    total_reg_orders t = length (registered_orders s) /\
    total_unreg_orders t = length (unregistered_orders s) /\
    total_amount t =
      Py.sum (map (fun order => Py.sum (map Item.total (Order.items order)))
                  (registered_orders s)) /\
    avg_order t =
      match length (registered_orders s) with
      | O => fzero
      | S _ => fdiv (total_amount t)
                    (float_of_Z (Z.of_nat (length (registered_orders s))))
      end /\
    registered_orders (with_stats t s) = registered_orders s /\
    unregistered_orders (with_stats t s) = unregistered_orders s /\
    items (with_stats t s) = items s /\
    form (with_stats t s) = form s /\
    data_file (with_stats t s) = data_file s.
Proof.
  unfold update_statistics. unfold_monad. cbv beta zeta.
  eexists. split; [reflexivity|]. cbn.
  repeat split. destruct (registered_orders s); reflexivity.
Qed.

(** Scenario: three registered orders of 500000, 300000 and 200000 give a
    revenue of 1000000 and an average of 333333.3333333333 (the binary64
    quotient, 5726623061333333 * 2^-34). *)
Example statistics_scenario :
  let s := with_registered
             [ order_with [float_of_Z 500000];
               order_with [float_of_Z 100000; float_of_Z 200000];
               order_with [float_of_Z 200000] ] (blank no_file) in
  stats_table (state_of (update_statistics s))
  = mkStats 3 0 (float_of_Z 1000000) (S754_finite false 5726623061333333 (-34)).
Proof. vm_compute. reflexivity. Qed.

(** ** Moving an order *)

(** C2. [move_to_registered], confirmed, on row [i] of the list of
    unregistered orders: if the list has an order at [i], that order is
    removed from it and appended to the registered orders, the other
    orders staying in place; if it has none, the handler raises
    [IndexError] and the state is as before. *)
Theorem move_to_registered_atomic (s : App) (i : nat) :
  match unregistered_orders s !! i with
  | Some o =>
      exists s',
        move_to_registered (Some (Z.of_nat i)) true s
          = Return (Information OrderMoved) s' /\
        unregistered_orders s' = delete i (unregistered_orders s) /\
        registered_orders s' = registered_orders s ++ [o]
  | None =>
      move_to_registered (Some (Z.of_nat i)) true s = Raise IndexError s
  end.
Proof.
  rewrite move_to_registered_cases, pop_nat.
  destruct (unregistered_orders s !! i) as [o|]; [|reflexivity].
  destruct (committed_return (Information OrderMoved)
              (with_registered (registered_orders s ++ [o])
                 (with_unregistered (delete i (unregistered_orders s)) s)))
    as (f & t & ->).
  eexists. split; [reflexivity|]. split; reflexivity.
Qed.

(** Whatever the selection, the answer and the row (a negative row counts
    from the end), the handler moves one order or leaves both lists alone. *)
Lemma move_to_registered_all_or_nothing (selected : option Z) (answer : bool)
    (s : App) :
  let s' := state_of (move_to_registered selected answer s) in
  (registered_orders s' = registered_orders s /\
   unregistered_orders s' = unregistered_orders s) \/
  (exists j o,
     unregistered_orders s !! j = Some o /\
     unregistered_orders s' = delete j (unregistered_orders s) /\
     registered_orders s' = registered_orders s ++ [o]).
Proof.
  cbv zeta. destruct selected as [row|]; [|left; split; reflexivity].
  destruct answer; [|left; split; reflexivity].
  rewrite move_to_registered_cases. unfold pop.
  destruct (norm_index (unregistered_orders s) row) as [j|];
    [|left; split; reflexivity].
  destruct (unregistered_orders s !! j) as [o|] eqn:E;
    [|left; split; reflexivity].
  right. exists j, o.
  destruct (committed_return (Information OrderMoved)
              (with_registered (registered_orders s ++ [o])
                 (with_unregistered (delete j (unregistered_orders s)) s)))
    as (f & t & ->).
  split; [exact E|]. split; reflexivity.
Qed.

(** Scenario: row 5 of a list of two orders. *)
Example move_out_of_range :
  move_to_registered (Some 5%Z) true small_ledger = Raise IndexError small_ledger.
Proof. reflexivity. Qed.

Example move_first :
  let s' := state_of (move_to_registered (Some 0%Z) true small_ledger) in
  registered_orders s'
    = [order_with [float_of_Z 500000]; order_with [float_of_Z 300000]] /\
  unregistered_orders s' = [order_with [float_of_Z 200000]].
Proof. split; reflexivity. Qed.

(** ** Editing an order *)

(** C3. [edit_order] on a row [i] that holds an order [o], with the dialog
    accepted and a buyer name that is not empty once stripped.  The updated
    order has the date, seller fields, items and total of [o] and the
    stripped buyer fields of the dialog.  If its phone is empty or matches
    the phone pattern, it replaces [o] at row [i] of the list, and the
    other list is untouched; if its phone is not empty and does not match,
    the handler warns about the phone and the state, so the order at row
    [i] too, is as before. *)
Theorem edit_order_buyer_fields (s : App) (is_registered : bool) (i : nat)
    (d : Dialog.t) (o : Order.t) :
  order_list is_registered s !! i = Some o ->
  strip (Dialog.buyer_name d) <> [] ->
  let u := get_updated_order o d in
  edited_from o d u /\
  (Order.buyer_phone u = [] \/ re_match phone_pattern (Order.buyer_phone u) = true ->
   exists s',
     edit_order (Z.of_nat i) is_registered (Some d) s
       = Return (Information OrderEdited) s' /\
     order_list is_registered s' = <[i := u]> (order_list is_registered s) /\
     order_list (negb is_registered) s' = order_list (negb is_registered) s) /\
  (Order.buyer_phone u <> [] ->
   re_match phone_pattern (Order.buyer_phone u) = false ->
   edit_order (Z.of_nat i) is_registered (Some d) s
     = Return (Warning InvalidPhone) s /\
   order_list is_registered s !! i = Some o).
Proof.
  intros Hi Hname. cbv zeta.
  split; [apply get_updated_order_edited|].
  rewrite edit_order_cases, getitem_nat, Hi. cbv zeta.
  assert (Hn : buyer_name_ok (get_updated_order o d) = true).
  { unfold buyer_name_ok. cbn [get_updated_order Order.buyer_name].
    rewrite strip_idempotent, (text_eqb_false _ _ Hname). reflexivity. }
  rewrite Hn. cbn [negb].
  rewrite (setitem_nat _ _ _ _ Hi).
  split.
  - intros Hphone.
    assert (Hp : buyer_phone_ok (get_updated_order o d) = true).
    { unfold buyer_phone_ok. destruct Hphone as [-> | ->].
      - reflexivity.
      - apply orb_true_r. }
    rewrite Hp. cbn [negb].
    destruct (committed_return (Information OrderEdited)
                (with_order_list is_registered
                   (<[i := get_updated_order o d]> (order_list is_registered s)) s))
      as (f & t & ->).
    eexists. split; [reflexivity|]. destruct is_registered; split; reflexivity.
  - intros Hne Hno.
    assert (Hp : buyer_phone_ok (get_updated_order o d) = false).
    { unfold buyer_phone_ok. rewrite (text_eqb_false _ _ Hne), Hno. reflexivity. }
    rewrite Hp. cbn [negb]. split; reflexivity.
Qed.

Lemma edit_order_buyer_fields_witness :
  let o := order_with [float_of_Z 300000] in
  let u := get_updated_order o good_dialog in
  order_list false small_ledger !! 0%nat = Some o /\
  strip (Dialog.buyer_name good_dialog) <> [] /\
  edited_from o good_dialog u /\
  (Order.buyer_phone u = [] \/ re_match phone_pattern (Order.buyer_phone u) = true ->
   exists s',
     edit_order (Z.of_nat 0) false (Some good_dialog) small_ledger
       = Return (Information OrderEdited) s' /\
     order_list false s' = <[0%nat := u]> (order_list false small_ledger) /\
     order_list (negb false) s' = order_list (negb false) small_ledger) /\
  (Order.buyer_phone u <> [] ->
   re_match phone_pattern (Order.buyer_phone u) = false ->
   edit_order (Z.of_nat 0) false (Some good_dialog) small_ledger
     = Return (Warning InvalidPhone) small_ledger /\
   order_list false small_ledger !! 0%nat = Some o).
Proof.
  cbv zeta. split; [reflexivity|]. split; [vm_compute; congruence|].
  apply (edit_order_buyer_fields small_ledger false 0 good_dialog
           (order_with [float_of_Z 300000]));
    [reflexivity | vm_compute; congruence].
Defined.

(** With a buyer name that strips to the empty text the name is refused
    first, whatever the phone, and the state is as before. *)
Lemma edit_order_empty_name (s : App) (is_registered : bool) (i : nat)
    (d : Dialog.t) (o : Order.t) :
  order_list is_registered s !! i = Some o ->
  strip (Dialog.buyer_name d) = [] ->
  edit_order (Z.of_nat i) is_registered (Some d) s
    = Return (Warning EmptyBuyerName) s.
Proof.
  intros Hi Hname. rewrite edit_order_cases, getitem_nat, Hi. cbv zeta.
  unfold buyer_name_ok. cbn [get_updated_order Order.buyer_name].
  rewrite strip_idempotent, (text_eqb_true _ _ Hname). reflexivity.
Qed.

(** Scenario: the phone "12345" is refused and row 0 keeps its order. *)
Example edit_bad_phone :
  edit_order 0 false (Some bad_phone_dialog) small_ledger
    = Return (Warning InvalidPhone) small_ledger.
Proof. vm_compute. reflexivity. Qed.

(** The padded fields are stored stripped. *)
Example edit_good_dialog :
  let s' := state_of (edit_order 0 false (Some good_dialog) small_ledger) in
  (Order.buyer_name <$> unregistered_orders s' !! 0%nat) = Some (txt "Ali Rezai") /\
  (Order.buyer_phone <$> unregistered_orders s' !! 0%nat) = Some (txt "09123456789") /\
  unregistered_orders s' !! 1%nat = unregistered_orders small_ledger !! 1%nat /\
  registered_orders s' = registered_orders small_ledger.
Proof. vm_compute. repeat split. Qed.

(** ** The store *)

(** C1, as amended. When the file can be written and read, [save_data]
    followed by [load_data] gives back the two lists, order for order and
    field for field. *)
Theorem save_load_round_trip (s : App) :
  writable (data_file s) = true ->
  readable (data_file s) = true ->
  round_trip s.
Proof.
  intros Hw Hr. unfold round_trip, save_then_load, bind.
  rewrite save_data_cases, Hw, load_data_cases.
  cbn [data_file with_file content readable]. rewrite Hr.
  eexists. split; [reflexivity|].
  cbn [with_ledger with_unregistered with_registered registered_orders
       unregistered_orders].
  rewrite lookup_insert_eq.
  rewrite lookup_insert_ne by discriminate. rewrite lookup_insert_eq.
  split; reflexivity.
Qed.

Lemma save_load_round_trip_witness :
  writable (data_file small_ledger) = true /\
  readable (data_file small_ledger) = true /\
  round_trip small_ledger.
Proof.
  split; [reflexivity|]. split; [reflexivity|].
  apply (save_load_round_trip small_ledger); reflexivity.
Defined.

(** C1 as stated fails: when the file cannot be written, [save_data] drops
    the failure, and [load_data] finds no file and empties both lists. *)
Lemma save_load_not_always_round_trip : ~ (forall s : App, round_trip s).
Proof.
  intros H. destruct (H read_only_ledger) as (s' & Hs' & Hreg & _).
  vm_compute in Hs'. injection Hs' as <-. discriminate Hreg.
Qed.

(** ** Start-up *)

(** C8 at two stores: [load_data] lets the exception through, so
    [InvoiceApp.__init__] raises instead of starting with empty lists. *)
Theorem startup_raises :
  InvoiceApp_init corrupt_file = Raise ValueError (blank corrupt_file) /\
  InvoiceApp_init unreadable_file = Raise PermissionError (blank unreadable_file).
Proof. split; reflexivity. Qed.

(** ** What a handler can do to the state *)

Lemma save_data_exact (s : App) :
  save_data s =
    Return tt (with_file (file_saved (data_file s) (registered_orders s)
                                     (unregistered_orders s)) s).
Proof.
  rewrite save_data_cases. unfold file_saved, ledger_dict.
  destruct (writable (data_file s)); [reflexivity|].
  destruct s; reflexivity.
Qed.

Lemma update_statistics_exact (s : App) :
  update_statistics s =
    Return tt (with_stats (ledger_stats (registered_orders s)
                                        (unregistered_orders s)) s).
Proof. reflexivity. Qed.

Lemma committed_exact (b : Box) (s : App) :
  committed b s =
    Return b
      (with_stats (ledger_stats (registered_orders s) (unregistered_orders s))
         (with_file (file_saved (data_file s) (registered_orders s)
                                (unregistered_orders s)) s)).
Proof.
  unfold committed, bind, ret. rewrite save_data_exact, update_statistics_exact.
  reflexivity.
Qed.

Lemma finalized_exact (b : Box) (s : App) :
  finalized b s =
    Return b
      (with_total_label fzero
         (with_form
            (Form.mk [] [] [] [] [] [] [] [] [] [] [] [] (Form.item_unit (form s)))
            (with_items []
               (with_stats
                  (ledger_stats (registered_orders s) (unregistered_orders s))
                  (with_file (file_saved (data_file s) (registered_orders s)
                                         (unregistered_orders s)) s))))).
Proof.
  unfold finalized, bind, ret. rewrite save_data_exact, update_statistics_exact.
  reflexivity.
Qed.

Lemma cleared_exact (s : App) :
  cleared s =
    Return (Information DataCleared)
      (with_file (file_saved (data_file s) (registered_orders s)
                             (unregistered_orders s))
         (with_stats (ledger_stats (registered_orders s) (unregistered_orders s))
            s)).
Proof.
  unfold cleared, bind, information, ret.
  rewrite update_statistics_exact, save_data_exact. reflexivity.
Qed.

Lemma effect_refl (s : App) : effect s s.
Proof. apply effect_form; reflexivity. Qed.

Lemma pop_lookup {A} (l : list A) (row : Z) (x : A) (l' : list A) :
  pop l row = inr (x, l') -> exists j, l !! j = Some x /\ l' = delete j l.
Proof.
  unfold pop. destruct (norm_index l row) as [j|]; [|discriminate].
  destruct (l !! j) as [y|] eqn:E; [|discriminate].
  intros [= <- <-]. eauto.
Qed.

Lemma pop_raises {A} (l : list A) (row : Z) (e : exn) :
  pop l row = inl e -> e = IndexError.
Proof.
  unfold pop. destruct (norm_index l row) as [j|]; [|congruence].
  destruct (l !! j); congruence.
Qed.

Lemma getitem_lookup {A} (l : list A) (row : Z) (x : A) :
  getitem l row = inr x ->
  exists j, norm_index l row = Some j /\ l !! j = Some x.
Proof.
  unfold getitem. destruct (norm_index l row) as [j|]; [|discriminate].
  destruct (l !! j) as [y|] eqn:E; [|discriminate].
  intros [= <-]. eauto.
Qed.

Lemma add_item_effect (s : App) : effect s (state_of (add_item s)).
Proof.
  rewrite add_item_cases. cbv zeta.
  destruct (text_eqb _ _); [apply effect_refl|].
  destruct (parse_float (price_text (form s))) as [p|]; [|apply effect_refl].
  destruct (parse_float (quantity_text (form s))) as [q|]; [|apply effect_refl].
  destruct (fle p fzero) eqn:Ep; [apply effect_refl|].
  destruct (fle q fzero) eqn:Eq; [apply effect_refl|].
  apply effect_draft; try reflexivity.
  apply (draft_append (items s) (new_item (form s) p q)).
  repeat split; assumption.
Qed.

Lemma delete_item_cases (row : Z) (s : App) :
  delete_item (Some row) true s =
    match pop (items s) row with
    | inl e => Raise e s
    | inr (x, l) =>
        Return NoBox (with_total_label (Py.sum (map Item.total l)) (with_items l s))
    end.
Proof.
  unfold delete_item, update_total. unfold_monad. cbn.
  destruct (pop (items s) row) as [e|[x l]]; reflexivity.
Qed.

Lemma delete_item_effect (selected : option Z) (answer : bool) (s : App) :
  effect s (state_of (delete_item selected answer s)).
Proof.
  destruct selected as [row|]; [|apply effect_refl].
  destruct answer; [|apply effect_refl].
  rewrite delete_item_cases.
  destruct (pop (items s) row) as [e|[x l]] eqn:E; [apply effect_refl|].
  destruct (pop_lookup _ _ _ _ E) as (j & _ & ->).
  apply effect_draft; try reflexivity. exact (draft_delete (items s) j).
Qed.

Lemma clear_items_effect (answer : bool) (s : App) :
  effect s (state_of (clear_items answer s)).
Proof.
  destruct answer; [|apply effect_refl].
  apply effect_draft; try reflexivity. exact (draft_clear (items s)).
Qed.

Lemma move_to_registered_effect (selected : option Z) (answer : bool) (s : App) :
  effect s (state_of (move_to_registered selected answer s)).
Proof.
  destruct selected as [row|]; [|apply effect_refl].
  destruct answer; [|apply effect_refl].
  rewrite move_to_registered_cases.
  destruct (pop (unregistered_orders s) row) as [e|[o l]] eqn:E;
    [apply effect_refl|].
  destruct (pop_lookup _ _ _ _ E) as (j & Hj & ->).
  rewrite committed_exact. apply effect_ledger; try reflexivity.
  - exact (ledger_move s j o Hj).
  - left. split; reflexivity.
Qed.

Lemma delete_registered_order_effect (selected : option Z) (answer : bool)
    (s : App) :
  effect s (state_of (delete_registered_order selected answer s)).
Proof.
  destruct selected as [row|]; [|apply effect_refl].
  destruct answer; [|apply effect_refl].
  rewrite delete_registered_order_cases.
  destruct (pop (registered_orders s) row) as [e|[o l]] eqn:E;
    [apply effect_refl|].
  destruct (pop_lookup _ _ _ _ E) as (j & Hj & ->).
  rewrite committed_exact. apply effect_ledger; try reflexivity.
  - exact (ledger_delete_registered s j).
  - left. split; reflexivity.
Qed.

Lemma delete_unregistered_order_effect (selected : option Z) (answer : bool)
    (s : App) :
  effect s (state_of (delete_unregistered_order selected answer s)).
Proof.
  destruct selected as [row|]; [|apply effect_refl].
  destruct answer; [|apply effect_refl].
  rewrite delete_unregistered_order_cases.
  destruct (pop (unregistered_orders s) row) as [e|[o l]] eqn:E;
    [apply effect_refl|].
  destruct (pop_lookup _ _ _ _ E) as (j & Hj & ->).
  rewrite committed_exact. apply effect_ledger; try reflexivity.
  - exact (ledger_delete_unregistered s j).
  - left. split; reflexivity.
Qed.

Lemma edit_order_effect (row : Z) (is_registered : bool)
    (dialog : option Dialog.t) (s : App) :
  effect s (state_of (edit_order row is_registered dialog s)).
Proof.
  destruct dialog as [d|].
  - rewrite edit_order_cases.
    destruct (getitem _ row) as [e|order] eqn:E; [apply effect_refl|].
    cbv zeta.
    destruct (negb (buyer_name_ok _)); [apply effect_refl|].
    destruct (negb (buyer_phone_ok _)); [apply effect_refl|].
    destruct (getitem_lookup _ _ _ E) as (j & Hn & Hj).
    unfold setitem. rewrite Hn. rewrite committed_exact.
    destruct is_registered; apply effect_ledger; try reflexivity.
    + exact (ledger_edit_registered s j order d Hj).
    + left. split; reflexivity.
    + exact (ledger_edit_unregistered s j order d Hj).
    + left. split; reflexivity.
  - unfold edit_order. unfold_monad.
    destruct (getitem _ row); apply effect_refl.
Qed.

Lemma clear_all_data_effect (answer : bool) (s : App) :
  effect s (state_of (clear_all_data answer s)).
Proof.
  destruct answer; [|apply effect_refl].
  rewrite clear_all_data_cases, cleared_exact.
  apply effect_ledger; try reflexivity.
  - exact (ledger_clear s).
  - right. split; reflexivity.
Qed.

Section Effects.

Variable isalnum : char -> bool.

Lemma add_to_registered_orders_effect (today : text) (s : App) :
  effect s (state_of (add_to_registered_orders isalnum today s)).
Proof.
  rewrite add_to_registered_orders_cases.
  destruct (validate_inputs isalnum (form s)) as [[] error];
    [|apply effect_refl].
  case_bool_decide as Hi; [apply effect_refl|].
  rewrite finalized_exact. apply effect_ledger; try reflexivity.
  - exact (ledger_add_registered s today Hi).
  - right. split; reflexivity.
Qed.

Lemma add_to_unregistered_orders_effect (today : text) (s : App) :
  effect s (state_of (add_to_unregistered_orders isalnum today s)).
Proof.
  rewrite add_to_unregistered_orders_cases.
  destruct (validate_inputs isalnum (form s)) as [[] error];
    [|apply effect_refl].
  case_bool_decide as Hi; [apply effect_refl|].
  rewrite finalized_exact. apply effect_ledger; try reflexivity.
  - exact (ledger_add_unregistered s today Hi).
  - right. split; reflexivity.
Qed.

Lemma handle_effect (ev : Event) (s : App) :
  effect s (state_of (handle isalnum ev s)).
Proof.
  destruct ev; cbn [handle].
  - apply effect_form; reflexivity.
  - apply add_item_effect.
  - apply delete_item_effect.
  - apply clear_items_effect.
  - apply add_to_registered_orders_effect.
  - apply add_to_unregistered_orders_effect.
  - apply edit_order_effect.
  - apply move_to_registered_effect.
  - apply delete_registered_order_effect.
  - apply delete_unregistered_order_effect.
  - apply clear_all_data_effect.
Qed.

(** A property that every effect keeps holds through a session. *)
Lemma run_keeps (P : App -> Prop) :
  (forall s s', effect s s' -> P s -> P s') ->
  forall (evs : list Event) (boxes : list Box) (s : App),
    P s -> P (state_of (run isalnum evs boxes s)).
Proof.
  intros Hstep evs. induction evs as [|ev rest IH]; intros boxes s H; cbn [run].
  - exact H.
  - unfold bind. pose proof (Hstep _ _ (handle_effect ev s) H) as H1.
    destruct (handle isalnum ev s) as [b s'|e s']; cbn [state_of] in H1.
    + apply IH, H1.
    + exact H1.
Qed.

End Effects.

(** ** What every session keeps *)

Lemma effect_stats_in_sync (s s' : App) :
  effect s s' -> stats_in_sync s -> stats_in_sync s'.
Proof.
  unfold stats_in_sync. intros [Hi Ht Hr Hu Hs Hf|Hd Ht Hr Hu Hs Hf|Hl Hd Hs Hf] H.
  - rewrite Hs, Hr, Hu. exact H.
  - rewrite Hs, Hr, Hu. exact H.
  - exact Hs.
Qed.

Lemma make_order_ok (today : text) (f : Form.t) (its : list Item.t) :
  its <> [] -> Forall item_ok its -> order_ok (make_order today f its).
Proof. intros Hn Hits. repeat split; assumption. Qed.

Lemma get_updated_order_ok (o : Order.t) (d : Dialog.t) :
  order_ok o -> order_ok (get_updated_order o d).
Proof. intros H. exact H. Qed.

Lemma effect_well_formed (s s' : App) :
  effect s s' -> well_formed s -> well_formed s'.
Proof.
  unfold well_formed.
  intros [Hi Ht Hr Hu Hs Hf|Hd Ht Hr Hu Hs Hf|Hl Hd Hs Hf] (Hits & Hreg & Hun).
  - rewrite Hi, Hr, Hu. auto.
  - rewrite Hr, Hu. split; [|auto].
    inversion Hd as [it Hit Heq|j Heq|Heq].
    + apply Forall_app. split; [exact Hits|].
      constructor; [exact Hit | constructor].
    + apply Forall_delete, Hits.
    + constructor.
  - split.
    { destruct Hd as [[-> _]|[-> _]]; [exact Hits | constructor]. }
    inversion Hl as [j o Hj E1 E2|j E1 E2|j E1 E2|j o d Hj E1 E2|j o d Hj E1 E2
                    |today Hn E1 E2|today Hn E1 E2|E1 E2].
    + split; [|apply Forall_delete, Hun].
      apply Forall_app. split; [exact Hreg|].
      constructor; [|constructor].
      exact (proj1 (Forall_lookup _ _) Hun j o Hj).
    + split; [apply Forall_delete, Hreg | exact Hun].
    + split; [exact Hreg | apply Forall_delete, Hun].
    + split; [|exact Hun]. apply Forall_insert; [exact Hreg|].
      apply get_updated_order_ok.
      exact (proj1 (Forall_lookup _ _) Hreg j o Hj).
    + split; [exact Hreg|]. apply Forall_insert; [exact Hun|].
      apply get_updated_order_ok.
      exact (proj1 (Forall_lookup _ _) Hun j o Hj).
    + split; [|exact Hun]. apply Forall_app. split; [exact Hreg|].
      constructor; [|constructor]. apply make_order_ok; assumption.
    + split; [exact Hreg|]. apply Forall_app. split; [exact Hun|].
      constructor; [|constructor]. apply make_order_ok; assumption.
    + split; constructor.
Qed.

Lemma stored_ledger_saved (f : File) (reg unreg : list Order.t) :
  writable f = true -> readable f = true ->
  stored_ledger (file_saved f reg unreg) = Some (reg, unreg).
Proof.
  intros Hw Hr. unfold file_saved, stored_ledger, ledger_dict. rewrite Hw.
  cbn [content readable]. rewrite Hr.
  rewrite lookup_insert_eq.
  rewrite lookup_insert_ne by discriminate. rewrite lookup_insert_eq.
  reflexivity.
Qed.

Lemma file_saved_flags (f : File) (reg unreg : list Order.t) :
  writable (file_saved f reg unreg) = writable f /\
  readable (file_saved f reg unreg) = readable f.
Proof. unfold file_saved. destruct (writable f) eqn:E; cbn; auto. Qed.

Lemma effect_durable (s s' : App) :
  effect s s' -> durable s -> durable s'.
Proof.
  unfold durable, persisted.
  intros [Hi Ht Hr Hu Hs Hf|Hd Ht Hr Hu Hs Hf|Hl Hd Hs Hf] (Hw & Hrd & Hp).
  - rewrite Hf, Hr, Hu. auto.
  - rewrite Hf, Hr, Hu. auto.
  - rewrite Hf.
    destruct (file_saved_flags (data_file s) (registered_orders s')
                (unregistered_orders s')) as [-> ->].
    repeat split; try assumption. apply stored_ledger_saved; assumption.
Qed.

(** [load_data] returns with the lists the file holds, or raises. *)
Lemma load_data_stored (s : App) :
  match stored_ledger (data_file s) with
  | Some (reg, unreg) => load_data s = Return tt (with_ledger reg unreg s)
  | None => exists e, load_data s = Raise e s
  end.
Proof.
  rewrite load_data_cases. unfold stored_ledger.
  destruct (content (data_file s)) as [[[d|]|e]|]; try reflexivity;
    destruct (readable (data_file s)); try reflexivity; eauto.
  destruct (caught e); [reflexivity | eauto].
Qed.

Lemma InvoiceApp_init_stored (file : File) :
  match stored_ledger file with
  | Some (reg, unreg) =>
      InvoiceApp_init file =
        Return tt (with_stats (ledger_stats reg unreg)
                     (with_ledger reg unreg (blank file)))
  | None => exists e, InvoiceApp_init file = Raise e (blank file)
  end.
Proof.
  unfold InvoiceApp_init, init_ui, bind.
  pose proof (load_data_stored (blank file)) as H.
  cbn [data_file blank] in H.
  destruct (stored_ledger file) as [[reg unreg]|].
  - rewrite H. reflexivity.
  - destruct H as [e ->]. eauto.
Qed.

Lemma stats_in_sync_at_startup (file : File) (s0 : App) :
  InvoiceApp_init file = Return tt s0 -> stats_in_sync s0.
Proof.
  intros H. pose proof (InvoiceApp_init_stored file) as Hs.
  destruct (stored_ledger file) as [[reg unreg]|].
  - rewrite Hs in H. injection H as <-. reflexivity.
  - destruct Hs as [e He]. congruence.
Qed.

Lemma durable_at_startup (file : File) (s0 : App) :
  writable file = true -> readable file = true ->
  InvoiceApp_init file = Return tt s0 -> durable s0.
Proof.
  intros Hw Hr H. pose proof (InvoiceApp_init_stored file) as Hs.
  destruct (stored_ledger file) as [[reg unreg]|] eqn:E.
  - rewrite Hs in H. injection H as <-. repeat split; assumption.
  - destruct Hs as [e He]. congruence.
Qed.

(** X1. From start-up on, after every session the statistics table shows
    the statistics of the two lists as they are then: every handler that
    changes a list refreshes the table. *)
Theorem statistics_follow_ledger (isalnum : char -> bool) (file : File)
    (evs : list Event) (s0 : App) :
  InvoiceApp_init file = Return tt s0 ->
  let s := state_of (run isalnum evs [] s0) in
  stats_table s = ledger_stats (registered_orders s) (unregistered_orders s).
Proof.
  intros H. cbv zeta.
  apply (run_keeps isalnum stats_in_sync effect_stats_in_sync).
  exact (stats_in_sync_at_startup file s0 H).
Qed.

Lemma statistics_follow_ledger_witness :
  InvoiceApp_init no_file = Return tt (blank no_file) /\
  let s := state_of (run ascii_isalnum busy_session [] (blank no_file)) in
  stats_table s = ledger_stats (registered_orders s) (unregistered_orders s).
Proof.
  split; [reflexivity|].
  apply (statistics_follow_ledger ascii_isalnum no_file busy_session (blank no_file)).
  reflexivity.
Defined.

(** What the session leaves: two registered orders, the second one edited,
    and a last handler that raised on a row that does not exist. *)
Example busy_session_outcome :
  let r := run ascii_isalnum busy_session [] (blank no_file) in
  (exists s, r = Raise IndexError s) /\
  map Order.buyer_name (registered_orders (state_of r))
    = [txt "Ali"; txt "Ali Rezai"] /\
  unregistered_orders (state_of r) = [] /\
  total_reg_orders (stats_table (state_of r)) = 2%nat.
Proof. vm_compute. split; [eexists; reflexivity|]. repeat split. Qed.

(** X2. Through every session the draft and the two lists keep the shape
    the handlers give them: every item has a total equal to price times
    quantity and a price and a quantity that are not [<= 0]; every order has
    at least one item, such items only, and a stored total equal to the sum
    of their totals. *)
Theorem orders_stay_well_formed (isalnum : char -> bool) (evs : list Event)
    (boxes : list Box) (s : App) :
  well_formed s -> well_formed (state_of (run isalnum evs boxes s)).
Proof. apply (run_keeps isalnum well_formed effect_well_formed). Qed.

Lemma orders_stay_well_formed_witness :
  well_formed (blank no_file) /\
  well_formed (state_of (run ascii_isalnum busy_session [] (blank no_file))).
Proof.
  assert (H : well_formed (blank no_file)) by (repeat split; constructor).
  split; [exact H|].
  apply (orders_stay_well_formed ascii_isalnum busy_session [] (blank no_file)).
  exact H.
Defined.

(** X3. When the file can be written and read, closing the window after any
    session and starting again gives back both lists and the same
    statistics: every handler that changes a list saves it. *)
Theorem restart_restores_ledger (isalnum : char -> bool) (file : File)
    (evs : list Event) (s0 : App) :
  writable file = true ->
  readable file = true ->
  InvoiceApp_init file = Return tt s0 ->
  let s := state_of (run isalnum evs [] s0) in
  exists s',
    InvoiceApp_init (data_file s) = Return tt s' /\
    registered_orders s' = registered_orders s /\
    unregistered_orders s' = unregistered_orders s /\
    stats_table s' = stats_table s.
Proof.
  intros Hw Hr H. cbv zeta.
  pose proof (run_keeps isalnum durable effect_durable evs [] s0
                (durable_at_startup file s0 Hw Hr H)) as (_ & _ & Hp).
  pose proof (run_keeps isalnum stats_in_sync effect_stats_in_sync evs [] s0
                (stats_in_sync_at_startup file s0 H)) as Hs.
  pose proof (InvoiceApp_init_stored
                (data_file (state_of (run isalnum evs [] s0)))) as Hi.
  unfold persisted in Hp. rewrite Hp in Hi.
  eexists. split; [exact Hi|]. repeat split. symmetry. exact Hs.
Qed.

Lemma restart_restores_ledger_witness :
  writable no_file = true /\ readable no_file = true /\
  InvoiceApp_init no_file = Return tt (blank no_file) /\
  let s := state_of (run ascii_isalnum busy_session [] (blank no_file)) in
  exists s',
    InvoiceApp_init (data_file s) = Return tt s' /\
    registered_orders s' = registered_orders s /\
    unregistered_orders s' = unregistered_orders s /\
    stats_table s' = stats_table s.
Proof.
  split; [reflexivity|]. split; [reflexivity|]. split; [reflexivity|].
  apply (restart_restores_ledger ascii_isalnum no_file busy_session (blank no_file));
    reflexivity.
Defined.

(** ** Statistics under editing and moving *)

Lemma map_insert_same {A B} (f : A -> B) (l : list A) (j : nat) (x y : A) :
  l !! j = Some x -> f y = f x -> map f (<[j := y]> l) = map f l.
Proof.
  revert j. induction l as [|a l IH]; intros [|j] H E; cbn in *;
    try discriminate.
  - injection H as ->. rewrite E. reflexivity.
  - f_equal. apply IH; assumption.
Qed.

(** X4. Editing never changes the statistics: whatever the row, the list
    and the dialog, and whether the edit is accepted, refused or raises, the
    counts, the revenue and the average of the two lists are as before. *)
Theorem edit_order_keeps_statistics (row : Z) (is_registered : bool)
    (dialog : option Dialog.t) (s : App) :
  let s' := state_of (edit_order row is_registered dialog s) in
  ledger_stats (registered_orders s') (unregistered_orders s')
  = ledger_stats (registered_orders s) (unregistered_orders s).
Proof.
  cbv zeta. pose proof (edit_order_effect row is_registered dialog s) as He.
  destruct dialog as [d|].
  - rewrite edit_order_cases in *.
    destruct (getitem _ row) as [e|order] eqn:E; [reflexivity|].
    cbv zeta in *.
    destruct (negb (buyer_name_ok _)); [reflexivity|].
    destruct (negb (buyer_phone_ok _)); [reflexivity|].
    destruct (getitem_lookup _ _ _ E) as (j & Hn & Hj).
    unfold setitem in *. rewrite Hn in *. rewrite committed_exact.
    unfold ledger_stats.
    destruct is_registered;
      cbn [state_of registered_orders unregistered_orders with_stats with_file
           with_order_list with_registered with_unregistered order_list] in *.
    + rewrite length_insert.
      rewrite (map_insert_same order_amount _ j order _ Hj) by reflexivity.
      reflexivity.
    + rewrite length_insert. reflexivity.
  - unfold edit_order. unfold_monad.
    destruct (getitem _ row); reflexivity.
Qed.

(** X5. Moving the order at row [i] of the unregistered list makes the
    table show one registered order more, one unregistered order less, and
    as revenue the sum of the amounts of the orders registered before,
    followed by the amount of the order moved. *)
Theorem move_to_registered_statistics (s : App) (i : nat) (o : Order.t) :
  unregistered_orders s !! i = Some o ->
  let t := stats_table (state_of (move_to_registered (Some (Z.of_nat i)) true s)) in
  total_reg_orders t = S (length (registered_orders s)) /\
  S (total_unreg_orders t) = length (unregistered_orders s) /\
  total_amount t
    = Py.sum (map order_amount (registered_orders s) ++ [order_amount o]).
Proof.
  intros Hi. cbv zeta. rewrite move_to_registered_cases, pop_nat, Hi.
  rewrite committed_exact.
  cbn [state_of stats_table with_stats ledger_stats total_reg_orders
       total_unreg_orders total_amount registered_orders unregistered_orders
       with_file with_registered with_unregistered].
  unfold ledger_stats.
  cbn [total_reg_orders total_unreg_orders total_amount].
  rewrite length_app, length_delete by eauto. cbn [length].
  rewrite map_app. cbn [map].
  apply lookup_lt_Some in Hi. repeat split; lia.
Qed.

Lemma move_to_registered_statistics_witness :
  unregistered_orders small_ledger !! 1%nat = Some (order_with [float_of_Z 200000]) /\
  let t := stats_table (state_of (move_to_registered (Some (Z.of_nat 1)) true
                                    small_ledger)) in
  total_reg_orders t = S (length (registered_orders small_ledger)) /\
  S (total_unreg_orders t) = length (unregistered_orders small_ledger) /\
  total_amount t
    = Py.sum (map order_amount (registered_orders small_ledger)
              ++ [order_amount (order_with [float_of_Z 200000])]).
Proof.
  split; [reflexivity|].
  apply (move_to_registered_statistics small_ledger 1
           (order_with [float_of_Z 200000])).
  reflexivity.
Defined.

(** ** Finalising a draft with items *)

(** X6. When the form passes [validate_inputs] and the draft has items,
    [add_to_registered_orders] appends to the registered orders, and
    [add_to_unregistered_orders] to the unregistered ones, an order with the
    date of the day, the texts of the form as typed (not stripped), the
    items of the draft and the sum of their totals; the other list is as
    before and the draft is reset. *)
Theorem finalize_stores_order (isalnum : char -> bool) (today : text) (s : App) :
  fst (validate_inputs isalnum (form s)) = true ->
  items s <> [] ->
  (exists o s',
     add_to_registered_orders isalnum today s
       = Return (Information OrderRegistered) s' /\
     order_from_form today (form s) (items s) o /\
     registered_orders s' = registered_orders s ++ [o] /\
     unregistered_orders s' = unregistered_orders s /\
     draft_reset s s') /\
  (exists o s',
     add_to_unregistered_orders isalnum today s
       = Return (Information OrderStored) s' /\
     order_from_form today (form s) (items s) o /\
     unregistered_orders s' = unregistered_orders s ++ [o] /\
     registered_orders s' = registered_orders s /\
     draft_reset s s').
Proof.
  intros Hv Hi.
  rewrite add_to_registered_orders_cases, add_to_unregistered_orders_cases.
  destruct (validate_inputs isalnum (form s)) as [valid error].
  cbn in Hv. subst valid.
  rewrite bool_decide_eq_false_2 by exact Hi.
  rewrite !finalized_exact.
  split; exists (make_order today (form s) (items s)); eexists;
    (split; [reflexivity|]); repeat split.
Qed.

Lemma finalize_stores_order_witness :
  fst (validate_inputs ascii_isalnum (form widget_order_draft)) = true /\
  items widget_order_draft <> [] /\
  (exists o s',
     add_to_registered_orders ascii_isalnum (txt "2025/01/01") widget_order_draft
       = Return (Information OrderRegistered) s' /\
     order_from_form (txt "2025/01/01") (form widget_order_draft)
                     (items widget_order_draft) o /\
     registered_orders s' = registered_orders widget_order_draft ++ [o] /\
     unregistered_orders s' = unregistered_orders widget_order_draft /\
     draft_reset widget_order_draft s') /\
  (exists o s',
     add_to_unregistered_orders ascii_isalnum (txt "2025/01/01") widget_order_draft
       = Return (Information OrderStored) s' /\
     order_from_form (txt "2025/01/01") (form widget_order_draft)
                     (items widget_order_draft) o /\
     unregistered_orders s' = unregistered_orders widget_order_draft ++ [o] /\
     registered_orders s' = registered_orders widget_order_draft /\
     draft_reset widget_order_draft s').
Proof.
  split; [vm_compute; reflexivity|]. split; [vm_compute; congruence|].
  apply (finalize_stores_order ascii_isalnum (txt "2025/01/01") widget_order_draft);
    [vm_compute; reflexivity | vm_compute; congruence].
Defined.

(** The names are stored with the blanks typed around them. *)
Example finalize_keeps_blanks :
  let s' := state_of (add_to_registered_orders ascii_isalnum (txt "2025/01/01")
                        widget_order_draft) in
  map Order.seller_name (registered_orders s') = [txt " Shop "] /\
  map Order.buyer_name (registered_orders s') = [txt "Ali "].
Proof. vm_compute. split; reflexivity. Qed.

(** ** Removing an item or an order *)

(** X7. [delete_item], confirmed, on row [i]: if the draft has an item at
    [i], it is removed, the others keep their order, the label shows the
    sum of what is left and nothing else changes; if it has none, the
    handler raises [IndexError] and the state is as before.  Without a
    selection it warns, and with the answer No it returns, the state as
    before in both cases. *)
Theorem delete_item_at (s : App) (i : nat) :
  match items s !! i with
  | Some _ =>
      exists s',
        delete_item (Some (Z.of_nat i)) true s = Return NoBox s' /\
        items s' = delete i (items s) /\
        total_label s' = Py.sum (map Item.total (delete i (items s))) /\
        same_ledger s s'
  | None => delete_item (Some (Z.of_nat i)) true s = Raise IndexError s
  end /\
  (forall answer, delete_item None answer s = Return (Warning NothingSelected) s) /\
  (forall row, delete_item (Some row) false s = Return NoBox s).
Proof.
  split; [|split; reflexivity].
  rewrite delete_item_cases, pop_nat.
  destruct (items s !! i); [|reflexivity].
  eexists. split; [reflexivity|]. repeat split.
Qed.

(** X8. [delete_registered_order] and [delete_unregistered_order],
    confirmed, on row [i]: if the list has an order at [i], it is removed,
    the others keep their order, the other list is as before, the list is
    saved and the table refreshed; if it has none, the handler raises
    [IndexError] and the state is as before. *)
Theorem delete_order_at (s : App) (i : nat) :
  match registered_orders s !! i with
  | Some _ =>
      exists s',
        delete_registered_order (Some (Z.of_nat i)) true s = Return NoBox s' /\
        registered_orders s' = delete i (registered_orders s) /\
        unregistered_orders s' = unregistered_orders s /\
        stats_table s' = ledger_stats (registered_orders s') (unregistered_orders s') /\
        data_file s' = file_saved (data_file s) (registered_orders s')
                                  (unregistered_orders s')
  | None =>
      delete_registered_order (Some (Z.of_nat i)) true s = Raise IndexError s
  end /\
  match unregistered_orders s !! i with
  | Some _ =>
      exists s',
        delete_unregistered_order (Some (Z.of_nat i)) true s = Return NoBox s' /\
        unregistered_orders s' = delete i (unregistered_orders s) /\
        registered_orders s' = registered_orders s /\
        stats_table s' = ledger_stats (registered_orders s') (unregistered_orders s') /\
        data_file s' = file_saved (data_file s) (registered_orders s')
                                  (unregistered_orders s')
  | None =>
      delete_unregistered_order (Some (Z.of_nat i)) true s = Raise IndexError s
  end.
Proof.
  rewrite delete_registered_order_cases, delete_unregistered_order_cases.
  rewrite !pop_nat. split.
  - destruct (registered_orders s !! i); [|reflexivity].
    rewrite committed_exact. eexists. split; [reflexivity|]. repeat split.
  - destruct (unregistered_orders s !! i); [|reflexivity].
    rewrite committed_exact. eexists. split; [reflexivity|]. repeat split.
Qed.

(** ** Wrapping a text *)

Lemma length_drop_while {A} (p : A -> bool) (l : list A) :
  length (drop_while p l) <= length l.
Proof.
  induction l as [|x r IH]; cbn; [lia|]. destruct (p x); cbn; lia.
Qed.

Lemma length_strip_with (p : char -> bool) (s : Py.text) :
  length (strip_with p s) <= length s.
Proof.
  unfold strip_with. rewrite length_rev.
  pose proof (length_drop_while p (rev (drop_while p s))) as H1.
  pose proof (length_drop_while p s) as H2.
  rewrite length_rev in H1. lia.
Qed.

Lemma length_strip (s : Py.text) : length (strip s) <= length s.
Proof. apply length_strip_with. Qed.

(** A text that starts with white space gets shorter. *)
Lemma length_strip_space (x : char) (r : Py.text) :
  isspace x = true -> length (strip (x :: r)) <= length r.
Proof.
  intros H. unfold strip. rewrite strip_with_drop. cbn [drop_while].
  rewrite H. rewrite <- strip_with_drop. apply length_strip_with.
Qed.

Lemma rfind_from_spec (c : char) (l : Py.text) (i j : nat) :
  rfind_from c l i = Some j -> i <= j < i + length l /\ l !! (j - i) = Some c.
Proof.
  revert i. induction l as [|x r IH]; intros i; cbn; [discriminate|].
  destruct (rfind_from c r (S i)) as [k|] eqn:E.
  - intros [= <-]. destruct (IH _ E) as [Hb Hl]. split; [lia|].
    replace (k - i) with (S (k - S i)) by lia. exact Hl.
  - destruct (N.eqb_spec x c) as [->|]; [|discriminate].
    intros [= <-]. split; [lia|]. rewrite Nat.sub_diag. reflexivity.
Qed.

Lemma rfind_spec (c : char) (s : Py.text) (stop j : nat) :
  rfind c s stop = Some j -> j < stop /\ s !! j = Some c.
Proof.
  unfold rfind. intros H. destruct (rfind_from_spec _ _ _ _ H) as [Hb Hl].
  rewrite Nat.sub_0_r in Hl. rewrite length_take in Hb.
  split; [lia|].
  exact (eq_trans (eq_sym (lookup_take_lt s stop j ltac:(lia))) Hl).
Qed.

(** The cut is at most [max_chars] and one round makes the text shorter. *)
Lemma wrap_round (s : Py.text) (max_chars : nat) :
  0 < max_chars -> max_chars < length s ->
  let idx := default max_chars (rfind (chr " ") s max_chars) in
  idx <= max_chars /\ length (strip (drop idx s)) < length s.
Proof.
  intros Hm Hl. cbv zeta.
  destruct (rfind (chr " ") s max_chars) as [j|] eqn:E;
    cbn [default from_option id].
  - destruct (rfind_spec _ _ _ _ E) as [Hj Hc]. split; [lia|].
    destruct j as [|j].
    + rewrite drop_0. destruct s as [|x r]; [discriminate|].
      cbn in Hc. injection Hc as ->.
      pose proof (length_strip_space (chr " ") r eq_refl). cbn [length]. lia.
    + pose proof (length_strip (drop (S j) s)) as H.
      rewrite length_drop in H. lia.
  - split; [lia|]. pose proof (length_strip (drop max_chars s)) as H.
    rewrite length_drop in H. lia.
Qed.

Lemma wrap_loop_ends (fuel max_chars : nat) (s : Py.text) (lines : list Py.text) :
  0 < max_chars -> length s <= fuel ->
  exists r, wrap_loop fuel max_chars s lines = Some r.
Proof.
  intros Hm. revert s lines.
  induction fuel as [|fuel IH]; intros s lines Hl; cbn [wrap_loop].
  - rewrite (proj2 (Nat.leb_le _ _)) by lia. eauto.
  - destruct (Nat.leb_spec (length s) max_chars) as [|Hgt]; [eauto|].
    apply IH. pose proof (wrap_round s max_chars Hm Hgt) as [_ H]. lia.
Qed.

Lemma wrap_loop_more_fuel (fuel fuel' max_chars : nat) (s : Py.text)
    (lines : list Py.text) (r : list Py.text * Py.text) :
  wrap_loop fuel max_chars s lines = Some r -> fuel <= fuel' ->
  wrap_loop fuel' max_chars s lines = Some r.
Proof.
  revert fuel' s lines.
  induction fuel as [|fuel IH]; intros fuel' s lines; cbn [wrap_loop].
  - destruct (Nat.leb_spec (length s) max_chars) as [Hle|]; [|discriminate].
    intros H _. destruct fuel'; cbn [wrap_loop];
      rewrite (proj2 (Nat.leb_le _ _) Hle); exact H.
  - destruct (Nat.leb_spec (length s) max_chars) as [Hle|Hgt].
    + intros H _. destruct fuel'; cbn [wrap_loop];
        rewrite (proj2 (Nat.leb_le _ _) Hle); exact H.
    + intros H Hf. destruct fuel' as [|fuel']; [lia|]. cbn [wrap_loop].
      rewrite (proj2 (Nat.leb_gt _ _) Hgt). apply IH; [exact H | lia].
Qed.

(** X9. For [max_chars] of 1 or more the loop of [wrap_text] ends, within
    as many rounds as the text has characters, and more rounds change
    nothing; the result has at least one line. *)
Theorem wrap_text_ends (s : Py.text) (max_chars fuel : nat) :
  0 < max_chars ->
  length s <= fuel ->
  exists lines,
    wrap_text fuel s max_chars = Some lines /\
    wrap_text (length s) s max_chars = Some lines /\
    lines <> [].
Proof.
  intros Hm Hf. unfold wrap_text.
  destruct (wrap_loop_ends (length s) max_chars s [] Hm (le_n _))
    as [[lines rest] H].
  rewrite H, (wrap_loop_more_fuel _ fuel _ _ _ _ H Hf).
  eexists. split; [reflexivity|]. split; [reflexivity|].
  case_bool_decide as E; [discriminate | exact E].
Qed.

Lemma wrap_text_ends_witness :
  0 < 50 /\ length long_address <= 100 /\
  exists lines,
    wrap_text 100 long_address 50 = Some lines /\
    wrap_text (length long_address) long_address 50 = Some lines /\
    lines <> [].
Proof.
  split; [lia|]. split; [vm_compute; lia|].
  apply (wrap_text_ends long_address 50 100); [lia | vm_compute; lia].
Defined.

Example wrap_long_address :
  wrap_text 100 long_address 50
  = Some [ txt "No 12, Second Floor, Azadi Street, Next To The";
           txt "Central Library, Tehran" ].
Proof. vm_compute. reflexivity. Qed.

(** X18. With [max_chars] of 0 a text that is not empty and has no white
    space at its ends is never consumed: the loop of [wrap_text] does not
    end, whatever the number of rounds. *)
Theorem wrap_text_zero_width (s : Py.text) (fuel : nat) :
  s <> [] -> strip s = s -> wrap_text fuel s 0 = None.
Proof.
  intros Hn Hs. unfold wrap_text.
  assert (H : forall lines, wrap_loop fuel 0 s lines = None).
  { induction fuel as [|fuel IH]; intros lines; cbn [wrap_loop];
      destruct s as [|x r]; try congruence; cbn [length Nat.leb].
    - reflexivity.
    - unfold rfind. cbn [take rfind_from default from_option id drop]. rewrite Hs. apply IH. }
  rewrite H. reflexivity.
Qed.

Lemma wrap_text_zero_width_witness :
  txt "Tehran" <> [] /\ strip (txt "Tehran") = txt "Tehran" /\
  wrap_text 1000 (txt "Tehran") 0 = None.
Proof.
  split; [discriminate|]. split; [vm_compute; reflexivity|].
  apply (wrap_text_zero_width (txt "Tehran") 1000);
    [discriminate | vm_compute; reflexivity].
Defined.


Lemma letters_app (a b : Py.text) : letters (a ++ b) = letters a ++ letters b.
Proof. apply List.filter_app. Qed.

Lemma letters_rev (s : Py.text) : letters (rev s) = rev (letters s).
Proof.
  induction s as [|x r IH]; [reflexivity|].
  cbn [rev]. rewrite letters_app, IH. unfold letters. cbn [List.filter].
  destruct (negb (isspace x)); cbn [rev app]; [reflexivity|].
  rewrite app_nil_r. reflexivity.
Qed.

Lemma letters_drop_while (s : Py.text) : letters (drop_while isspace s) = letters s.
Proof.
  induction s as [|x r IH]; [reflexivity|]. cbn [drop_while].
  destruct (isspace x) eqn:E; [|reflexivity].
  rewrite IH. unfold letters. cbn [List.filter]. rewrite E. reflexivity.
Qed.

Lemma letters_strip (s : Py.text) : letters (strip s) = letters s.
Proof.
  unfold strip, strip_with.
  rewrite letters_rev, letters_drop_while, letters_rev, letters_drop_while.
  apply rev_involutive.
Qed.

(** What the loop keeps true: every line made is at most [max_chars] long
    and has no white space at its ends, and no other character is lost. *)
Lemma wrap_loop_inv (fuel max_chars : nat) (s : Py.text) (lines : list Py.text)
    (lines' : list Py.text) (rest : Py.text) :
  wrap_loop fuel max_chars s lines = Some (lines', rest) ->
  length rest <= max_chars /\
  (Forall (fun l => length l <= max_chars) lines ->
   Forall (fun l => length l <= max_chars) lines') /\
  (Forall (fun l => strip l = l) lines -> Forall (fun l => strip l = l) lines') /\
  (strip s = s -> strip rest = rest) /\
  letters (concat lines') ++ letters rest = letters (concat lines) ++ letters s.
Proof.
  revert s lines.
  induction fuel as [|fuel IH]; intros s lines; cbn [wrap_loop];
    destruct (Nat.leb_spec (length s) max_chars) as [Hle|Hgt];
    try discriminate; try (intros [= <- <-]; tauto).
  intros H. apply IH in H as (Hr & Hw & Hs & Ht & Hc).
  set (idx := default max_chars (rfind (chr " ") s max_chars)) in *.
  assert (Hidx : idx <= max_chars).
  { subst idx. destruct (rfind (chr " ") s max_chars) as [j|] eqn:E;
      cbn [default from_option id]; [|lia].
    apply rfind_spec in E. lia. }
  split; [exact Hr|]. split; [|split; [|split]].
  - intros Hl. apply Hw, Forall_app. split; [exact Hl|].
    constructor; [|constructor].
    pose proof (length_strip (take idx s)) as H1.
    rewrite length_take in H1. lia.
  - intros Hl. apply Hs, Forall_app. split; [exact Hl|].
    constructor; [apply strip_idempotent | constructor].
  - intros _. apply Ht, strip_idempotent.
  - rewrite Hc, concat_app, letters_app. cbn [concat].
    rewrite app_nil_r, !letters_strip, <- app_assoc, <- letters_app.
    rewrite take_drop. reflexivity.
Qed.

(** The lines [wrap_text] returns, from the result of the loop. *)
Lemma wrap_text_lines (fuel max_chars : nat) (s : Py.text) (lines : list Py.text) :
  wrap_text fuel s max_chars = Some lines ->
  exists lines' rest,
    wrap_loop fuel max_chars s [] = Some (lines', rest) /\
    ((rest <> [] /\ lines = lines' ++ [rest]) \/
     (rest = [] /\ lines' <> [] /\ lines = lines') \/
     (rest = [] /\ lines' = [] /\ lines = [[]])).
Proof.
  unfold wrap_text.
  destruct (wrap_loop fuel max_chars s []) as [[lines' rest]|]; [|discriminate].
  intros [= <-]. exists lines', rest. split; [reflexivity|].
  destruct rest as [|x r]; cbn [text_eqb].
  - case_bool_decide as E; [right; right | right; left]; tauto.
  - left. split; [discriminate|].
    case_bool_decide as E; [|reflexivity].
    destruct lines'; discriminate.
Qed.

(** X10. No line [wrap_text] returns is longer than [max_chars]. *)
Theorem wrap_text_width (fuel max_chars : nat) (s : Py.text) (lines : list Py.text) :
  wrap_text fuel s max_chars = Some lines ->
  Forall (fun l => length l <= max_chars) lines.
Proof.
  intros H. apply wrap_text_lines in H as (lines' & rest & H & Hc).
  apply wrap_loop_inv in H as (Hr & Hw & _).
  specialize (Hw (List.Forall_nil _)).
  destruct Hc as [[_ ->]|[(_ & _ & ->)|(_ & _ & ->)]].
  - apply Forall_app. split; [exact Hw|]. constructor; [exact Hr | constructor].
  - exact Hw.
  - constructor; [cbn; lia | constructor].
Qed.

Lemma wrap_text_width_witness :
  wrap_text 100 long_address 50
  = Some [ txt "No 12, Second Floor, Azadi Street, Next To The";
           txt "Central Library, Tehran" ] /\
  Forall (fun l => length l <= 50)
         [ txt "No 12, Second Floor, Azadi Street, Next To The";
           txt "Central Library, Tehran" ].
Proof.
  split; [vm_compute; reflexivity|].
  apply (wrap_text_width 100 50 long_address). vm_compute. reflexivity.
Defined.

(** X11. [wrap_text] only moves and drops white space: the characters of
    the lines that are not white space are those of the text, in the same
    order. *)
Theorem wrap_text_keeps_letters (fuel max_chars : nat) (s : Py.text)
    (lines : list Py.text) :
  wrap_text fuel s max_chars = Some lines ->
  letters (concat lines) = letters s.
Proof.
  intros H. apply wrap_text_lines in H as (lines' & rest & H & Hc).
  apply wrap_loop_inv in H as (_ & _ & _ & _ & Hl).
  change (letters (concat []) ++ letters s) with (letters s) in Hl.
  rewrite <- Hl.
  destruct Hc as [[_ ->]|[(-> & _ & ->)|(-> & -> & ->)]].
  - rewrite concat_app, letters_app. cbn [concat]. rewrite app_nil_r. reflexivity.
  - rewrite app_nil_r. reflexivity.
  - reflexivity.
Qed.

Lemma wrap_text_keeps_letters_witness :
  letters (concat [ txt "No 12, Second Floor, Azadi Street, Next To The";
                    txt "Central Library, Tehran" ])
  = letters long_address.
Proof.
  apply (wrap_text_keeps_letters 100 50 long_address). vm_compute. reflexivity.
Defined.

(** X12. A text of at most [max_chars] characters comes back as the one
    line it is, white space at its ends included; the lines of a longer
    text have no white space at their ends. *)
Theorem wrap_text_stripped (fuel max_chars : nat) (s : Py.text) :
  (length s <= max_chars -> wrap_text fuel s max_chars = Some [s]) /\
  (max_chars < length s ->
   forall lines, wrap_text fuel s max_chars = Some lines ->
   Forall (fun l => strip l = l) lines).
Proof.
  split.
  - intros Hle. unfold wrap_text.
    destruct fuel; cbn [wrap_loop]; rewrite (proj2 (Nat.leb_le _ _) Hle);
      destruct s; reflexivity.
  - intros Hgt lines H. apply wrap_text_lines in H as (lines' & rest & H & Hc).
    destruct fuel as [|fuel]; cbn [wrap_loop] in H;
      rewrite (proj2 (Nat.leb_gt _ _) Hgt) in H; [discriminate|].
    apply wrap_loop_inv in H as (_ & _ & Hs & Ht & _).
    specialize (Ht (strip_idempotent _)).
    assert (Hl : Forall (fun l => strip l = l) lines').
    { apply Hs. constructor; [apply strip_idempotent | constructor]. }
    destruct Hc as [[_ ->]|[(_ & _ & ->)|(_ & _ & ->)]].
    + apply Forall_app. split; [exact Hl|]. constructor; [exact Ht | constructor].
    + exact Hl.
    + constructor; [reflexivity | constructor].
Qed.

Lemma wrap_text_stripped_witness :
  wrap_text 0 (txt "  Tehran ") 50 = Some [txt "  Tehran "] /\
  Forall (fun l => strip l = l)
         [ txt "No 12, Second Floor, Azadi Street, Next To The";
           txt "Central Library, Tehran" ].
Proof.
  split.
  - apply (proj1 (wrap_text_stripped 0 50 (txt "  Tehran "))). vm_compute. lia.
  - apply (proj2 (wrap_text_stripped 100 50 long_address));
      [vm_compute; lia | vm_compute; reflexivity].
Defined.

Example wrap_short_text_keeps_blanks :
  wrap_text 0 (txt "  Tehran ") 50 = Some [txt "  Tehran "].
Proof. vm_compute. reflexivity. Qed.

Example wrap_can_make_an_empty_line :
  wrap_text 10 (txt " abcdefgh") 4 = Some [txt ""; txt "abcd"; txt "efgh"].
Proof. vm_compute. reflexivity. Qed.


(** ** The window *)

Ltac unfold_window :=
  unfold Window.update_registered_orders_list,
    Window.update_unregistered_orders_list in *;
  unfold wbind, app_, widget, look, wret in *.

Lemma rows_match_imap (f : nat -> Order.t -> OrderRow) (orders : list Order.t) :
  (forall i o, row_buyer_name (f i o) = Order.buyer_name o /\
               row_date (f i o) = Order.date o /\
               row_total (f i o) = order_amount o) ->
  rows_match (imap f orders) orders.
Proof.
  revert f. induction orders as [|o r IH]; intros f Hf; cbn [imap].
  - constructor.
  - constructor; [apply Hf|]. apply IH. intros i o'. apply Hf.
Qed.

Lemma rows_match_order_rows (orders : list Order.t) :
  rows_match (order_rows orders) orders.
Proof. apply rows_match_imap. intros i o. cbn. auto. Qed.

Lemma rows_match_length (rows : list OrderRow) (orders : list Order.t) :
  rows_match rows orders -> length rows = length orders.
Proof. apply Forall2_length. Qed.

Lemma rows_match_delete (rows : list OrderRow) (orders : list Order.t) (i : nat) :
  rows_match rows orders -> rows_match (takeItem i rows) (delete i orders).
Proof. apply Forall2_delete. Qed.

Lemma selected_row_lt {A} (rows : list A) (selected : option nat) (row : nat) :
  selected_row rows selected = Some row -> row < length rows.
Proof.
  destruct selected as [i|]; cbn; [|discriminate].
  case_bool_decide; [|discriminate]. intros [= <-]. assumption.
Qed.

Lemma window_add_item_cases (w : Widgets) (s : App) :
  Window.add_item w s =
    let f := form s in
    if text_eqb (strip (Form.item_name f)) [] then Return (Warning EmptyName, w) s
    else match parse_float (price_text f), parse_float (quantity_text f) with
         | Some p, Some q =>
             if fle p fzero || fle q fzero then Return (Warning InvalidNumber, w) s
             else Return (NoBox, with_list_widget (list_widget w ++ [new_item f p q]) w)
                         (item_added (new_item f p q) s)
         | _, _ => Return (Warning InvalidNumber, w) s
         end.
Proof.
  unfold Window.add_item, price_text, quantity_text, float_, update_total.
  unfold_window. unfold_monad. cbn.
  destruct (text_eqb _ _); [reflexivity|].
  destruct (parse_float (strip (remove_char _ _))) as [p|]; cbn; [|reflexivity].
  destruct (parse_float (strip (Form.item_quantity _))) as [q|]; cbn; [|reflexivity].
  destruct (fle p fzero || fle q fzero); reflexivity.
Qed.

Lemma window_add_item_sim (w : Widgets) (s : App) :
  exists w',
    Window.add_item w s = with_widgets (add_item s) w' /\
    (in_sync w s -> in_sync w' (state_of (add_item s))).
Proof.
  rewrite window_add_item_cases, add_item_cases. cbv zeta.
  destruct (text_eqb _ _); [exists w; split; [reflexivity | auto]|].
  destruct (parse_float (price_text (form s))) as [p|];
    [|exists w; split; [reflexivity | auto]].
  destruct (parse_float (quantity_text (form s))) as [q|];
    [|exists w; split; [reflexivity | auto]].
  destruct (fle p fzero || fle q fzero); [exists w; split; [reflexivity | auto]|].
  eexists. split; [reflexivity|].
  intros (Hi & Hr & Hu). split; [|split]; cbn; [|exact Hr|exact Hu].
  rewrite Hi. reflexivity.
Qed.

Lemma window_delete_item_sim (selected : option nat) (answer : bool)
    (w : Widgets) (s : App) :
  in_sync w s ->
  exists b w' s',
    Window.delete_item selected answer w s = Return (b, w') s' /\
    delete_item (Z.of_nat <$> selected_row (list_widget w) selected) answer s
    = Return b s' /\
    in_sync w' s'.
Proof.
  intros Hs. unfold Window.delete_item. unfold_window.
  unfold bind at 1. unfold ret at 1. cbn [fst snd].
  destruct (selected_row (list_widget w) selected) as [row|] eqn:E; cbn [fmap option_fmap option_map].
  2:{ exists (Warning NothingSelected), w, s. repeat split; apply Hs. }
  destruct answer.
  2:{ exists NoBox, w, s. repeat split; apply Hs. }
  apply selected_row_lt in E. destruct Hs as (Hi & Hr & Hu).
  rewrite delete_item_cases, pop_nat.
  unfold update_total. unfold_monad. cbn. rewrite pop_nat.
  rewrite Hi in E. destruct (lookup_lt_is_Some_2 _ _ E) as [x Hx]. rewrite Hx. cbn.
  eexists _, _, _. split; [reflexivity|]. split; [reflexivity|].
  split; [|split]; cbn; [|exact Hr|exact Hu]. rewrite Hi. reflexivity.
Qed.

Lemma window_clear_items_sim (answer : bool) (w : Widgets) (s : App) :
  in_sync w s ->
  exists b w' s',
    Window.clear_items answer w s = Return (b, w') s' /\
    clear_items answer s = Return b s' /\
    in_sync w' s'.
Proof.
  intros (Hi & Hr & Hu). destruct answer; eexists _, _, _;
    (split; [reflexivity|]); (split; [reflexivity|]);
    (split; [|split]); cbn; auto.
Qed.

Ltac sim_same :=
  split; [reflexivity|]; split; [reflexivity|];
  first [assumption | repeat split; assumption].

Section WindowFinalize.

Variable isalnum : char -> bool.

Lemma window_add_to_registered_orders_sim (today : text) (w : Widgets) (s : App) :
  in_sync w s ->
  exists b w' s',
    Window.add_to_registered_orders isalnum today w s = Return (b, w') s' /\
    add_to_registered_orders isalnum today s = Return b s' /\
    in_sync w' s'.
Proof.
  intros (Hi & Hr & Hu).
  rewrite add_to_registered_orders_cases.
  unfold Window.add_to_registered_orders, Window.clear_form. unfold_window.
  unfold_monad. cbn.
  destruct (validate_inputs isalnum (form s)) as [[] error];
    [|exists (Warning error), w, s; sim_same].
  cbn. case_bool_decide as Hn;
    [exists (Warning NoItems), w, s; sim_same|].
  rewrite finalized_exact, save_data_exact. cbn.
  eexists _, _, _. split; [reflexivity|]. split; [reflexivity|].
  split; [|split]; cbn; [reflexivity | apply rows_match_order_rows | exact Hu].
Qed.

Lemma window_add_to_unregistered_orders_sim (today : text) (w : Widgets) (s : App) :
  in_sync w s ->
  exists b w' s',
    Window.add_to_unregistered_orders isalnum today w s = Return (b, w') s' /\
    add_to_unregistered_orders isalnum today s = Return b s' /\
    in_sync w' s'.
Proof.
  intros (Hi & Hr & Hu).
  rewrite add_to_unregistered_orders_cases.
  unfold Window.add_to_unregistered_orders, Window.clear_form. unfold_window.
  unfold_monad. cbn.
  destruct (validate_inputs isalnum (form s)) as [[] error];
    [|exists (Warning error), w, s; sim_same].
  cbn. case_bool_decide as Hn;
    [exists (Warning NoItems), w, s; sim_same|].
  rewrite finalized_exact, save_data_exact. cbn.
  eexists _, _, _. split; [reflexivity|]. split; [reflexivity|].
  split; [|split]; cbn; [reflexivity | exact Hr | apply rows_match_order_rows].
Qed.

End WindowFinalize.

Lemma window_edit_order_cases (row : nat) (is_registered : bool) (d : Dialog.t)
    (w : Widgets) (s : App) :
  Window.edit_order row is_registered (Some d) w s =
    match getitem (order_list is_registered s) (Z.of_nat row) with
    | inl e => Raise e s
    | inr order =>
        let u := get_updated_order order d in
        if negb (buyer_name_ok u) then Return (Warning EmptyBuyerName, w) s
        else if negb (buyer_phone_ok u) then Return (Warning InvalidPhone, w) s
        else match setitem (order_list is_registered s) (Z.of_nat row) u with
             | inl e => Raise e s
             | inr l' =>
                 with_widgets
                   (committed (Information OrderEdited)
                      (with_order_list is_registered l' s))
                   (if is_registered then with_orders_list (order_rows l') w
                    else with_unreg_orders_list (order_rows l') w)
             end
    end.
Proof.
  assert (Hend : forall l',
    (app_ (modify (with_order_list is_registered l')) ;;
     app_ save_data ;;
     (if is_registered then Window.update_registered_orders_list
      else Window.update_unregistered_orders_list) ;;
     app_ update_statistics ;;
     app_ (information OrderEdited))%win w s
    = with_widgets
        (committed (Information OrderEdited) (with_order_list is_registered l' s))
        (if is_registered then with_orders_list (order_rows l') w
         else with_unreg_orders_list (order_rows l') w)).
  { intros l'. rewrite committed_exact. unfold_window. unfold_monad.
    cbv beta. rewrite save_data_exact. destruct is_registered; reflexivity. }
  unfold Window.edit_order, buyer_name_ok, buyer_phone_ok.
  unfold wbind at 1. unfold app_ at 1.
  unfold bind at 1 2. unfold gets at 1. unfold ret at 1. cbv beta iota. cbn [fst snd].
  unfold wbind at 1. unfold app_ at 1. unfold bind at 1 2. unfold lift at 1.
  destruct (getitem (order_list is_registered s) (Z.of_nat row)) as [e|order];
    [reflexivity|].
  unfold ret at 1 2. cbv beta iota zeta. cbn [fst snd].
  destruct (text_eqb (strip (Order.buyer_name (get_updated_order order d))) []);
    [reflexivity|].
  cbn [negb].
  assert (Hset :
    (l' <- app_ (lift (setitem (order_list is_registered s) (Z.of_nat row)
                                (get_updated_order order d))) ;;
     app_ (modify (with_order_list is_registered l')) ;;
     app_ save_data ;;
     (if is_registered then Window.update_registered_orders_list
      else Window.update_unregistered_orders_list) ;;
     app_ update_statistics ;;
     app_ (information OrderEdited))%win w s
    = match setitem (order_list is_registered s) (Z.of_nat row)
              (get_updated_order order d) with
      | inl e => Raise e s
      | inr l' =>
          with_widgets
            (committed (Information OrderEdited)
               (with_order_list is_registered l' s))
            (if is_registered then with_orders_list (order_rows l') w
             else with_unreg_orders_list (order_rows l') w)
      end).
  { unfold wbind at 1. unfold app_ at 1. unfold bind at 1 2.
    unfold lift at 1.
    destruct (setitem _ _ _) as [e|l']; [reflexivity|].
    unfold ret at 1 2. cbv beta iota. cbn [fst snd]. apply Hend. }
  destruct (text_eqb (Order.buyer_phone (get_updated_order order d)) []);
    cbn [negb andb orb]; [exact Hset|].
  destruct (re_match phone_pattern (Order.buyer_phone (get_updated_order order d)));
    cbn [negb]; [exact Hset | reflexivity].
Qed.

Lemma rows_match_order_list (is_registered : bool) (w : Widgets) (s : App) :
  in_sync w s ->
  rows_match (if is_registered then orders_list w else unreg_orders_list w)
             (order_list is_registered s).
Proof. intros (_ & Hr & Hu). destruct is_registered; assumption. Qed.

Lemma window_edit_order_sim (row : nat) (is_registered : bool)
    (dialog : option Dialog.t) (w : Widgets) (s : App) :
  in_sync w s ->
  row < length (if is_registered then orders_list w else unreg_orders_list w) ->
  exists b w' s',
    Window.edit_order row is_registered dialog w s = Return (b, w') s' /\
    edit_order (Z.of_nat row) is_registered dialog s = Return b s' /\
    in_sync w' s'.
Proof.
  intros Hs Hrow.
  rewrite (rows_match_length _ _ (rows_match_order_list is_registered w s Hs)) in Hrow.
  destruct (lookup_lt_is_Some_2 _ _ Hrow) as [order Ho].
  destruct dialog as [d|].
  - rewrite window_edit_order_cases, edit_order_cases, getitem_nat, Ho. cbv zeta.
    destruct (negb (buyer_name_ok _)); [exists (Warning EmptyBuyerName), w, s; sim_same|].
    destruct (negb (buyer_phone_ok _)); [exists (Warning InvalidPhone), w, s; sim_same|].
    rewrite (setitem_nat _ _ _ _ Ho), committed_exact. cbn [with_widgets].
    eexists _, _, _. split; [reflexivity|]. split; [reflexivity|].
    destruct Hs as (Hi & Hr & Hu).
    destruct is_registered; (split; [|split]); cbn;
      auto using rows_match_order_rows.
  - exists NoBox, w, s. split; [|split; [|exact Hs]].
    + unfold Window.edit_order. unfold wbind, app_, wret. unfold_monad.
      cbv beta. cbn [fst snd]. rewrite getitem_nat, Ho. reflexivity.
    + unfold edit_order. unfold_monad. cbv beta. rewrite getitem_nat, Ho.
      reflexivity.
Qed.

Lemma window_move_to_registered_sim (selected : option nat) (answer : bool)
    (w : Widgets) (s : App) :
  in_sync w s ->
  exists b w' s',
    Window.move_to_registered selected answer w s = Return (b, w') s' /\
    move_to_registered (Z.of_nat <$> selected_row (unreg_orders_list w) selected)
                       answer s = Return b s' /\
    in_sync w' s'.
Proof.
  intros Hs. unfold Window.move_to_registered.
  unfold wbind at 1. unfold look at 1. unfold bind at 1. unfold ret at 1.
  cbn [fst snd].
  destruct (selected_row (unreg_orders_list w) selected) as [row|] eqn:E;
    cbn [fmap option_fmap option_map];
    [|exists (Warning NothingSelected), w, s; sim_same].
  destruct answer; [|exists NoBox, w, s; sim_same].
  apply selected_row_lt in E. destruct Hs as (Hi & Hr & Hu).
  rewrite (rows_match_length _ _ Hu) in E.
  destruct (lookup_lt_is_Some_2 _ _ E) as [o Ho].
  rewrite move_to_registered_cases, pop_nat, Ho, committed_exact.
  unfold_window. unfold_monad. cbn. rewrite pop_nat, Ho. cbn.
  rewrite save_data_exact. cbn.
  eexists _, _, _. split; [reflexivity|]. split; [reflexivity|].
  split; [|split]; cbn; auto using rows_match_order_rows.
Qed.

Lemma window_delete_registered_order_sim (selected : option nat) (answer : bool)
    (w : Widgets) (s : App) :
  in_sync w s ->
  exists b w' s',
    Window.delete_registered_order selected answer w s = Return (b, w') s' /\
    delete_registered_order (Z.of_nat <$> selected_row (orders_list w) selected)
                            answer s = Return b s' /\
    in_sync w' s'.
Proof.
  intros Hs. unfold Window.delete_registered_order.
  unfold wbind at 1. unfold look at 1. unfold bind at 1. unfold ret at 1.
  cbn [fst snd].
  destruct (selected_row (orders_list w) selected) as [row|] eqn:E;
    cbn [fmap option_fmap option_map];
    [|exists (Warning NothingSelected), w, s; sim_same].
  destruct answer; [|exists NoBox, w, s; sim_same].
  apply selected_row_lt in E. destruct Hs as (Hi & Hr & Hu).
  rewrite (rows_match_length _ _ Hr) in E.
  destruct (lookup_lt_is_Some_2 _ _ E) as [o Ho].
  rewrite delete_registered_order_cases, pop_nat, Ho, committed_exact.
  unfold_window. unfold_monad. cbn. rewrite pop_nat, Ho. cbn.
  rewrite save_data_exact. cbn.
  eexists _, _, _. split; [reflexivity|]. split; [reflexivity|].
  split; [|split]; cbn; auto using rows_match_delete.
Qed.

Lemma window_delete_unregistered_order_sim (selected : option nat) (answer : bool)
    (w : Widgets) (s : App) :
  in_sync w s ->
  exists b w' s',
    Window.delete_unregistered_order selected answer w s = Return (b, w') s' /\
    delete_unregistered_order
      (Z.of_nat <$> selected_row (unreg_orders_list w) selected) answer s
    = Return b s' /\
    in_sync w' s'.
Proof.
  intros Hs. unfold Window.delete_unregistered_order.
  unfold wbind at 1. unfold look at 1. unfold bind at 1. unfold ret at 1.
  cbn [fst snd].
  destruct (selected_row (unreg_orders_list w) selected) as [row|] eqn:E;
    cbn [fmap option_fmap option_map];
    [|exists (Warning NothingSelected), w, s; sim_same].
  destruct answer; [|exists NoBox, w, s; sim_same].
  apply selected_row_lt in E. destruct Hs as (Hi & Hr & Hu).
  rewrite (rows_match_length _ _ Hu) in E.
  destruct (lookup_lt_is_Some_2 _ _ E) as [o Ho].
  rewrite delete_unregistered_order_cases, pop_nat, Ho, committed_exact.
  unfold_window. unfold_monad. cbn. rewrite pop_nat, Ho. cbn.
  rewrite save_data_exact. cbn.
  eexists _, _, _. split; [reflexivity|]. split; [reflexivity|].
  split; [|split]; cbn; auto using rows_match_delete.
Qed.

Lemma window_clear_all_data_sim (answer : bool) (w : Widgets) (s : App) :
  exists b w' s',
    Window.clear_all_data answer w s = Return (b, w') s' /\
    clear_all_data answer s = Return b s' /\
    (in_sync w s -> in_sync w' s').
Proof.
  destruct answer;
    [|exists NoBox, w, s; split; [reflexivity|split; [reflexivity|tauto]]].
  rewrite clear_all_data_cases, cleared_exact.
  unfold Window.clear_all_data. unfold_window. unfold_monad. cbn.
  rewrite save_data_exact. cbn.
  eexists _, _, _. split; [reflexivity|]. split; [reflexivity|].
  intros _. split; [|split]; cbn; constructor.
Qed.

Section WindowSessions.

Variable isalnum : char -> bool.

(** In a window whose widgets show the lists, every handler returns, keeps
    the widgets and the lists together, and does to the data what a
    handler without widgets does. *)
Lemma window_handle_sim (ev : Window.Event) (w : Widgets) (s : App) :
  in_sync w s ->
  exists b w' s' ev',
    Window.handle isalnum ev w s = Return (b, w') s' /\
    handle isalnum ev' s = Return b s' /\
    in_sync w' s'.
Proof.
  intros Hs. destruct ev as [fd v| |selected answer|answer|today|today
                            |row is_registered dialog|selected answer
                            |selected answer|selected answer|answer].
  - exists NoBox, w, (with_form (set_field fd v (form s)) s), (Typed fd v).
    split; [reflexivity|]. split; [reflexivity|]. exact Hs.
  - destruct (window_add_item_sim w s) as (w' & H & Hk).
    specialize (Hk Hs). cbn [Window.handle]. rewrite H.
    destruct (add_item s) as [b s'|e s'] eqn:E.
    + exists b, w', s', AddItem. auto.
    + exfalso. revert E. rewrite add_item_cases. cbv zeta.
      repeat match goal with
             | |- context [match ?x with _ => _ end] => destruct x
             end; discriminate.
  - destruct (window_delete_item_sim selected answer w s Hs)
      as (b & w' & s' & H1 & H2 & H3).
    exists b, w', s', (DeleteItem (Z.of_nat <$> selected_row (list_widget w) selected) answer).
    auto.
  - destruct (window_clear_items_sim answer w s Hs) as (b & w' & s' & H1 & H2 & H3).
    exists b, w', s', (ClearItems answer). auto.
  - destruct (window_add_to_registered_orders_sim isalnum today w s Hs)
      as (b & w' & s' & H1 & H2 & H3).
    exists b, w', s', (AddToRegistered today). auto.
  - destruct (window_add_to_unregistered_orders_sim isalnum today w s Hs)
      as (b & w' & s' & H1 & H2 & H3).
    exists b, w', s', (AddToUnregistered today). auto.
  - cbn [Window.handle]. unfold wbind at 1. unfold look at 1.
    unfold bind at 1. unfold ret at 1. cbn [fst snd].
    case_bool_decide as Hrow.
    + assert (Hrow' : row < length (if is_registered then orders_list w
                                    else unreg_orders_list w))
        by (destruct is_registered; exact Hrow).
      clear Hrow. rename Hrow' into Hrow.
      destruct (window_edit_order_sim row is_registered dialog w s Hs Hrow)
        as (b & w' & s' & H1 & H2 & H3).
      exists b, w', s', (EditOrder (Z.of_nat row) is_registered dialog). auto.
    + exists NoBox, w, s, (ClearItems false). auto.
  - destruct (window_move_to_registered_sim selected answer w s Hs)
      as (b & w' & s' & H1 & H2 & H3).
    eexists b, w', s', (MoveToRegistered _ answer). eauto.
  - destruct (window_delete_registered_order_sim selected answer w s Hs)
      as (b & w' & s' & H1 & H2 & H3).
    eexists b, w', s', (DeleteRegistered _ answer). eauto.
  - destruct (window_delete_unregistered_order_sim selected answer w s Hs)
      as (b & w' & s' & H1 & H2 & H3).
    eexists b, w', s', (DeleteUnregistered _ answer). eauto.
  - destruct (window_clear_all_data_sim answer w s) as (b & w' & s' & H1 & H2 & H3).
    exists b, w', s', (ClearAllData answer). auto.
Qed.

Lemma window_run_sim (evs : list Window.Event) (shown : list Box)
    (w : Widgets) (s : App) :
  in_sync w s ->
  exists boxes w' s' evs',
    Window.run isalnum evs shown w s = Return (boxes, w') s' /\
    run isalnum evs' shown s = Return boxes s' /\
    length evs' = length evs /\
    in_sync w' s'.
Proof.
  revert shown w s. induction evs as [|ev evs IH]; intros shown w s Hs.
  - exists shown, w, s, []. auto.
  - destruct (window_handle_sim ev w s Hs) as (b & w1 & s1 & ev' & H1 & H2 & H3).
    destruct (IH (b :: shown) w1 s1 H3) as (boxes & w' & s' & evs' & H4 & H5 & H6 & H7).
    exists boxes, w', s', (ev' :: evs').
    split; [|split; [|split; [cbn; lia | exact H7]]].
    + cbn [Window.run]. unfold wbind, bind. rewrite H1. exact H4.
    + cbn [run]. unfold bind. rewrite H2. exact H5.
Qed.

End WindowSessions.

(** Start-up fills the widgets from the lists it has loaded. *)
Lemma window_init_sim (file : File) :
  exists w,
    Window.InvoiceApp_init file = with_widgets (InvoiceApp_init file) w /\
    forall s, InvoiceApp_init file = Return tt s -> in_sync w s.
Proof.
  unfold Window.InvoiceApp_init, InvoiceApp_init, Window.init_ui, init_ui.
  unfold_window. unfold bind.
  pose proof (load_data_stored (blank file)) as H.
  destruct (stored_ledger (data_file (blank file))) as [[reg unreg]|].
  - rewrite H. cbn. eexists. split; [reflexivity|].
    intros s [= <-]. split; [|split]; cbn;
      [reflexivity | apply rows_match_order_rows | apply rows_match_order_rows].
  - destruct H as [e ->]. cbn. exists (mkWidgets [] [] []).
    split; [reflexivity | discriminate].
Qed.

(** X13. In a session of the window, from start-up on, every handler
    returns: the row a handler reads from a widget is a row of the list it
    indexes, so nothing raises.  After the session the item widget shows the
    items of the draft, and the rows of the two order widgets show, place by
    place, the customer, the date and the sum of the items of the orders. *)
Theorem window_session_returns (isalnum : char -> bool) (file : File)
    (evs : list Window.Event) (w0 : Widgets) (s0 : App) :
  Window.InvoiceApp_init file = Return (tt, w0) s0 ->
  exists boxes w s,
    Window.run isalnum evs [] w0 s0 = Return (boxes, w) s /\
    list_widget w = items s /\
    rows_match (orders_list w) (registered_orders s) /\
    rows_match (unreg_orders_list w) (unregistered_orders s).
Proof.
  intros H. destruct (window_init_sim file) as (w & Hw & Hs).
  rewrite Hw in H. destruct (InvoiceApp_init file) as [[] s|e s]; [|discriminate].
  injection H as -> ->.
  destruct (window_run_sim isalnum evs [] w0 s0 (Hs _ eq_refl))
    as (boxes & w' & s' & evs' & H1 & _ & _ & H2).
  exists boxes, w', s'. split; [exact H1 | exact H2].
Qed.

Lemma window_session_returns_witness :
  Window.InvoiceApp_init no_file = Return (tt, mkWidgets [] [] []) (blank no_file) /\
  exists boxes w s,
    Window.run ascii_isalnum window_session [] (mkWidgets [] [] []) (blank no_file)
    = Return (boxes, w) s /\
    list_widget w = items s /\
    rows_match (orders_list w) (registered_orders s) /\
    rows_match (unreg_orders_list w) (unregistered_orders s).
Proof.
  split; [reflexivity|].
  apply (window_session_returns ascii_isalnum no_file window_session).
  reflexivity.
Defined.



Lemma order_rows_lookup (orders : list Order.t) (i : nat) :
  row_number <$> order_rows orders !! i
  = (fun _ => i + 1) <$> orders !! i.
Proof.
  unfold order_rows. rewrite list_lookup_imap.
  destruct (orders !! i); reflexivity.
Qed.

(** X15. The delete handlers take the row out of the widget and do not fill
    the list again: when the order deleted is not the last of its list, the
    row that moves up to its place keeps its old number, one more than the
    number a filled list shows there. *)
Theorem delete_order_keeps_numbers (w : Widgets) (s : App) (i : nat) :
  (orders_list w = order_rows (registered_orders s) ->
   S i < length (registered_orders s) ->
   exists w' s',
     Window.delete_registered_order (Some i) true w s = Return (NoBox, w') s' /\
     registered_orders s' = delete i (registered_orders s) /\
     row_number <$> orders_list w' !! i = Some (i + 2) /\
     row_number <$> order_rows (registered_orders s') !! i = Some (i + 1)) /\
  (unreg_orders_list w = order_rows (unregistered_orders s) ->
   S i < length (unregistered_orders s) ->
   exists w' s',
     Window.delete_unregistered_order (Some i) true w s = Return (NoBox, w') s' /\
     unregistered_orders s' = delete i (unregistered_orders s) /\
     row_number <$> unreg_orders_list w' !! i = Some (i + 2) /\
     row_number <$> order_rows (unregistered_orders s') !! i = Some (i + 1)).
Proof.
  split; intros Hw Hi.
  - destruct (lookup_lt_is_Some_2 (registered_orders s) i ltac:(lia)) as [o Ho].
    destruct (lookup_lt_is_Some_2 (registered_orders s) (S i) Hi) as [o' Ho'].
    unfold Window.delete_registered_order. unfold_window. unfold_monad.
    assert (Hlen : i < length (orders_list w))
      by (rewrite Hw; unfold order_rows; rewrite length_imap; lia).
    cbn [selected_row fst snd]. rewrite (bool_decide_true _ Hlen).
    cbn. rewrite pop_nat, Ho. cbn.
    rewrite save_data_exact. cbn.
    eexists _, _. split; [reflexivity|]. cbn. split; [reflexivity|]. split.
    + unfold takeItem. rewrite list_lookup_delete_ge by lia.
      rewrite Hw, order_rows_lookup, Ho'. cbn. f_equal. lia.
    + rewrite order_rows_lookup, list_lookup_delete_ge, Ho' by lia. reflexivity.
  - destruct (lookup_lt_is_Some_2 (unregistered_orders s) i ltac:(lia)) as [o Ho].
    destruct (lookup_lt_is_Some_2 (unregistered_orders s) (S i) Hi) as [o' Ho'].
    unfold Window.delete_unregistered_order. unfold_window. unfold_monad.
    assert (Hlen : i < length (unreg_orders_list w))
      by (rewrite Hw; unfold order_rows; rewrite length_imap; lia).
    cbn [selected_row fst snd]. rewrite (bool_decide_true _ Hlen).
    cbn. rewrite pop_nat, Ho. cbn.
    rewrite save_data_exact. cbn.
    eexists _, _. split; [reflexivity|]. cbn. split; [reflexivity|]. split.
    + unfold takeItem. rewrite list_lookup_delete_ge by lia.
      rewrite Hw, order_rows_lookup, Ho'. cbn. f_equal. lia.
    + rewrite order_rows_lookup, list_lookup_delete_ge, Ho' by lia. reflexivity.
Qed.

Lemma delete_order_keeps_numbers_witness :
  (exists w' s',
     Window.delete_registered_order (Some 0) true two_orders_widgets two_orders
     = Return (NoBox, w') s' /\
     registered_orders s' = delete 0 (registered_orders two_orders) /\
     row_number <$> orders_list w' !! 0 = Some 2 /\
     row_number <$> order_rows (registered_orders s') !! 0 = Some 1) /\
  (exists w' s',
     Window.delete_unregistered_order (Some 0) true two_orders_widgets two_orders
     = Return (NoBox, w') s' /\
     unregistered_orders s' = delete 0 (unregistered_orders two_orders) /\
     row_number <$> unreg_orders_list w' !! 0 = Some 2 /\
     row_number <$> order_rows (unregistered_orders s') !! 0 = Some 1).
Proof.
  split.
  - apply (proj1 (delete_order_keeps_numbers two_orders_widgets two_orders 0));
      [reflexivity | cbn; lia].
  - apply (proj2 (delete_order_keeps_numbers two_orders_widgets two_orders 0));
      [reflexivity | cbn; lia].
Defined.

(** What the session of the window leaves: the click without a selection
    got a warning, and the one row left in the list of registered orders
    still says it is order 2. *)
Example window_session_outcome :
  exists boxes w s,
    Window.run ascii_isalnum window_session [] (mkWidgets [] [] []) (blank no_file)
    = Return (boxes, w) s /\
    take 2 boxes = [NoBox; Warning NothingSelected] /\
    orders_list w
    = [mkOrderRow 2 (txt "Ali Rezai") (txt "2025/01/02") (float_of_Z 50)] /\
    map Order.buyer_name (registered_orders s) = [txt "Ali Rezai"].
Proof.
  eexists _, _, _. split; [vm_compute; reflexivity|].
  vm_compute. repeat split.
Qed.



(** ** What [validate_inputs] accepts *)

Lemma matches_seq_iff (r1 r2 : regex) (s : text) :
  matches (Seq r1 r2) s <->
  exists s1 s2, s = s1 ++ s2 /\ matches r1 s1 /\ matches r2 s2.
Proof.
  split.
  - intros H. inversion H; subst. eauto.
  - intros (s1 & s2 & -> & H1 & H2). constructor; assumption.
Qed.

Lemma nullable_matches (r : regex) : nullable r = true <-> matches r [].
Proof.
  induction r as [| |p|r1 IH1 r2 IH2|r1 IH1 r2 IH2|r IH]; cbn [nullable].
  - split; [discriminate | inversion 1].
  - split; [constructor | reflexivity].
  - split; [discriminate | inversion 1].
  - rewrite andb_true_iff, IH1, IH2. split.
    + intros [H1 H2]. exact (matches_seq r1 r2 [] [] H1 H2).
    + intros H. apply matches_seq_iff in H as (s1 & s2 & E & H1 & H2).
      destruct s1, s2; try discriminate. auto.
  - rewrite orb_true_iff, IH1, IH2. split.
    + intros [H|H]; [apply matches_alt_l | apply matches_alt_r]; exact H.
    + intros H. inversion H; subst; auto.
  - split; [constructor | reflexivity].
Qed.

Lemma deriv_star (c : char) (r : regex) (s t : text) :
  (forall s', matches r (c :: s') -> matches (deriv c r) s') ->
  matches (Star r) t -> t = c :: s ->
  matches (Seq (deriv c r) (Star r)) s.
Proof.
  intros IH H. remember (Star r) as R eqn:ER. revert s.
  induction H as [| | | | | |r' s1 s2 H1 _ H2 IH2]; intros u E; try discriminate.
  injection ER as ->. destruct s1 as [|x s1].
  - apply IH2; [reflexivity | exact E].
  - injection E as -> <-. constructor; [apply IH; exact H1 | exact H2].
Qed.

Lemma deriv_matches (c : char) (r : regex) (s : text) :
  matches (deriv c r) s <-> matches r (c :: s).
Proof.
  revert s.
  induction r as [| |p|r1 IH1 r2 IH2|r1 IH1 r2 IH2|r IH]; intros s; cbn [deriv].
  - split; inversion 1.
  - split; inversion 1.
  - destruct (p c) eqn:E; split; intros H; inversion H; subst.
    + constructor. exact E.
    + constructor.
    + congruence.
  - split.
    + intros H. destruct (nullable r1) eqn:N.
      * inversion H as [| | |? ? ? H'|? ? ? H'| |]; subst.
        -- inversion H' as [| |? ? s1 s2 H1 H2| | | |]; subst.
           apply IH1 in H1. exact (matches_seq r1 r2 (c :: s1) s2 H1 H2).
        -- apply IH2 in H'. apply nullable_matches in N.
           exact (matches_seq r1 r2 [] (c :: s) N H').
      * inversion H as [| |? ? s1 s2 H1 H2| | | |]; subst.
        apply IH1 in H1. exact (matches_seq r1 r2 (c :: s1) s2 H1 H2).
    + intros H. apply matches_seq_iff in H as (s1 & s2 & E & H1 & H2).
      destruct s1 as [|x s1].
      * cbn in E. subst s2. apply nullable_matches in H1. rewrite H1.
        apply matches_alt_r, IH2, H2.
      * injection E as -> ->. apply IH1 in H1.
        destruct (nullable r1);
          [apply matches_alt_l|]; constructor; assumption.
  - split; intros H; inversion H; subst.
    + apply matches_alt_l, IH1. assumption.
    + apply matches_alt_r, IH2. assumption.
    + apply matches_alt_l, IH1. assumption.
    + apply matches_alt_r, IH2. assumption.
  - split.
    + intros H. inversion H as [| |? ? s1 s2 H1 H2| | | |]; subst.
      apply IH in H1. exact (matches_star_cons r (c :: s1) s2 H1 H2).
    + intros H. apply (deriv_star c r s (c :: s)); [|exact H|reflexivity].
      intros s'. apply IH.
Qed.

(** The matcher decides the words of the expression. *)
Lemma fullmatch_matches (r : regex) (s : text) :
  fullmatch r s = true <-> matches r s.
Proof.
  unfold fullmatch. revert r. induction s as [|c s IH]; intros r; cbn [fold_left].
  - apply nullable_matches.
  - rewrite IH. apply deriv_matches.
Qed.

Lemma matches_class_iff (p : char -> bool) (s : text) :
  matches (Class p) s <-> exists c, s = [c] /\ p c = true.
Proof.
  split.
  - intros H. inversion H; subst. eauto.
  - intros (c & -> & H). constructor. exact H.
Qed.

Lemma matches_lit (a : ascii) (s : text) : matches (Lit a) s <-> s = [chr a].
Proof.
  unfold Lit. rewrite matches_class_iff. split.
  - intros (c & -> & H). apply N.eqb_eq in H. congruence.
  - intros ->. exists (chr a). split; [reflexivity | apply N.eqb_refl].
Qed.

Lemma matches_repeat_class (n : nat) (p : char -> bool) (s : text) :
  matches (Repeat n (Class p)) s <-> length s = n /\ forallb p s = true.
Proof.
  revert s. induction n as [|n IH]; intros s; cbn [Repeat].
  - split.
    + intros H. inversion H. auto.
    + intros [H _]. destruct s; [constructor | discriminate].
  - rewrite matches_seq_iff. split.
    + intros (s1 & s2 & -> & H1 & H2).
      apply matches_class_iff in H1 as (c & -> & Hc). apply IH in H2 as [<- H2].
      cbn. rewrite Hc, H2. auto.
    + intros [Hl Hp]. destruct s as [|c s]; [discriminate|].
      cbn in Hp. apply andb_true_iff in Hp as [Hc Hp].
      exists [c], s. split; [reflexivity|].
      split; [constructor; exact Hc | apply IH; cbn in Hl; auto with lia].
Qed.

Lemma matches_star_class (p : char -> bool) (s : text) :
  matches (Star (Class p)) s <-> forallb p s = true.
Proof.
  split.
  - intros H. remember (Star (Class p)) as R eqn:ER.
    induction H as [| | | | | |r s1 s2 H1 _ _ IH2]; try discriminate.
    + reflexivity.
    + injection ER as ->. inversion H1; subst. cbn.
      rewrite IH2 by reflexivity. rewrite andb_true_r. assumption.
  - induction s as [|c s IH]; [constructor|]. cbn. intros H.
    apply andb_true_iff in H as [Hc Hs].
    apply (matches_star_cons (Class p) [c] s); [constructor; exact Hc | auto].
Qed.

Lemma matches_plus_class (p : char -> bool) (s : text) :
  matches (Plus (Class p)) s <-> s <> [] /\ forallb p s = true.
Proof.
  unfold Plus. rewrite matches_seq_iff. split.
  - intros (s1 & s2 & -> & H1 & H2). inversion H1; subst.
    apply matches_star_class in H2. cbn. rewrite H2.
    split; [discriminate | rewrite andb_true_r; assumption].
  - intros [Hn H]. destruct s as [|c s]; [congruence|].
    cbn in H. apply andb_true_iff in H as [Hc Hs].
    exists [c], s. split; [reflexivity|].
    split; [constructor; exact Hc | apply matches_star_class; exact Hs].
Qed.

(** [re.match("^r$", s)] by the words of [r]. *)
Lemma re_match_matches (r : regex) (s : text) :
  re_match r s = true <-> exists body, matches r body /\ up_to_line_feed s body.
Proof.
  unfold re_match, up_to_line_feed. rewrite fullmatch_matches, matches_seq_iff.
  split.
  - intros (s1 & s2 & -> & H1 & H2). exists s1. split; [exact H1|].
    inversion H2 as [| | |? ? ? H|? ? ? H| |]; subst.
    + inversion H. left. rewrite app_nil_r. reflexivity.
    + inversion H as [|? c Hc| | | | |]; subst. apply N.eqb_eq in Hc. subst c.
      right. reflexivity.
  - intros (body & H & [->| ->]).
    + exists body, []. rewrite app_nil_r. split; [reflexivity|].
      split; [exact H | apply matches_alt_l; constructor].
    + exists body, [10%N]. split; [reflexivity|].
      split; [exact H | apply matches_alt_r; constructor; reflexivity].
Qed.

Lemma re_match_phone (s : text) :
  re_match phone_pattern s = true <-> phone_shape s.
Proof.
  rewrite re_match_matches. unfold phone_shape, phone_pattern. split.
  - intros (body & H & Hs).
    apply matches_seq_iff in H as (s1 & s2 & -> & H1 & H2).
    apply matches_lit in H1 as ->.
    apply matches_seq_iff in H2 as (s2' & ds & -> & H2 & H3).
    apply matches_lit in H2 as ->.
    apply matches_repeat_class in H3 as [Hl Hd].
    exists ds. auto.
  - intros (ds & Hl & Hd & Hs). eexists. split; [|exact Hs].
    apply (matches_seq _ _ [chr "0"] (chr "9" :: ds)); [apply matches_lit; reflexivity|].
    apply (matches_seq _ _ [chr "9"] ds); [apply matches_lit; reflexivity|].
    apply matches_repeat_class. auto.
Qed.

Lemma re_match_email (isalnum : char -> bool) (s : text) :
  re_match (email_pattern isalnum) s = true <-> email_shape isalnum s.
Proof.
  rewrite re_match_matches. unfold email_shape, email_pattern. split.
  - intros (body & H & Hs).
    apply matches_seq_iff in H as (local & s2 & -> & H1 & H2).
    apply matches_plus_class in H1 as [Hn1 Hp1].
    apply matches_seq_iff in H2 as (at_ & s3 & -> & H2 & H3).
    apply matches_lit in H2 as ->.
    apply matches_seq_iff in H3 as (domain & s4 & -> & H3 & H4).
    apply matches_plus_class in H3 as [Hn2 Hp2].
    apply matches_seq_iff in H4 as (dot & tld & -> & H4 & H5).
    apply matches_lit in H4 as ->.
    apply matches_plus_class in H5 as [Hn3 Hp3].
    exists local, domain, tld. auto 10.
  - intros (local & domain & tld & Hn1 & Hn2 & Hn3 & Hp1 & Hp2 & Hp3 & Hs).
    eexists. split; [|exact Hs].
    apply matches_seq; [apply matches_plus_class; auto|].
    apply (matches_seq _ _ [chr "@"]); [apply matches_lit; reflexivity|].
    apply matches_seq; [apply matches_plus_class; auto|].
    apply (matches_seq _ _ [chr "."]); [apply matches_lit; reflexivity|].
    apply matches_plus_class; auto.
Qed.

Lemma text_eqb_nil (s : text) : text_eqb s [] = true <-> s = [].
Proof. unfold text_eqb. apply bool_decide_eq_true. Qed.

(** X16. What [validate_inputs] lets through: a seller name and a customer
    name that are not blank, each phone empty or 09 followed by nine decimal
    digits, and the email empty or of the form local@domain.tld.  The digits
    may be of any script, and one line feed may follow the phone or the
    email. *)
Theorem validate_inputs_accepts (isalnum : char -> bool) (f : Form.t) :
  fst (validate_inputs isalnum f) = true <->
  strip (Form.seller_name f) <> [] /\
  strip (Form.buyer_name f) <> [] /\
  (Form.seller_phone f = [] \/ phone_shape (Form.seller_phone f)) /\
  (Form.buyer_phone f = [] \/ phone_shape (Form.buyer_phone f)) /\
  (Form.seller_email f = [] \/ email_shape isalnum (Form.seller_email f)).
Proof.
  rewrite <- !re_match_phone, <- re_match_email, <- !text_eqb_nil.
  unfold validate_inputs.
  destruct (text_eqb (strip (Form.seller_name f)) []); cbn [fst];
    [split; [discriminate | intros (H & _); congruence]|].
  destruct (text_eqb (strip (Form.buyer_name f)) []); cbn [fst];
    [split; [discriminate | intros (_ & H & _); congruence]|].
  destruct (text_eqb (Form.seller_phone f) []),
           (re_match phone_pattern (Form.seller_phone f));
    cbn [negb andb fst];
    try (split; [discriminate | intros (_ & _ & [H|H] & _); discriminate]);
  destruct (text_eqb (Form.buyer_phone f) []),
           (re_match phone_pattern (Form.buyer_phone f));
    cbn [negb andb fst];
    try (split; [discriminate | intros (_ & _ & _ & [H|H] & _); discriminate]);
  destruct (text_eqb (Form.seller_email f) []),
           (re_match (email_pattern isalnum) (Form.seller_email f));
    cbn [negb andb fst];
    try (split; [discriminate | intros (_ & _ & _ & _ & [H|H]); discriminate]);
  (split; [intros _; repeat split; (congruence || auto) | reflexivity]).
Qed.

(** A phone number in Persian digits passes. *)
Example persian_phone_accepted :
  validate_inputs ascii_isalnum persian_phone_form = (true, Blank).
Proof. vm_compute. reflexivity. Qed.



(** ** Saving an order from its dialog unchanged *)

Lemma isspace_cases (c : char) :
  isspace c = true ->
  In c [9; 10; 11; 12; 13; 28; 29; 30; 31; 32; 133; 160; 5760;
        8192; 8193; 8194; 8195; 8196; 8197; 8198; 8199; 8200; 8201; 8202;
        8232; 8233; 8239; 8287; 12288]%N.
Proof.
  unfold isspace, in_range. cbn [In].
  rewrite !orb_true_iff, !andb_true_iff, !N.leb_le, !N.eqb_eq. lia.
Qed.

Lemma isdecimal_not_space (c : char) : isdecimal c = true -> isspace c = false.
Proof.
  intros Hd. destruct (isspace c) eqn:Hs; [|reflexivity].
  apply isspace_cases in Hs. cbn [In] in Hs.
  repeat (destruct Hs as [<-|Hs]; [vm_compute in Hd; discriminate|]).
  contradiction.
Qed.

(** A text with no white space in it but for one last character. *)
Lemma strip_with_solid (p : char -> bool) (x : char) (r : text) :
  p x = false -> Forall (fun y => p y = false) r ->
  strip_with p (x :: r) = x :: r /\
  forall z, p z = true -> strip_with p (x :: r ++ [z]) = x :: r.
Proof.
  intros Hx Hr. rewrite !strip_with_cons by exact Hx.
  assert (H : drop_while p (rev r) = rev r).
  { induction r as [|a r _] using rev_ind; [reflexivity|].
    rewrite rev_app_distr. cbn [rev app].
    apply Forall_app in Hr as [_ Hy]. inversion Hy as [|? ? Hy' _]; subst.
    apply drop_while_fixed. exact Hy'. }
  split.
  - rewrite H. rewrite rev_involutive. reflexivity.
  - intros z Hz. rewrite strip_with_cons by exact Hx. rewrite rev_app_distr. cbn [rev app drop_while]. rewrite Hz, H.
    rewrite rev_involutive. reflexivity.
Qed.

Lemma strip_phone (s : text) : phone_shape s -> phone_shape (strip s).
Proof.
  intros (ds & Hl & Hd & Hs). exists ds. split; [exact Hl|]. split; [exact Hd|].
  left.
  assert (Hr : Forall (fun y => isspace y = false) (chr "9" :: ds)).
  { constructor; [reflexivity|].
    apply List.Forall_forall. intros y Hy. apply isdecimal_not_space.
    rewrite forallb_forall in Hd. apply Hd. exact Hy. }
  destruct (strip_with_solid isspace (chr "0") (chr "9" :: ds) eq_refl Hr)
    as [H1 H2].
  destruct Hs as [-> | ->]; [exact H1|].
  exact (H2 10%N eq_refl).
Qed.

Lemma validate_inputs_buyer (isalnum : char -> bool) (f : Form.t) :
  fst (validate_inputs isalnum f) = true ->
  strip (Form.buyer_name f) <> [] /\
  (Form.buyer_phone f = [] \/ re_match phone_pattern (Form.buyer_phone f) = true).
Proof.
  unfold validate_inputs.
  destruct (text_eqb (strip (Form.seller_name f)) []); [discriminate|].
  destruct (text_eqb (strip (Form.buyer_name f)) []) eqn:En; [discriminate|].
  destruct (negb (text_eqb (Form.seller_phone f) []) && _); [discriminate|].
  destruct (text_eqb (Form.buyer_phone f) []) eqn:Ep;
    destruct (re_match phone_pattern (Form.buyer_phone f)) eqn:Er;
    cbn [negb andb]; try discriminate; intros _.
  all: split; [intros H; apply text_eqb_nil in H; congruence|].
  all: try (right; reflexivity).
  left. apply text_eqb_nil. exact Ep.
Qed.

(** X17. An order made by one of the two finalising handlers can be saved
    from its edit dialog as the dialog opens, with nothing typed: the check
    of [edit_order] passes what [validate_inputs] passed, and the order is
    put back with its customer fields stripped. *)
Theorem unchanged_edit_accepted (isalnum : char -> bool) (today : text)
    (f : Form.t) (its : list Item.t) (is_registered : bool) (i : nat) (s : App) :
  fst (validate_inputs isalnum f) = true ->
  order_list is_registered s !! i = Some (make_order today f its) ->
  let o := make_order today f its in
  exists s',
    edit_order (Z.of_nat i) is_registered (Some (EditOrderDialog_init_ui o)) s
    = Return (Information OrderEdited) s' /\
    order_list is_registered s'
    = <[i := get_updated_order o (EditOrderDialog_init_ui o)]>
        (order_list is_registered s).
Proof.
  intros Hv Ho. cbv zeta.
  apply validate_inputs_buyer in Hv as [Hn Hp].
  rewrite edit_order_cases, getitem_nat, Ho. cbv zeta.
  assert (H1 : buyer_name_ok (get_updated_order (make_order today f its)
                 (EditOrderDialog_init_ui (make_order today f its))) = true).
  { unfold buyer_name_ok. cbn [get_updated_order EditOrderDialog_init_ui
      make_order Order.buyer_name Dialog.buyer_name].
    rewrite strip_idempotent, text_eqb_false by exact Hn. reflexivity. }
  assert (H2 : buyer_phone_ok (get_updated_order (make_order today f its)
                 (EditOrderDialog_init_ui (make_order today f its))) = true).
  { unfold buyer_phone_ok. cbn [get_updated_order EditOrderDialog_init_ui
      make_order Order.buyer_phone Dialog.buyer_phone].
    apply orb_true_iff. destruct Hp as [-> | Hp]; [left; reflexivity|].
    right. apply re_match_phone, strip_phone, re_match_phone, Hp. }
  rewrite H1, H2. cbn [negb].
  rewrite (setitem_nat _ _ _ _ Ho), committed_exact.
  eexists. split; [reflexivity|]. destruct is_registered; reflexivity.
Qed.

Lemma unchanged_edit_accepted_witness :
  fst (validate_inputs ascii_isalnum phone_order_form) = true /\
  registered_orders phone_order_ledger !! 0%nat
  = Some (make_order (txt "2025/01/01") phone_order_form phone_order_items) /\
  exists s',
    edit_order 0 true
      (Some (EditOrderDialog_init_ui
               (make_order (txt "2025/01/01") phone_order_form phone_order_items)))
      phone_order_ledger
    = Return (Information OrderEdited) s' /\
    map Order.buyer_name (registered_orders s') = [txt "Ali"].
Proof.
  split; [vm_compute; reflexivity|]. split; [reflexivity|].
  destruct (unchanged_edit_accepted ascii_isalnum (txt "2025/01/01")
              phone_order_form phone_order_items true 0 phone_order_ledger)
    as (s' & H1 & H2); [vm_compute; reflexivity | reflexivity |].
  exists s'. split; [exact H1|].
  change (order_list true s') with (registered_orders s') in H2.
  rewrite H2. vm_compute. reflexivity.
Defined.
